(** * TUMReader: the RGB-D dataset associator/reader of [tum_reader.py]

    A shallow embedding of [mrhash/apps/utils/tum_reader.py] and the
    properties of its association, indexing and iteration.

    Conventions of the embedding:
    - a Python [float] (and a [numpy.float64]) is a primitive binary64
      [float]; a [numpy.float32] is a [spec_float] of precision 24;
    - a [string] is decoded text, one character per code point; the
      embedding covers text whose code points are below 256;
    - a raised exception is the [Raise] case of [result];
    - the file system is a finite view [path -> option node], read-only;
    - Python's builtin [float()], pathlib's [/] and PIL's [convert("RGB")]
      are the fields of the class [Runtime]: the reader is verified for
      every implementation of them. *)

From Stdlib Require Import String Ascii List ZArith Bool Lia Floats.
From Stdlib Require QArith Qabs.
Import ListNotations.

Local Open Scope string_scope.
Local Open Scope list_scope.

Set Warnings "-inexact-float".

(** ** Exceptions and the error monad *)

Inductive exn : Type :=
| FileNotFoundError
| ValueError
| IndexError
| StopIteration
| OSError.

Inductive result (A : Type) : Type :=
| Ok (a : A)
| Raise (e : exn).

Arguments Ok {A} a.
Arguments Raise {A} e.

Definition bind {A B : Type} (m : result A) (k : A -> result B) : result B :=
  match m with
  | Ok a => k a
  | Raise e => Raise e
  end.

Notation "x <- m ;; k" := (bind m (fun x => k))
  (at level 61, m at next level, right associativity).

Definition succeeds {A : Type} (m : result A) : bool :=
  match m with Ok _ => true | Raise _ => false end.

(** ** Python sequences

    [seq[i]] on a list: [IndexError] outside the length.  [py_getitem] is the
    subscript with an [int] index, where a negative index counts from the
    end; [list_get] is the subscript with an index known to be a position. *)

Definition list_get {A : Type} (l : list A) (i : nat) : result A :=
  match nth_error l i with
  | Some a => Ok a
  | None => Raise IndexError
  end.

Definition py_getitem {A : Type} (l : list A) (i : Z) : result A :=
  let n := Z.of_nat (length l) in
  if (0 <=? i)%Z then list_get l (Z.to_nat i)
  else if (0 <=? i + n)%Z then list_get l (Z.to_nat (i + n))
  else Raise IndexError.

(** ** Text: [str.startswith('#')] and [str.split()] *)

Definition startswith_hash (line : string) : bool :=
  match line with
  | String c _ => Ascii.eqb c "#"%char
  | EmptyString => false
  end.

(** The characters below 256 for which [str.isspace] holds, those
    [str.split()] separates at: U+0009 to U+000D, U+001C to U+0020, U+0085
    and U+00A0. *)
Definition is_space (c : ascii) : bool :=
  let n := nat_of_ascii c in
  ((9 <=? n) && (n <=? 13) || (28 <=? n) && (n <=? 32)
   || (n =? 133) || (n =? 160))%nat.

(** [split_from cur s]: the tokens of [s], [cur] being the token under way. *)
Fixpoint split_from (cur : option string) (s : string) : list string :=
  match s with
  | EmptyString =>
      match cur with Some t => [t] | None => [] end
  | String c r =>
      if is_space c then
        match cur with
        | Some t => t :: split_from None r
        | None => split_from None r
        end
      else
        split_from
          (Some (match cur with Some t => (t ++ String c "")%string | None => String c "" end)) r
  end.

Definition split (s : string) : list string := split_from None s.

(** ** Floating point

    [x > y] on binary64 is [y < x]; both are false on NaN. *)

Definition gtb (x y : float) : bool := (y <? x)%float.

(** The 20 ms threshold of the association. *)
Definition threshold : float := 0.02%float.

(** Zero or finite, as a [spec_float]. *)
Definition SF_finite (x : spec_float) : bool :=
  match x with
  | S754_zero _ | S754_finite _ _ _ => true
  | _ => false
  end.

(** binary32, the format of [numpy.float32]. *)
Definition prec32 : Z := 24.
Definition emax32 : Z := 128.

Definition float32 : Type := spec_float.

(** Conversion of a binary64 value to binary32, to nearest even. *)
Definition float32_of_SF (x : spec_float) : float32 :=
  match x with
  | S754_finite s m e => binary_normalize prec32 emax32 (cond_Zopp s (Zpos m)) e s
  | _ => x
  end.

Definition float32_of_float (x : float) : float32 := float32_of_SF (Prim2SF x).

(** Conversion of an integer sample to binary32. *)
Definition float32_of_Z (v : Z) : float32 := binary_normalize prec32 emax32 v 0 false.

Definition float32_div (x y : float32) : float32 := SFdiv prec32 emax32 x y.

(** A value of the binary32 format: a zero, an infinity, NaN, or a finite
    number whose mantissa and exponent are those of the format (at most 24
    bits, exponent from -149 to 104, the mantissa of 24 bits unless the
    exponent is -149). *)
Definition is_binary32 (x : spec_float) : bool :=
  SpecFloat.valid_binary prec32 emax32 x.

(** ** Values of the data model *)

(** A metadata record: [(float(parts[0]), parts[1:])]. *)
Definition record : Type := float * list string.

(** A match, the dict [{'rgb': .., 'depth': .., 'pose': ..}]. *)
Record Match : Type := mkMatch {
  m_rgb : string;
  m_depth : string;
  m_pose : list string
}.

(** A decoded image: rows of pixels, a pixel being its band samples. *)
Definition image : Type := list (list (list Z)).

(** The arrays handed back: the same shape, of binary32 values. *)
Definition ndarray : Type := list (list (list float32)).

Definition path : Type := string.

Inductive node : Type :=
| TextFile (lines : list string)
| ImageFile (img : image).

Definition filesystem : Type := path -> option node.

(** A Python number given for [min_range] or [max_range]. *)
Inductive number : Type :=
| PyInt (z : Z)
| PyFloat (x : float).

(** The frame tuple [(item + 1, translation, quat, depth, rgb)]. *)
Definition frame : Type := Z * list float32 * list float32 * ndarray * ndarray.

Definition frame_index (f : frame) : Z :=
  match f with (i, _, _, _, _) => i end.
Definition frame_translation (f : frame) : list float32 :=
  match f with (_, t, _, _, _) => t end.
Definition frame_quat (f : frame) : list float32 :=
  match f with (_, _, q, _, _) => q end.
Definition frame_depth (f : frame) : ndarray :=
  match f with (_, _, _, d, _) => d end.
Definition frame_rgb (f : frame) : ndarray :=
  match f with (_, _, _, _, c) => c end.

(** ** The file system *)

Definition exists_ (fs : filesystem) (p : path) : bool :=
  match fs p with Some _ => true | None => false end.

(** [open(filename, 'r')] and the iteration over its lines.  A node that is
    not a text file opens, and reading its first line fails to decode:
    [UnicodeDecodeError], a [ValueError]. *)
Definition open_lines (fs : filesystem) (p : path) : result (list string) :=
  match fs p with
  | None => Raise FileNotFoundError
  | Some (TextFile lines) => Ok lines
  | Some (ImageFile _) => Raise ValueError
  end.

(** [Image.open(path)].  A node that is not an image is reported as
    [OSError] (PIL's [UnidentifiedImageError] is one). *)
Definition Image_open (fs : filesystem) (p : path) : result image :=
  match fs p with
  | None => Raise FileNotFoundError
  | Some (ImageFile img) => Ok img
  | Some (TextFile _) => Raise OSError
  end.

(** ** [numpy.argmin] on a one-dimensional float64 array

    The index of the first occurrence of the minimum; the index of the first
    NaN when there is one; [ValueError] on an empty array.  [argmin_loop]
    is the scan, [mp] the minimum so far, [min_ind] its index and [i] the
    index of the head of [xs]; an element replaces the minimum when
    [not (x >= mp)]. *)

Fixpoint argmin_loop (mp : float) (min_ind i : nat) (xs : list float) : nat :=
  match xs with
  | [] => min_ind
  | x :: r =>
      if negb (mp <=? x)%float then
        if is_nan x then i else argmin_loop x i (S i) r
      else argmin_loop mp min_ind (S i) r
  end.

Definition np_argmin (xs : list float) : result nat :=
  match xs with
  | [] => Raise ValueError
  | x :: r => Ok (if is_nan x then 0%nat else argmin_loop x 0 1 r)
  end.

(** [np.abs(timestamps - ts)], elementwise. *)
Definition abs_diffs (timestamps : list float) (ts : float) : list float :=
  map (fun t => abs (t - ts)%float) timestamps.

(** ** What the reader takes from its runtime *)

Class Runtime : Type := {
  (** the builtin [float(s)]: [None] stands for its [ValueError] *)
  py_float : string -> option float;
  (** [data_dir / name] of pathlib *)
  joinpath : path -> string -> path;
  (** [img.convert("RGB")] of PIL *)
  convert_RGB : image -> image
}.

Module TUMReader.

Section Reader.

Context {RT : Runtime}.

(** [float(s)] *)
Definition float_of (s : string) : result float :=
  match py_float s with
  | Some x => Ok x
  | None => Raise ValueError
  end.

(** *** [read_file_list]

    The loop over the lines: a comment line is skipped, [parts[0]] raises
    [IndexError] on a line without token, [float] raises [ValueError]. *)
Fixpoint parse_lines (lines : list string) : result (list record) :=
  match lines with
  | [] => Ok []
  | line :: rest =>
      if startswith_hash line then parse_lines rest
      else
        let parts := split line in
        p0 <- list_get parts 0 ;;
        ts <- float_of p0 ;;
        file_list <- parse_lines rest ;;
        Ok ((ts, tl parts) :: file_list)
  end.

Definition read_file_list (fs : filesystem) (filename : path) : result (list record) :=
  lines <- open_lines fs filename ;;
  parse_lines lines.

(** *** Association (nearest neighbour)

    The body of the loop [for rgb_ts, rgb_data in rgb_list]; [None] is its
    [continue]. *)
Section Association.

Variables depth_list pose_list : list record.

Definition depth_timestamps : list float := map fst depth_list.
Definition pose_timestamps : list float := map fst pose_list.

Definition associate_one (rgb_ts : float) (rgb_data : list string)
  : result (option Match) :=
  d_idx <- np_argmin (abs_diffs depth_timestamps rgb_ts) ;;
  d_ts <- list_get depth_timestamps d_idx ;;
  if gtb (abs (d_ts - rgb_ts)%float) threshold then Ok None
  else
    p_idx <- np_argmin (abs_diffs pose_timestamps rgb_ts) ;;
    p_ts <- list_get pose_timestamps p_idx ;;
    if gtb (abs (p_ts - rgb_ts)%float) threshold then Ok None
    else
      rgb <- list_get rgb_data 0 ;;
      d_rec <- list_get depth_list d_idx ;;
      depth <- list_get (snd d_rec) 0 ;;
      p_rec <- list_get pose_list p_idx ;;
      Ok (Some (mkMatch rgb depth (snd p_rec))).

Fixpoint associate (rgb_list : list record) : result (list Match) :=
  match rgb_list with
  | [] => Ok []
  | (rgb_ts, rgb_data) :: rest =>
      om <- associate_one rgb_ts rgb_data ;;
      matches <- associate rest ;;
      Ok (match om with Some m => m :: matches | None => matches end)
  end.

End Association.

(** *** Poses: [float(p[0]) .. float(p[6])], stored as float32 *)

Definition float_at (p : list string) (i : nat) : result float :=
  tok <- list_get p i ;;
  float_of tok.

Definition parse_pose (p : list string) : result (list float32 * list float32) :=
  tx <- float_at p 0 ;;
  ty <- float_at p 1 ;;
  tz <- float_at p 2 ;;
  qx <- float_at p 3 ;;
  qy <- float_at p 4 ;;
  qz <- float_at p 5 ;;
  qw <- float_at p 6 ;;
  Ok (map float32_of_float [tx; ty; tz], map float32_of_float [qx; qy; qz; qw]).

(** The loop [for m in matches], giving [(poses, quats)]. *)
Fixpoint parse_poses (matches : list Match)
  : result (list (list float32) * list (list float32)) :=
  match matches with
  | [] => Ok ([], [])
  | m :: rest =>
      tq <- parse_pose (m_pose m) ;;
      pq <- parse_poses rest ;;
      Ok (fst tq :: fst pq, snd tq :: snd pq)
  end.

(** The pose list file: [groundtruth.txt], or [poses.txt] when the former
    does not exist. *)
Definition pose_file_of (fs : filesystem) (data_dir : path) : path :=
  if exists_ fs (joinpath data_dir "groundtruth.txt")
  then joinpath data_dir "groundtruth.txt"
  else joinpath data_dir "poses.txt".

(** The match list that [load_tum_data] builds (its local [matches]), the
    pose file being chosen. *)
Definition load_matches_from (fs : filesystem) (data_dir pose_file : path)
  : result (list Match) :=
  rgb_list <- read_file_list fs (joinpath data_dir "rgb.txt") ;;
  depth_list <- read_file_list fs (joinpath data_dir "depth.txt") ;;
  pose_list <- read_file_list fs pose_file ;;
  associate depth_list pose_list rgb_list.

Definition load_matches (fs : filesystem) (data_dir : path) : result (list Match) :=
  load_matches_from fs data_dir (pose_file_of fs data_dir).

Definition load_tum_data (fs : filesystem) (data_dir : path)
  : result (list path * list path * list (list float32) * list (list float32)) :=
  matches <- load_matches fs data_dir ;;
  let rgb_paths := map (fun m => joinpath data_dir (m_rgb m)) matches in
  let depth_paths := map (fun m => joinpath data_dir (m_depth m)) matches in
  pq <- parse_poses matches ;;
  Ok (rgb_paths, depth_paths, fst pq, snd pq).

(** *** The reader object *)

Record t : Type := mkReader {
  data_dir : path;
  min_range : number;
  max_range : number;
  depth_scaling : float;
  rgb_images : list path;
  depth_images : list path;
  poses : list (list float32);
  quats : list (list float32);
  file_index : Z
}.

Definition default_min_range : number := PyFloat 0.01%float.
Definition default_max_range : number := PyInt 30.
Definition default_depth_scaling : float := 5000%float.

(** [__init__] *)
Definition init (fs : filesystem) (dir : path) (mn mx : number) (scaling : float)
  : result t :=
  data <- load_tum_data fs dir ;;
  match data with
  | (rgb_paths, depth_paths, ps, qs) =>
      Ok (mkReader dir mn mx scaling rgb_paths depth_paths ps qs 0)
  end.

(** *** Methods

    A method runs on the reader object and may assign its attributes: it is
    a function from the reader before the call to the outcome and the reader
    after it.  An exception leaves the assignments made so far. *)

Definition method (A : Type) : Type := t -> result A * t.

Definition ret {A : Type} (a : A) : method A := fun self => (Ok a, self).

Definition raise {A : Type} (e : exn) : method A := fun self => (Raise e, self).

Definition lift {A : Type} (r : result A) : method A := fun self => (r, self).

Definition mbind {A B : Type} (m : method A) (k : A -> method B) : method B :=
  fun self =>
    match m self with
    | (Ok a, self') => k a self'
    | (Raise e, self') => (Raise e, self')
    end.

Notation "x <~ m ;; k" := (mbind m (fun x => k))
  (at level 61, m at next level, right associativity).

(** [self.attr] *)
Definition attr {A : Type} (f : t -> A) : method A := fun self => (Ok (f self), self).

(** [self.file_index = v] *)
Definition set_file_index (v : Z) : method unit :=
  fun self =>
    (Ok tt,
     mkReader (data_dir self) (min_range self) (max_range self) (depth_scaling self)
              (rgb_images self) (depth_images self) (poses self) (quats self) v).

(** [__len__] *)
Definition len (self : t) : Z := Z.of_nat (length (rgb_images self)).

(** [np.array(img, dtype=np.float32)] *)
Definition to_float32_array (img : image) : ndarray :=
  map (map (map float32_of_Z)) img.

(** [arr / depth_scaling]: the Python float is taken to the array's dtype. *)
Definition divide_array (arr : ndarray) (scaling : float) : ndarray :=
  map (map (map (fun v => float32_div v (float32_of_float scaling)))) arr.

(** [__getitem__] *)
Definition getitem (fs : filesystem) (item : Z) : method frame :=
  n <~ attr len ;;
  if (n <=? item)%Z then raise IndexError
  else
    ps <~ attr poses ;;
    translation <~ lift (py_getitem ps item) ;;
    qs <~ attr quats ;;
    quat <~ lift (py_getitem qs item) ;;
    dps <~ attr depth_images ;;
    depth_path <~ lift (py_getitem dps item) ;;
    depth_img <~ lift (Image_open fs depth_path) ;;
    scaling <~ attr depth_scaling ;;
    let depth := divide_array (to_float32_array depth_img) scaling in
    rps <~ attr rgb_images ;;
    rgb_path <~ lift (py_getitem rps item) ;;
    rgb_img <~ lift (Image_open fs rgb_path) ;;
    let rgb := to_float32_array (convert_RGB rgb_img) in
    ret (item + 1, translation, quat, depth, rgb)%Z.

(** [__iter__]: the cursor is reset; the iterator is the reader itself. *)
Definition iter : method unit := set_file_index 0.

(** [__next__] *)
Definition next (fs : filesystem) : method frame :=
  n <~ attr len ;;
  i <~ attr file_index ;;
  if (n <=? i)%Z then raise StopIteration
  else
    i <~ attr file_index ;;
    res <~ getitem fs i ;;
    i <~ attr file_index ;;
    _ <~ set_file_index (i + 1) ;;
    ret res.

(** The loop [for frame in it]: [next] until [StopIteration], which ends the
    loop; any other exception leaves it.  [fuel] bounds the number of calls
    of [next]; [None] is the loop still running when it is spent. *)
Fixpoint drain (fs : filesystem) (fuel : nat) (self : t)
  : option (result (list frame) * t) :=
  match fuel with
  | O => None
  | S fuel' =>
      match next fs self with
      | (Raise StopIteration, self') => Some (Ok [], self')
      | (Raise e, self') => Some (Raise e, self')
      | (Ok fr, self') =>
          match drain fs fuel' self' with
          | Some (Ok frs, self'') => Some (Ok (fr :: frs), self'')
          | other => other
          end
      end
  end.

(** A full iteration, [list(reader)]: [__iter__], then the loop. *)
Definition iterate (fs : filesystem) (fuel : nat) (self : t)
  : option (result (list frame) * t) :=
  drain fs fuel (snd (iter self)).

End Reader.

End TUMReader.

(** ** The association as the specification words it

    For a color record, the nearest record of a list is the first one whose
    absolute timestamp difference is a minimum over the list; the color
    record is kept when its nearest depth record and its nearest pose record
    are both within the tolerance. *)

Module Spec.

Definition dist (ts : float) (r : record) : float := abs (fst r - ts)%float.

Definition is_minimum (ts : float) (recs : list record) (r : record) : bool :=
  forallb (fun r' => (dist ts r <=? dist ts r')%float) recs.

Definition nearest (ts : float) (recs : list record) : option record :=
  find (is_minimum ts recs) recs.

Definition within_tolerance (ts : float) (r : record) : bool :=
  (dist ts r <=? threshold)%float.

Definition file_path_token (r : record) : string := hd "" (snd r).

Definition match_of (depth_list pose_list : list record) (c : record) : option Match :=
  match nearest (fst c) depth_list, nearest (fst c) pose_list with
  | Some d, Some p =>
      if within_tolerance (fst c) d && within_tolerance (fst c) p
      then Some (mkMatch (file_path_token c) (file_path_token d) (snd p))
      else None
  | _, _ => None
  end.

Definition qualifies (depth_list pose_list : list record) (c : record) : bool :=
  match match_of depth_list pose_list c with Some _ => true | None => false end.

Fixpoint matches (depth_list pose_list rgb_list : list record) : list Match :=
  match rgb_list with
  | [] => []
  | c :: rest =>
      match match_of depth_list pose_list c with
      | Some m => m :: matches depth_list pose_list rest
      | None => matches depth_list pose_list rest
      end
  end.

(** The seven leading numeric fields of a pose record, when it has them. *)
Fixpoint all_floats {RT : Runtime} (toks : list string) : option (list float) :=
  match toks with
  | [] => Some []
  | tok :: rest =>
      match py_float tok, all_floats rest with
      | Some x, Some xs => Some (x :: xs)
      | _, _ => None
      end
  end.

Definition leading_fields {RT : Runtime} (p : list string) : option (list float) :=
  if (7 <=? length p)%nat then all_floats (firstn 7 p) else None.

Definition has_fields {RT : Runtime} (p : list string) : bool :=
  match leading_fields p with Some _ => true | None => false end.

(** Translation and orientation of a pose record with its seven fields. *)
Definition translation_of {RT : Runtime} (p : list string) : list float32 :=
  match leading_fields p with
  | Some xs => map float32_of_float (firstn 3 xs)
  | None => []
  end.

Definition orientation_of {RT : Runtime} (p : list string) : list float32 :=
  match leading_fields p with
  | Some xs => map float32_of_float (skipn 3 xs)
  | None => []
  end.

(** The errors by which Python reports a record that does not parse:
    [IndexError] for a missing field, [ValueError] for a non-numeric one. *)
Definition is_parse_error (e : exn) : bool :=
  match e with
  | ValueError | IndexError => true
  | _ => false
  end.

(** The sample at a row, a column and a band. *)
Definition sample {A : Type} (arr : list (list (list A))) (row col band : nat) : option A :=
  match nth_error arr row with
  | Some r =>
      match nth_error r col with
      | Some px => nth_error px band
      | None => None
      end
  | None => None
  end.

(** The rational number that a zero or finite floating-point value is:
    [m * 2 ^ e] with its sign. *)
Definition value (x : spec_float) : option QArith_base.Q :=
  match x with
  | S754_zero _ => Some (QArith_base.inject_Z 0)
  | S754_finite s m e =>
      Some (QArith_base.Qmult (QArith_base.inject_Z (cond_Zopp s (Zpos m)))
                              (QArith_base.Qpower (QArith_base.inject_Z 2) e))
  | _ => None
  end.

(** [a] is at least as near to [q] as [b] is. *)
Definition nearer (a b q : QArith_base.Q) : bool :=
  QArith_base.Qle_bool (Qabs.Qabs (QArith_base.Qminus a q))
                       (Qabs.Qabs (QArith_base.Qminus b q)).

(** [x] is a finite binary32 value nearest to the rational [q]: neither the
    binary32 value below it nor the one above it is nearer to [q]. *)
Definition nearest_float32 (x : float32) (q : QArith_base.Q) : bool :=
  is_binary32 x
  && match value x, value (SFpred prec32 emax32 x), value (SFsucc prec32 emax32 x) with
     | Some a, Some lo, Some hi => nearer a lo q && nearer a hi q
     | _, _, _ => false
     end.

(** The quotient [v / d] of an integer by a binary64 divisor, as a rational;
    there is none when [d] is zero, infinite or NaN. *)
Definition quotient (v : Z) (d : float) : option QArith_base.Q :=
  match value (Prim2SF d) with
  | Some dq =>
      if QArith_base.Qeq_bool dq (QArith_base.inject_Z 0) then None
      else Some (QArith_base.Qdiv (QArith_base.inject_Z v) dq)
  | None => None
  end.

(** [x] is a binary32 value nearest to [v / d]. *)
Definition rounded_quotient (x : float32) (v : Z) (d : float) : bool :=
  match quotient v d with
  | Some q => nearest_float32 x q
  | None => false
  end.

(** [x] is a binary32 value nearest to the binary64 value [y]. *)
Definition nearest_to_float (x : float32) (y : float) : bool :=
  match value (Prim2SF y) with
  | Some q => nearest_float32 x q
  | None => false
  end.

(** [f] holds of the [2 ^ bits] integers from [base] on. *)
Fixpoint all_from (f : Z -> bool) (bits : nat) (base : Z) : bool :=
  match bits with
  | O => f base
  | S b => all_from f b base && all_from f b (base + 2 ^ Z.of_nat b)
  end.

(** Both images of position [k] can be opened. *)
Definition image_present (fs : filesystem) (paths : list path) (k : nat) : bool :=
  match nth_error paths k with
  | Some p => succeeds (Image_open fs p)
  | None => false
  end.

Definition loadable {RT : Runtime} (fs : filesystem) (r : TUMReader.t) (k : nat) : bool :=
  image_present fs (TUMReader.depth_images r) k
  && image_present fs (TUMReader.rgb_images r) k.

(** The timestamps of the records are finite. *)
Definition finite_timestamps (recs : list record) : bool :=
  forallb (fun r => is_finite (fst r)) recs.

(** No absolute timestamp difference between a color record and a record of
    [recs] is NaN (none is when the timestamps are finite). *)
Definition comparable (rgb_list recs : list record) : bool :=
  forallb (fun c => forallb (fun r => negb (is_nan (dist (fst c) r))) recs) rgb_list.

(** The record has a token after its timestamp. *)
Definition has_token (r : record) : bool :=
  match snd r with
  | [] => false
  | _ :: _ => true
  end.

Definition all_loadable {RT : Runtime} (fs : filesystem) (r : TUMReader.t) : bool :=
  forallb (loadable fs r) (seq 0 (length (TUMReader.rgb_images r))).

(** *** Notions about the code that the properties are stated with *)

Definition no_nan (xs : list float) : Prop := Forall (fun x => is_nan x = false) xs.

(** [v] at index [k] is a minimum of [xs] and no element before it is. *)
Definition first_minimum (xs : list float) (k : nat) (v : float) : Prop :=
  nth_error xs k = Some v
  /\ (forall e, In e xs -> (v <=? e)%float = true)
  /\ (forall j e, (j < k)%nat -> nth_error xs j = Some e -> (e <=? v)%float = false).

(** The four lists of a constructed reader have one length. *)
Definition consistent (r : TUMReader.t) : Prop :=
  length (TUMReader.depth_images r) = length (TUMReader.rgb_images r)
  /\ length (TUMReader.poses r) = length (TUMReader.rgb_images r)
  /\ length (TUMReader.quats r) = length (TUMReader.rgb_images r).

(** The position that Python's list subscript gives to index [i] in a list
    of length [n]. *)
Definition position (n i : Z) : nat :=
  Z.to_nat (if (0 <=? i)%Z then i else (i + n)%Z).

(** The frame of position [k], handed back with index [idx]. *)
Definition frame_at {RT : Runtime} (fs : filesystem) (r : TUMReader.t) (k : nat) (idx : Z)
  : result frame :=
  translation <- list_get (TUMReader.poses r) k ;;
  quat <- list_get (TUMReader.quats r) k ;;
  depth_path <- list_get (TUMReader.depth_images r) k ;;
  depth_img <- Image_open fs depth_path ;;
  rgb_path <- list_get (TUMReader.rgb_images r) k ;;
  rgb_img <- Image_open fs rgb_path ;;
  Ok (idx, translation, quat,
      TUMReader.divide_array (TUMReader.to_float32_array depth_img)
        (TUMReader.depth_scaling r),
      TUMReader.to_float32_array (convert_RGB rgb_img)).

(** The reader with its cursor set to [v], every other attribute kept. *)
Definition with_cursor (r : TUMReader.t) (v : Z) : TUMReader.t :=
  snd (TUMReader.set_file_index v r).

End Spec.

(** ** A runtime and a dataset for the examples *)

Module Sample.

Definition digit_of (c : ascii) : option Z :=
  let n := nat_of_ascii c in
  if ((48 <=? n) && (n <=? 57))%nat then Some (Z.of_nat (n - 48)) else None.

(** [scan s dot m k nd]: the digits of [s] after [nd] digits of value [m],
    [k] of them behind the point. *)
Fixpoint scan (s : string) (dot : bool) (m : Z) (k nd : nat) : option (Z * nat) :=
  match s with
  | EmptyString => if (nd =? 0)%nat then None else Some (m, k)
  | String c r =>
      if Ascii.eqb c "."%char then
        if dot then None else scan r true m k nd
      else
        match digit_of c with
        | Some d => scan r dot (10 * m + d)%Z (if dot then S k else k) (S nd)
        | None => None
        end
  end.

(** [float] on the plain decimal literals [-ddd.ddd] whose digits make an
    integer below [2^53] with at most 18 of them behind the point: the
    quotient of two exact binary64 values, hence the nearest binary64.
    Every other string is rejected. *)
Definition decimal_float (s : string) : option float :=
  let '(neg, body) :=
    match s with
    | String c r => if Ascii.eqb c "-"%char then (true, r) else (false, s)
    | EmptyString => (false, s)
    end in
  match scan body false 0 0 0 with
  | Some (m, k) =>
      if ((m <? 2 ^ 53)%Z && (k <=? 18)%nat)%bool then
        let q := (of_uint63 (Uint63.of_Z m) / of_uint63 (Uint63.of_Z (10 ^ Z.of_nat k)))%float in
        Some (if neg then (- q)%float else q)
      else None
  | None => None
  end.

#[export] Instance runtime : Runtime := {
  py_float := decimal_float;
  joinpath := fun dir name => (dir ++ "/" ++ name)%string;
  convert_RGB := fun img => img
}.

Definition files (table : list (path * node)) : filesystem :=
  fun p =>
    match find (fun e => String.eqb (fst e) p) table with
    | Some e => Some (snd e)
    | None => None
    end.

(** A directory with three color frames, the third of which has no depth
    partner within the tolerance; [pose_files] are its pose list files. *)
Definition tree (pose_files : list (path * node)) : filesystem :=
  files
    ([ ("data/rgb.txt",
        TextFile ["# color images"; "0.100000 rgb/1.png"; "0.200000 rgb/2.png";
                  "0.300000 rgb/3.png"]);
       ("data/depth.txt",
        TextFile ["# depth maps"; "0.105000 depth/1.png"; "0.195000 depth/2.png";
                  "0.350000 depth/3.png"]);
       ("data/rgb/1.png", ImageFile [[[10; 20; 30]%Z]]);
       ("data/rgb/2.png", ImageFile [[[40; 50; 60]%Z]]);
       ("data/depth/1.png", ImageFile [[[5000%Z]; [1%Z]]]);
       ("data/depth/2.png", ImageFile [[[10000%Z]; [0%Z]]]) ]
       ++ pose_files).

Definition trajectory : list string :=
  [ "# ground truth trajectory";
    "0.101000 1.0 2.0 3.0 0.0 0.0 0.0 1.0";
    "0.201000 1.5 2.5 3.5 0.0 0.0 0.0 1.0";
    "0.301000 4.0 5.0 6.0 0.0 0.0 0.0 1.0" ].

Definition dataset : filesystem :=
  tree [("data/groundtruth.txt", TextFile trajectory)].

(** The same with the pose list under its second name, under both names,
    and under none. *)
Definition dataset_poses_txt : filesystem :=
  tree [("data/poses.txt", TextFile trajectory)].

Definition dataset_both : filesystem :=
  tree [("data/groundtruth.txt", TextFile trajectory);
        ("data/poses.txt", TextFile ["0.101000 9.0 9.0 9.0 0.0 0.0 0.0 1.0";
                                     "0.201000 9.0 9.0 9.0 0.0 0.0 0.0 1.0"])].

Definition dataset_no_pose : filesystem := tree [].

(** Pose records that do not parse: six fields, and a field that is no
    number. *)
Definition dataset_short_pose : filesystem :=
  tree [("data/groundtruth.txt",
         TextFile ["0.101000 1.0 2.0 3.0 0.0 0.0 0.0";
                   "0.201000 1.5 2.5 3.5 0.0 0.0 0.0 1.0"])].

Definition dataset_bad_pose : filesystem :=
  tree [("data/groundtruth.txt",
         TextFile ["0.101000 1.0 2.0 3.0 0.0 zero 0.0 1.0";
                   "0.201000 1.5 2.5 3.5 0.0 0.0 0.0 1.0"])].

(** Pose records whose fields are no binary32 values: decimal fractions,
    and an integer of 25 bits. *)
Definition dataset_decimal_pose : filesystem :=
  tree [("data/groundtruth.txt",
         TextFile ["0.101000 0.1 -0.2 0.3 0.0 0.6 0.0 0.8";
                   "0.201000 1.5 2.5 16777217 0.0 0.0 0.0 1.0"])].

(** The first dataset with the samples 13 and 0 in its first depth image,
    and the reader that [__init__] makes of it with the divisor [sc]. *)
Definition dataset_sample_13 : filesystem :=
  fun p => if String.eqb p "data/depth/1.png" then Some (ImageFile [[[13%Z]; [0%Z]]])
           else dataset p.

Definition reader_with (sc : float) : TUMReader.t :=
  TUMReader.mkReader "data"
    TUMReader.default_min_range TUMReader.default_max_range sc
    ["data/rgb/1.png"; "data/rgb/2.png"]
    ["data/depth/1.png"; "data/depth/2.png"]
    [map float32_of_float [1; 2; 3]%float; map float32_of_float [1.5; 2.5; 3.5]%float]
    [map float32_of_float [0; 0; 0; 1]%float; map float32_of_float [0; 0; 0; 1]%float]
    0.

(** The first dataset without the depth image of its second frame. *)
Definition dataset_without_depth_2 : filesystem :=
  fun p => if String.eqb p "data/depth/2.png" then None else dataset p.

(** A directory with one frame and no image, and its reader. *)
Definition dataset_no_image : filesystem :=
  files [("data/rgb.txt", TextFile ["0.1 rgb/1.png"]);
         ("data/depth.txt", TextFile ["0.1 depth/1.png"]);
         ("data/poses.txt", TextFile ["0.1 1 2 3 0 0 0 1"])].

Definition reader_no_image : TUMReader.t :=
  TUMReader.mkReader "data"
    TUMReader.default_min_range TUMReader.default_max_range
    TUMReader.default_depth_scaling
    ["data/rgb/1.png"] ["data/depth/1.png"]
    [map float32_of_float [1; 2; 3]%float] [map float32_of_float [0; 0; 0; 1]%float] 0.

(** The characters U+00A0 (no-break space) and U+0085 (next line), which
    separate tokens as the ASCII space does. *)
Definition no_break_space : string := String (ascii_of_nat 160) "".
Definition next_line : string := String (ascii_of_nat 133) "".

Definition records_of (name : string) : list record :=
  match TUMReader.read_file_list dataset name with
  | Ok l => l
  | Raise _ => []
  end.

(** The reader that [__init__] makes of it, with the default parameters. *)
Definition reader : TUMReader.t :=
  TUMReader.mkReader "data"
    TUMReader.default_min_range TUMReader.default_max_range
    TUMReader.default_depth_scaling
    ["data/rgb/1.png"; "data/rgb/2.png"]
    ["data/depth/1.png"; "data/depth/2.png"]
    [map float32_of_float [1; 2; 3]%float; map float32_of_float [1.5; 2.5; 3.5]%float]
    [map float32_of_float [0; 0; 0; 1]%float; map float32_of_float [0; 0; 0; 1]%float]
    0.

Definition rgb_list : list record := Eval vm_compute in records_of "data/rgb.txt".
Definition depth_list : list record := Eval vm_compute in records_of "data/depth.txt".
Definition pose_list : list record := Eval vm_compute in records_of "data/groundtruth.txt".

End Sample.

(** ** Notions for the further properties of the code *)

Module Notions.

(** A line that [read_file_list] does not skip. *)
Definition is_record_line (line : string) : bool := negb (startswith_hash line).

(** A line of whitespace only. *)
Fixpoint all_space (s : string) : bool :=
  match s with
  | EmptyString => true
  | String c r => is_space c && all_space r
  end.

(** What [read_file_list] makes of a record line: the record [rec] has the
    number of the first token as timestamp and the other tokens as data. *)
Definition record_of_line {RT : Runtime} (line : string) (rec : record) : Prop :=
  exists tok, hd_error (split line) = Some tok
              /\ py_float tok = Some (fst rec)
              /\ snd rec = tl (split line).

(** [l1] is [l2] with some elements left out, the order kept. *)
Inductive subsequence {A : Type} : list A -> list A -> Prop :=
| sub_nil : subsequence [] []
| sub_skip (x : A) (l1 l2 : list A) : subsequence l1 l2 -> subsequence l1 (x :: l2)
| sub_keep (x : A) (l1 l2 : list A) : subsequence l1 l2 -> subsequence (x :: l1) (x :: l2).

(** The match [m] pairs the color record [c] with the records [d] and [p],
    none of the two computed differences exceeding the threshold. *)
Definition pairs (c d p : record) (m : Match) : Prop :=
  m = mkMatch (Spec.file_path_token c) (Spec.file_path_token d) (snd p)
  /\ gtb (Spec.dist (fst c) d) threshold = false
  /\ gtb (Spec.dist (fst c) p) threshold = false.

(** The loop body finds for the timestamp [ts] a record of [recs] that
    passes its test: the one that the argmin selects is not beyond the
    threshold. *)
Definition has_partner (recs : list record) (ts : float) : bool :=
  match np_argmin (abs_diffs (map fst recs) ts) with
  | Ok k =>
      match nth_error recs k with
      | Some r => negb (gtb (Spec.dist ts r) threshold)
      | None => false
      end
  | Raise _ => false
  end.

(** The float32 [x] is the integer [v]. *)
Definition represents (x : float32) (v : Z) : bool :=
  match x with
  | S754_zero _ => (v =? 0)%Z
  | S754_finite s m e =>
      if (0 <=? e)%Z then (cond_Zopp s (Zpos m) * 2 ^ e =? v)%Z
      else (cond_Zopp s (Zpos m) =? v * 2 ^ (- e))%Z
  | _ => false
  end.

(** The float32 of [v] is [v] for the [2 ^ bits] integers from [base] on. *)
Fixpoint exact_from (bits : nat) (base : Z) : bool :=
  match bits with
  | O => represents (float32_of_Z base) base
  | S b => exact_from b base && exact_from b (base + 2 ^ Z.of_nat b)
  end.

(** The calls that a user makes on a reader, and the reader after them. *)
Inductive call : Type :=
| Iter
| Next
| Getitem (item : Z).

Definition after_call {RT : Runtime} (fs : filesystem) (self : TUMReader.t) (c : call)
  : TUMReader.t :=
  match c with
  | Iter => snd (TUMReader.iter self)
  | Next => snd (TUMReader.next fs self)
  | Getitem item => snd (TUMReader.getitem fs item self)
  end.

Definition after_calls {RT : Runtime} (fs : filesystem) (self : TUMReader.t)
  (cs : list call) : TUMReader.t :=
  fold_left (after_call fs) cs self.

(** The frame with its first element lowered by [n]. *)
Definition shift_index (n : Z) (res : result frame) : result frame :=
  match res with
  | Ok (idx, tr, q, d, c) => Ok ((idx - n)%Z, tr, q, d, c)
  | Raise e => Raise e
  end.

(** The frame without its depth map. *)
Definition without_depth (res : result frame)
  : result (Z * list float32 * list float32 * ndarray) :=
  match res with
  | Ok (idx, tr, q, _, c) => Ok (idx, tr, q, c)
  | Raise e => Raise e
  end.

(** The errors of opening an image. *)
Definition is_image_error (e : exn) : bool :=
  match e with
  | FileNotFoundError | OSError => true
  | _ => false
  end.

End Notions.

(** * Properties *)

(** ** The order of binary64 values *)

Module FloatOrder.

Lemma SFcompare_opp (x y : spec_float) :
  SFcompare y x = option_map CompOpp (SFcompare x y).
Proof.
  destruct x as [sx|sx| |sx mx ex], y as [sy|sy| |sy my ey]; simpl;
    try reflexivity;
    try (destruct sx; reflexivity); try (destruct sy; reflexivity);
    try (destruct sx, sy; reflexivity).
  destruct sx, sy; simpl; try reflexivity;
    rewrite (Z.compare_antisym ex ey);
    destruct (ex ?= ey)%Z; simpl; try reflexivity;
    change (Pos.compare_cont Eq my mx) with (Pos.compare my mx);
    change (Pos.compare_cont Eq mx my) with (Pos.compare mx my);
    rewrite (Pos.compare_antisym mx my); destruct (mx ?= my)%positive; reflexivity.
Qed.

Lemma SFcompare_refl (x : spec_float) :
  x <> S754_nan -> SFcompare x x = Some Eq.
Proof.
  destruct x as [s|s| |s m e]; simpl; intros H; try congruence.
  - destruct s; reflexivity.
  - change (Pos.compare_cont Eq m m) with (Pos.compare m m).
    rewrite Z.compare_refl, Pos.compare_refl. destruct s; reflexivity.
Qed.

Lemma SFcompare_defined (x y : spec_float) :
  x <> S754_nan -> y <> S754_nan -> SFcompare x y <> None.
Proof. destruct x, y; simpl; congruence. Qed.

Lemma SFleb_trans (x y z : spec_float) :
  SFleb x y = true -> SFleb y z = true -> SFleb x z = true.
Proof.
  unfold SFleb.
  destruct x as [sx|sx| |sx mx ex], y as [sy|sy| |sy my ey], z as [sz|sz| |sz mz ez];
    simpl; try congruence;
    try (destruct sx; simpl; congruence);
    try (destruct sy; simpl; congruence);
    try (destruct sz; simpl; congruence);
    try (destruct sx, sy; simpl; congruence);
    try (destruct sx, sz; simpl; congruence);
    try (destruct sy, sz; simpl; congruence);
    try (destruct sx, sy, sz; simpl; congruence).
  change (Pos.compare_cont Eq mx my) with (Pos.compare mx my);
  change (Pos.compare_cont Eq my mz) with (Pos.compare my mz);
  change (Pos.compare_cont Eq mx mz) with (Pos.compare mx mz).
  destruct sx, sy, sz; simpl; try congruence;
    destruct (Z.compare_spec ex ey), (Z.compare_spec ey ez), (Z.compare_spec ex ez);
    simpl; try congruence; try lia; subst;
    destruct (Pos.compare_spec mx my), (Pos.compare_spec my mz), (Pos.compare_spec mx mz);
    simpl; try congruence; try lia.
Qed.

Lemma is_nan_Prim2SF (x : float) :
  is_nan x = false -> Prim2SF x <> S754_nan.
Proof.
  unfold is_nan. rewrite eqb_spec. unfold SFeqb. intros H E.
  rewrite E in H. discriminate.
Qed.

Lemma leb_refl (x : float) : is_nan x = false -> (x <=? x)%float = true.
Proof.
  intros H. rewrite leb_spec. unfold SFleb.
  rewrite SFcompare_refl by (apply is_nan_Prim2SF; exact H). reflexivity.
Qed.

Lemma leb_trans (x y z : float) :
  (x <=? y)%float = true -> (y <=? z)%float = true -> (x <=? z)%float = true.
Proof. rewrite !leb_spec. apply SFleb_trans. Qed.

Lemma gtb_negb_leb (x y : float) :
  is_nan x = false -> is_nan y = false -> gtb x y = negb (x <=? y)%float.
Proof.
  intros Hx Hy. unfold gtb. rewrite ltb_spec, leb_spec. unfold SFltb, SFleb.
  rewrite (SFcompare_opp (Prim2SF x) (Prim2SF y)).
  pose proof (SFcompare_defined _ _ (is_nan_Prim2SF x Hx) (is_nan_Prim2SF y Hy)) as D.
  destruct (SFcompare (Prim2SF x) (Prim2SF y)) as [[| |]|]; simpl; congruence.
Qed.

Lemma leb_total (x y : float) :
  is_nan x = false -> is_nan y = false ->
  (x <=? y)%float = false -> (y <=? x)%float = true.
Proof.
  intros Hx Hy. rewrite !leb_spec. unfold SFleb.
  rewrite (SFcompare_opp (Prim2SF x) (Prim2SF y)).
  pose proof (SFcompare_defined _ _ (is_nan_Prim2SF x Hx) (is_nan_Prim2SF y Hy)) as D.
  destruct (SFcompare (Prim2SF x) (Prim2SF y)) as [[| |]|]; simpl; congruence.
Qed.

Lemma eqb_not_gtb (x y : float) : (x =? y)%float = true -> gtb x y = false.
Proof.
  unfold gtb. rewrite eqb_spec, ltb_spec. unfold SFeqb, SFltb.
  rewrite (SFcompare_opp (Prim2SF x) (Prim2SF y)).
  destruct (SFcompare (Prim2SF x) (Prim2SF y)) as [[| |]|]; simpl; congruence.
Qed.

Lemma leb_not_gtb (x y : float) : (x <=? y)%float = true -> gtb x y = false.
Proof.
  unfold gtb. rewrite leb_spec, ltb_spec. unfold SFleb, SFltb.
  rewrite (SFcompare_opp (Prim2SF x) (Prim2SF y)).
  destruct (SFcompare (Prim2SF x) (Prim2SF y)) as [[| |]|]; simpl; congruence.
Qed.

Lemma leb_not_nan (x y : float) :
  (x <=? y)%float = true -> is_nan x = false /\ is_nan y = false.
Proof.
  unfold is_nan. rewrite leb_spec, !eqb_spec. unfold SFleb, SFeqb. intros H.
  assert (Prim2SF x <> S754_nan /\ Prim2SF y <> S754_nan) as [Hx Hy].
  { destruct (Prim2SF x), (Prim2SF y); simpl in H; split; congruence. }
  rewrite !SFcompare_refl by assumption. split; reflexivity.
Qed.

(** The difference of two finite values is not NaN. *)

Lemma shr_1_nonneg (mrs : shr_record) :
  (0 <= shr_m mrs)%Z -> (0 <= shr_m (shr_1 mrs))%Z.
Proof.
  destruct mrs as [m r s]. destruct m as [|[p|p|]|[p|p|]]; simpl; lia.
Qed.

Lemma iter_shr_1_nonneg (p : positive) (mrs : shr_record) :
  (0 <= shr_m mrs)%Z -> (0 <= shr_m (iter_pos shr_1 p mrs))%Z.
Proof.
  revert mrs. induction p as [p IH|p IH|]; intros mrs H; simpl.
  - apply IH, IH, shr_1_nonneg, H.
  - apply IH, IH, H.
  - apply shr_1_nonneg, H.
Qed.

Lemma shr_fexp_nonneg (prec emax m e : Z) (l : location) :
  (0 <= m)%Z -> (0 <= shr_m (fst (shr_fexp prec emax m e l)))%Z.
Proof.
  intros H. unfold shr_fexp, shr.
  assert (H0 : (0 <= shr_m (shr_record_of_loc m l))%Z)
    by (destruct l as [|[| |]]; exact H).
  destruct (fexp prec emax (Zdigits2 m + e) - e)%Z; simpl; try exact H0.
  apply iter_shr_1_nonneg, H0.
Qed.

Lemma binary_round_aux_not_nan (prec emax : Z) (sx : bool) (mx ex : Z) (lx : location) :
  (0 <= mx)%Z -> binary_round_aux prec emax sx mx ex lx <> S754_nan.
Proof.
  intros H. unfold binary_round_aux.
  pose proof (shr_fexp_nonneg prec emax mx ex lx H) as H1.
  destruct (shr_fexp prec emax mx ex lx) as [mrs' e']. cbn [fst] in H1.
  assert (H2 : (0 <= round_nearest_even (shr_m mrs') (loc_of_shr_record mrs'))%Z).
  { unfold round_nearest_even.
    destruct (loc_of_shr_record mrs') as [|[| |]]; try exact H1;
      try destruct (Z.even (shr_m mrs')); lia. }
  pose proof (shr_fexp_nonneg prec emax _ e' loc_Exact H2) as H3.
  destruct (shr_fexp prec emax _ e' loc_Exact) as [mrs'' e'']. cbn [fst] in H3.
  destruct (shr_m mrs''); [congruence| |lia].
  destruct (_ <=? _)%Z; congruence.
Qed.

Lemma binary_normalize_not_nan (prec emax m e : Z) (szero : bool) :
  binary_normalize prec emax m e szero <> S754_nan.
Proof.
  unfold binary_normalize, binary_round.
  destruct m as [|p|p]; [congruence| |];
    destruct (shl_align _ _ _) as [mz ez]; apply binary_round_aux_not_nan; lia.
Qed.

Lemma SFsub_not_nan (prec emax : Z) (x y : spec_float) :
  SF_finite x = true -> SF_finite y = true -> SFsub prec emax x y <> S754_nan.
Proof.
  destruct x as [sx|sx| |sx mx ex], y as [sy|sy| |sy my ey]; simpl;
    try discriminate; intros _ _; try congruence.
  - destruct sx, sy; congruence.
  - apply binary_normalize_not_nan.
Qed.

Lemma is_finite_SF (x : float) : is_finite x = true -> SF_finite (Prim2SF x) = true.
Proof.
  unfold is_finite, is_nan, is_infinity.
  rewrite !eqb_spec, abs_spec. unfold SFeqb.
  change (Prim2SF infinity) with (S754_infinity false).
  destruct (Prim2SF x) as [s|s| |s m e]; try reflexivity.
  - destruct s; simpl; intros H; discriminate.
  - simpl. intros H; discriminate.
Qed.

Lemma not_nan_is_nan (x : float) : Prim2SF x <> S754_nan -> is_nan x = false.
Proof.
  intros H. unfold is_nan. rewrite eqb_spec. unfold SFeqb.
  rewrite SFcompare_refl by exact H. reflexivity.
Qed.

Lemma finite_diff_not_nan (a b : float) :
  is_finite a = true -> is_finite b = true -> is_nan (abs (b - a)%float) = false.
Proof.
  intros Ha Hb. apply not_nan_is_nan. rewrite abs_spec, sub_spec.
  pose proof (SFsub_not_nan prec emax _ _ (is_finite_SF b Hb) (is_finite_SF a Ha)) as H.
  unfold SF64sub. destruct (SFsub prec emax (Prim2SF b) (Prim2SF a)); simpl; congruence.
Qed.

End FloatOrder.

(** ** The conversions to binary32 give binary32 values

    [binary_normalize] applied to an aligned mantissa shifts it to the
    exponent of the format; the count of its digits follows the shifts, and
    a carry of the rounding is absorbed by the second shift. *)

Module Binary32.

Local Open Scope Z_scope.

Lemma fexp_eq (e : Z) : fexp prec32 emax32 e = Z.max (e - 24) (- 149).
Proof. reflexivity. Qed.

Lemma Zdigits2_pos (p : positive) : 0 < Zdigits2 (Zpos p).
Proof. cbn. lia. Qed.

Lemma digits_shr_1 (r : shr_record) :
  0 <= shr_m r ->
  0 <= shr_m (shr_1 r)
  /\ Zdigits2 (shr_m (shr_1 r)) = Z.max 0 (Zdigits2 (shr_m r) - 1).
Proof.
  destruct r as [m r s]. cbn [shr_m]. intros Hm.
  destruct m as [|p|p]; [cbn; lia| |lia].
  destruct p as [p|p|]; cbn [shr_1 shr_m Zdigits2 digits2_pos]; lia.
Qed.

Lemma digits_iter_shr_1 (n : positive) (r : shr_record) :
  0 <= shr_m r ->
  0 <= shr_m (iter_pos shr_1 n r)
  /\ Zdigits2 (shr_m (iter_pos shr_1 n r)) = Z.max 0 (Zdigits2 (shr_m r) - Zpos n).
Proof.
  revert r. induction n as [n IH|n IH|]; intros r Hr; cbn [iter_pos].
  - destruct (digits_shr_1 r Hr) as [H1 E1].
    destruct (IH _ H1) as [H2 E2]. destruct (IH _ H2) as [H3 E3].
    split; [exact H3|]. rewrite E3, E2, E1. lia.
  - destruct (IH _ Hr) as [H2 E2]. destruct (IH _ H2) as [H3 E3].
    split; [exact H3|]. rewrite E3, E2. lia.
  - apply digits_shr_1. exact Hr.
Qed.

Lemma shr_m_of_loc (m : Z) (l : location) : shr_m (shr_record_of_loc m l) = m.
Proof. destruct l as [|[ | | ]]; reflexivity. Qed.

Lemma digits2_succ (p : positive) :
  digits2_pos (Pos.succ p) = digits2_pos p
  \/ digits2_pos (Pos.succ p) = Pos.succ (digits2_pos p).
Proof.
  induction p as [p IH|p IH|]; cbn [Pos.succ digits2_pos].
  - destruct IH as [-> | ->]; auto.
  - auto.
  - auto.
Qed.

Lemma digits_round (m : Z) (l : location) :
  0 <= m ->
  0 <= round_nearest_even m l
  /\ (Zdigits2 (round_nearest_even m l) = Zdigits2 m
      \/ Zdigits2 (round_nearest_even m l) = Zdigits2 m + 1).
Proof.
  intros Hm.
  assert (H1 : 0 <= m + 1 /\ (Zdigits2 (m + 1) = Zdigits2 m \/ Zdigits2 (m + 1) = Zdigits2 m + 1)).
  { split; [lia|]. destruct m as [|p|p]; [right; reflexivity| |lia].
    replace (Z.pos p + 1) with (Z.pos (Pos.succ p)) by lia. cbn [Zdigits2].
    destruct (digits2_succ p) as [-> | ->]; [left; reflexivity|right; lia]. }
  destruct l as [|[ | | ]]; cbn [round_nearest_even]; auto.
  destruct (Z.even m); auto.
Qed.

(** The result of [shr_fexp] on an aligned mantissa is canonical. *)
Lemma shr_fexp_aligned (m e : Z) (l : location) :
  0 <= m -> e <= Z.max (Zdigits2 m + e - 24) (- 149) ->
  let '(r, e') := shr_fexp prec32 emax32 m e l in
  0 <= shr_m r /\ e' = Z.max (Zdigits2 (shr_m r) + e' - 24) (- 149).
Proof.
  intros Hm He. unfold shr_fexp. rewrite fexp_eq. unfold shr.
  pose proof (shr_m_of_loc m l) as Hl.
  destruct (Z.max (Zdigits2 m + e - 24) (- 149) - e) as [|n|n] eqn:Hn.
  - rewrite Hl. split; [exact Hm|lia].
  - destruct (digits_iter_shr_1 n (shr_record_of_loc m l)) as [H1 E1].
    { rewrite Hl. exact Hm. }
    rewrite Hl in E1. split; [exact H1|]. rewrite E1. lia.
  - lia.
Qed.

Lemma binary_round_aux_valid (sx : bool) (mx ex : Z) (lx : location) :
  0 <= mx -> ex <= Z.max (Zdigits2 mx + ex - 24) (- 149) ->
  SpecFloat.valid_binary prec32 emax32 (binary_round_aux prec32 emax32 sx mx ex lx) = true.
Proof.
  intros Hm He. unfold binary_round_aux.
  pose proof (shr_fexp_aligned mx ex lx Hm He) as H1.
  destruct (shr_fexp prec32 emax32 mx ex lx) as [r1 e1]. destruct H1 as [Hr1 He1].
  destruct (digits_round (shr_m r1) (loc_of_shr_record r1) Hr1) as [Hm1 Hd1].
  set (m1 := round_nearest_even (shr_m r1) (loc_of_shr_record r1)) in *.
  assert (He1' : e1 <= Z.max (Zdigits2 m1 + e1 - 24) (- 149)) by lia.
  pose proof (shr_fexp_aligned m1 e1 loc_Exact Hm1 He1') as H2.
  destruct (shr_fexp prec32 emax32 m1 e1 loc_Exact) as [r2 e2]. destruct H2 as [Hr2 He2].
  destruct (shr_m r2) as [|m2|m2] eqn:Hm2; [reflexivity| |reflexivity].
  destruct (e2 <=? emax32 - prec32) eqn:Hle; [|reflexivity].
  cbn [SpecFloat.valid_binary]. unfold bounded, canonical_mantissa. rewrite Hle, fexp_eq.
  cbn [Zdigits2] in He2. rewrite andb_true_r. apply Z.eqb_eq. lia.
Qed.

Lemma digits2_iter_xO (d m : positive) :
  Zpos (digits2_pos (Pos.iter xO m d)) = Zpos (digits2_pos m) + Zpos d.
Proof.
  induction d as [|d IH] using Pos.peano_ind.
  - cbn. lia.
  - rewrite Pos.iter_succ. cbn [digits2_pos]. lia.
Qed.

Lemma binary_round_valid (sx : bool) (mx : positive) (ex : Z) :
  SpecFloat.valid_binary prec32 emax32 (binary_round prec32 emax32 sx mx ex) = true.
Proof.
  unfold binary_round, shl_align. rewrite fexp_eq.
  destruct (Z.max (Z.pos (digits2_pos mx) + ex - 24) (- 149) - ex) as [|d|d] eqn:Hd.
  - apply binary_round_aux_valid; [lia|]. cbn [Zdigits2]. lia.
  - apply binary_round_aux_valid; [lia|]. cbn [Zdigits2]. lia.
  - apply binary_round_aux_valid; [lia|]. cbn [Zdigits2].
    rewrite digits2_iter_xO. lia.
Qed.

Lemma binary_normalize_valid (m e : Z) (s : bool) :
  SpecFloat.valid_binary prec32 emax32 (binary_normalize prec32 emax32 m e s) = true.
Proof. destruct m; [reflexivity| |]; apply binary_round_valid. Qed.

Lemma float32_of_SF_valid (x : spec_float) : is_binary32 (float32_of_SF x) = true.
Proof.
  destruct x as [s|s| |s m e]; try reflexivity. apply binary_normalize_valid.
Qed.

Lemma float32_of_float_valid (x : float) : is_binary32 (float32_of_float x) = true.
Proof. apply float32_of_SF_valid. Qed.

Lemma float32_of_Z_valid (v : Z) : is_binary32 (float32_of_Z v) = true.
Proof. apply binary_normalize_valid. Qed.

End Binary32.

(** ** [numpy.argmin] yields the first minimum *)

Module Argmin.

Import FloatOrder.

Lemma argmin_loop_first_minimum (xs pre : list float) (mp : float) (min_ind : nat) :
  Spec.no_nan (pre ++ xs) ->
  Spec.first_minimum pre min_ind mp ->
  exists v, Spec.first_minimum (pre ++ xs) (argmin_loop mp min_ind (length pre) xs) v.
Proof.
  revert pre mp min_ind.
  induction xs as [|x r IH]; intros pre mp min_ind Hnan (Hnth & Hmin & Hfirst).
  - simpl. rewrite app_nil_r. exists mp. repeat split; assumption.
  - assert (Hx : is_nan x = false).
    { unfold Spec.no_nan in Hnan. rewrite Forall_forall in Hnan.
      apply Hnan. apply in_or_app. right. left. reflexivity. }
    assert (Hmp : is_nan mp = false).
    { unfold Spec.no_nan in Hnan. rewrite Forall_forall in Hnan.
      apply Hnan. apply in_or_app. left. eapply nth_error_In. exact Hnth. }
    assert (Hlt : (min_ind < length pre)%nat).
    { apply nth_error_Some. congruence. }
    replace (pre ++ x :: r) with ((pre ++ [x]) ++ r) in *
      by (rewrite <- app_assoc; reflexivity).
    simpl. destruct (mp <=? x)%float eqn:Hle; simpl.
    + replace (S (length pre)) with (length (pre ++ [x]))
        by (rewrite length_app; simpl; lia).
      apply IH; [exact Hnan|]. repeat split.
      * rewrite nth_error_app1 by exact Hlt. exact Hnth.
      * intros e He. apply in_app_or in He. destruct He as [He|[He|[]]].
        -- apply Hmin. exact He.
        -- subst e. exact Hle.
      * intros j e Hj Hje. apply (Hfirst j e Hj).
        rewrite nth_error_app1 in Hje by lia. exact Hje.
    + rewrite Hx.
      replace (S (length pre)) with (length (pre ++ [x]))
        by (rewrite length_app; simpl; lia).
      apply IH; [exact Hnan|]. repeat split.
      * rewrite nth_error_app2 by lia. rewrite Nat.sub_diag. reflexivity.
      * intros e He. apply in_app_or in He. destruct He as [He|[He|[]]].
        -- apply leb_trans with mp; [|apply Hmin; exact He].
           apply leb_total; assumption.
        -- subst e. apply leb_refl. exact Hx.
      * intros j e Hj Hje. rewrite nth_error_app1 in Hje by exact Hj.
        destruct (e <=? x)%float eqn:Hex; [|reflexivity].
        rewrite (leb_trans mp e x) in Hle; [discriminate| |exact Hex].
        apply Hmin. eapply nth_error_In. exact Hje.
Qed.

Lemma np_argmin_first_minimum (xs : list float) :
  xs <> [] -> Spec.no_nan xs ->
  exists k v, np_argmin xs = Ok k /\ Spec.first_minimum xs k v.
Proof.
  destruct xs as [|x r]; [congruence|]. intros _ Hnan.
  assert (Hx : is_nan x = false) by (inversion Hnan; assumption).
  unfold np_argmin. rewrite Hx.
  destruct (argmin_loop_first_minimum r [x] x 0) as [v Hv].
  - exact Hnan.
  - repeat split.
    + intros e [He|[]]. subst e. apply leb_refl. exact Hx.
    + intros j e Hj. lia.
  - exists (argmin_loop x 0 1 r), v. split; [reflexivity|exact Hv].
Qed.

Lemma find_first {A : Type} (P : A -> bool) (l : list A) (k : nat) (x : A) :
  nth_error l k = Some x -> P x = true ->
  (forall j y, (j < k)%nat -> nth_error l j = Some y -> P y = false) ->
  find P l = Some x.
Proof.
  revert k. induction l as [|a l IH]; intros k Hk Hx Hbefore.
  - destruct k; discriminate.
  - destruct k as [|k]; simpl in *.
    + injection Hk as ->. rewrite Hx. reflexivity.
    + rewrite (Hbefore 0%nat a) by (simpl; trivial; lia).
      apply (IH k Hk Hx). intros j y Hj Hy. apply (Hbefore (S j) y); [lia|exact Hy].
Qed.

End Argmin.

(** ** The association *)

Module Association.

Import FloatOrder Argmin TUMReader.

Lemma abs_diffs_dist (recs : list record) (ts : float) :
  abs_diffs (map fst recs) ts = map (Spec.dist ts) recs.
Proof. unfold abs_diffs. rewrite map_map. reflexivity. Qed.

Lemma is_nan_threshold : is_nan threshold = false.
Proof. reflexivity. Qed.

(** On a non-empty list without NaN difference, the index that [np_argmin]
    gives is that of the nearest record. *)
Lemma argmin_nearest (recs : list record) (ts : float) :
  recs <> [] ->
  forallb (fun r => negb (is_nan (Spec.dist ts r))) recs = true ->
  exists k r,
    np_argmin (abs_diffs (map fst recs) ts) = Ok k
    /\ nth_error recs k = Some r
    /\ Spec.nearest ts recs = Some r.
Proof.
  intros Hne Hnan. rewrite abs_diffs_dist.
  destruct (np_argmin_first_minimum (map (Spec.dist ts) recs)) as (k & v & Hk & Hv & Hmin & Hfirst).
  - destruct recs; [congruence|discriminate].
  - unfold Spec.no_nan. rewrite Forall_map, Forall_forall. intros r Hr.
    rewrite forallb_forall in Hnan. apply negb_true_iff. apply Hnan. exact Hr.
  - rewrite nth_error_map in Hv.
    destruct (nth_error recs k) as [r|] eqn:Hr; [|discriminate].
    injection Hv as <-. exists k, r. split; [exact Hk|]. split; [exact Hr|].
    unfold Spec.nearest. apply (find_first _ recs k r Hr).
    + unfold Spec.is_minimum. apply forallb_forall. intros r' Hr'.
      apply Hmin. apply in_map. exact Hr'.
    + intros j y Hj Hy. unfold Spec.is_minimum.
      apply not_true_iff_false. intros Hall. rewrite forallb_forall in Hall.
      specialize (Hfirst j (Spec.dist ts y) Hj).
      rewrite nth_error_map, Hy in Hfirst. specialize (Hfirst eq_refl).
      rewrite (Hall r (nth_error_In _ _ Hr)) in Hfirst. discriminate.
Qed.

Lemma list_get_nth {A : Type} (l : list A) (k : nat) (x : A) :
  nth_error l k = Some x -> list_get l k = Ok x.
Proof. unfold list_get. intros ->. reflexivity. Qed.

Lemma list_get_map {A B : Type} (f : A -> B) (l : list A) (k : nat) (x : A) :
  nth_error l k = Some x -> list_get (map f l) k = Ok (f x).
Proof. intros H. apply list_get_nth. rewrite nth_error_map, H. reflexivity. Qed.

Lemma gtb_threshold (ts : float) (r : record) :
  is_nan (Spec.dist ts r) = false ->
  gtb (abs (fst r - ts)%float) threshold = negb (Spec.within_tolerance ts r).
Proof.
  intros H. unfold Spec.within_tolerance.
  apply gtb_negb_leb; [exact H|exact is_nan_threshold].
Qed.

Lemma finite_timestamps_comparable (rgb_list recs : list record) :
  Spec.finite_timestamps rgb_list = true -> Spec.finite_timestamps recs = true ->
  Spec.comparable rgb_list recs = true.
Proof.
  unfold Spec.finite_timestamps, Spec.comparable. rewrite !forallb_forall.
  intros Hc Hr c Hin. apply forallb_forall. intros r Hrin.
  apply negb_true_iff. unfold Spec.dist.
  apply finite_diff_not_nan; [apply Hc|apply Hr]; assumption.
Qed.

Lemma associate_one_match_of (depth_list pose_list : list record) (c : record) :
  depth_list <> [] -> pose_list <> [] ->
  forallb (fun r => negb (is_nan (Spec.dist (fst c) r))) depth_list = true ->
  forallb (fun r => negb (is_nan (Spec.dist (fst c) r))) pose_list = true ->
  Spec.has_token c = true ->
  forallb Spec.has_token depth_list = true ->
  associate_one depth_list pose_list (fst c) (snd c)
  = Ok (Spec.match_of depth_list pose_list c).
Proof.
  intros Hd Hp Hnd Hnp Hc Htok.
  destruct (argmin_nearest depth_list (fst c) Hd Hnd) as (kd & d & Hkd & Hdn & Hdnear).
  destruct (argmin_nearest pose_list (fst c) Hp Hnp) as (kp & q & Hkp & Hpn & Hpnear).
  unfold associate_one, Spec.match_of, depth_timestamps, pose_timestamps.
  rewrite Hkd, Hdnear, Hpnear. simpl.
  rewrite (list_get_map fst _ _ _ Hdn). simpl.
  rewrite forallb_forall in Hnd, Hnp, Htok.
  pose proof (Hnd d (nth_error_In _ _ Hdn)) as Hd_nan. apply negb_true_iff in Hd_nan.
  pose proof (Hnp q (nth_error_In _ _ Hpn)) as Hq_nan. apply negb_true_iff in Hq_nan.
  rewrite (gtb_threshold _ d Hd_nan).
  destruct (Spec.within_tolerance (fst c) d); simpl; [|reflexivity].
  rewrite Hkp. simpl. rewrite (list_get_map fst _ _ _ Hpn). simpl.
  rewrite (gtb_threshold _ q Hq_nan).
  destruct (Spec.within_tolerance (fst c) q); simpl; [|reflexivity].
  pose proof (Htok d (nth_error_In _ _ Hdn)) as Hdt.
  unfold Spec.has_token in Hc, Hdt. unfold Spec.file_path_token.
  destruct (snd c) as [|tc ?]; [discriminate|]. cbn [list_get nth_error bind].
  rewrite (list_get_nth _ _ _ Hdn). cbn [bind].
  destruct (snd d) as [|td ?]; [discriminate|]. cbn [list_get nth_error bind].
  rewrite (list_get_nth _ _ _ Hpn). reflexivity.
Qed.

Lemma associate_matches (depth_list pose_list rgb_list : list record) :
  depth_list <> [] -> pose_list <> [] ->
  Spec.comparable rgb_list depth_list = true ->
  Spec.comparable rgb_list pose_list = true ->
  forallb Spec.has_token rgb_list = true ->
  forallb Spec.has_token depth_list = true ->
  associate depth_list pose_list rgb_list
  = Ok (Spec.matches depth_list pose_list rgb_list).
Proof.
  intros Hd Hp Hcd Hcp Hrt Hdt. unfold Spec.comparable in *.
  induction rgb_list as [|c rest IH]; [reflexivity|].
  simpl in Hcd, Hcp, Hrt.
  apply andb_true_iff in Hcd, Hcp, Hrt.
  destruct Hcd as [Hcd1 Hcd2], Hcp as [Hcp1 Hcp2], Hrt as [Hrt1 Hrt2].
  destruct c as [ts data].
  pose proof (associate_one_match_of depth_list pose_list (ts, data)
                Hd Hp Hcd1 Hcp1 Hrt1 Hdt) as Hone.
  cbn [fst snd] in Hone. cbn [associate Spec.matches].
  rewrite Hone, (IH Hcd2 Hcp2 Hrt2). cbn [bind].
  destruct (Spec.match_of depth_list pose_list (ts, data)); reflexivity.
Qed.

Lemma matches_length (depth_list pose_list rgb_list : list record) :
  length (Spec.matches depth_list pose_list rgb_list)
  = length (filter (Spec.qualifies depth_list pose_list) rgb_list).
Proof.
  induction rgb_list as [|c rest IH]; [reflexivity|].
  simpl. unfold Spec.qualifies at 1.
  destruct (Spec.match_of depth_list pose_list c); simpl; rewrite IH; reflexivity.
Qed.

End Association.

(** ** Pose parsing and the constructed reader *)

Module Construction.

Import TUMReader.

Section WithRuntime.

Context {RT : Runtime}.

Ltac case_floats :=
  repeat match goal with
         | |- context [py_float ?tok] => destruct (py_float tok); cbn
         end.

Lemma parse_pose_fields (p : list string) :
  Spec.has_fields p = true ->
  parse_pose p = Ok (Spec.translation_of p, Spec.orientation_of p).
Proof.
  unfold Spec.has_fields, Spec.translation_of, Spec.orientation_of,
    Spec.leading_fields, parse_pose, float_at, float_of.
  destruct p as [|t0 [|t1 [|t2 [|t3 [|t4 [|t5 [|t6 rest]]]]]]]; cbn;
    try discriminate.
  case_floats; intros H; try discriminate; reflexivity.
Qed.

Lemma parse_pose_error (p : list string) :
  Spec.has_fields p = false ->
  exists e, parse_pose p = Raise e /\ Spec.is_parse_error e = true.
Proof.
  unfold Spec.has_fields, Spec.leading_fields, parse_pose, float_at, float_of.
  destruct p as [|t0 [|t1 [|t2 [|t3 [|t4 [|t5 [|t6 rest]]]]]]]; cbn;
    case_floats; intros H; try discriminate; eexists; split; reflexivity.
Qed.

(** What "fewer than 7 numeric fields or a non-numeric one" comes to. *)
Lemma has_fields_false_iff (p : list string) :
  Spec.has_fields p = false <->
  (length p < 7)%nat
  \/ exists i tok, (i < 7)%nat /\ nth_error p i = Some tok /\ py_float tok = None.
Proof.
  unfold Spec.has_fields, Spec.leading_fields.
  destruct p as [|t0 [|t1 [|t2 [|t3 [|t4 [|t5 [|t6 rest]]]]]]]; cbn;
    try (split; [intros _; left; lia | reflexivity]).
  split.
  - intros H. right.
    destruct (py_float t0) eqn:E0; [|exists 0%nat, t0; auto with arith].
    destruct (py_float t1) eqn:E1; [|exists 1%nat, t1; repeat split; auto; lia].
    destruct (py_float t2) eqn:E2; [|exists 2%nat, t2; repeat split; auto; lia].
    destruct (py_float t3) eqn:E3; [|exists 3%nat, t3; repeat split; auto; lia].
    destruct (py_float t4) eqn:E4; [|exists 4%nat, t4; repeat split; auto; lia].
    destruct (py_float t5) eqn:E5; [|exists 5%nat, t5; repeat split; auto; lia].
    destruct (py_float t6) eqn:E6; [|exists 6%nat, t6; repeat split; auto; lia].
    discriminate.
  - intros [H|(i & tok & Hi & Hn & Hf)]; [lia|].
    do 7 (destruct i as [|i]; [cbn in Hn; injection Hn as ->; rewrite Hf;
                                case_floats; reflexivity|]).
    lia.
Qed.

Lemma parse_poses_all (ms : list Match) :
  forallb (fun m => Spec.has_fields (m_pose m)) ms = true ->
  parse_poses ms
  = Ok (map (fun m => Spec.translation_of (m_pose m)) ms,
        map (fun m => Spec.orientation_of (m_pose m)) ms).
Proof.
  induction ms as [|m rest IH]; [reflexivity|]. cbn [forallb parse_poses map].
  intros H. apply andb_true_iff in H. destruct H as [Hm Hrest].
  rewrite (parse_pose_fields _ Hm), (IH Hrest). reflexivity.
Qed.

Lemma parse_poses_some_bad (ms : list Match) :
  forallb (fun m => Spec.has_fields (m_pose m)) ms = false ->
  exists e, parse_poses ms = Raise e /\ Spec.is_parse_error e = true.
Proof.
  induction ms as [|m rest IH]; [discriminate|]. cbn [forallb parse_poses].
  destruct (Spec.has_fields (m_pose m)) eqn:Hm; cbn [andb].
  - intros H. destruct (IH H) as (e & He & Hpe).
    rewrite (parse_pose_fields _ Hm), He. exists e. split; [reflexivity|exact Hpe].
  - intros _. destruct (parse_pose_error _ Hm) as (e & He & Hpe).
    rewrite He. exists e. split; [reflexivity|exact Hpe].
Qed.

Lemma parse_poses_length (ms : list Match) ps qs :
  parse_poses ms = Ok (ps, qs) -> length ps = length ms /\ length qs = length ms.
Proof.
  revert ps qs. induction ms as [|m rest IH]; intros ps qs; cbn [parse_poses].
  - intros H. injection H as <- <-. split; reflexivity.
  - destruct (parse_pose (m_pose m)) as [tq|e]; cbn [bind]; [|discriminate].
    destruct (parse_poses rest) as [[ps' qs']|e]; cbn [bind]; [|discriminate].
    intros H. injection H as <- <-. destruct (IH ps' qs' eq_refl) as [Hps Hqs].
    cbn. rewrite Hps, Hqs. split; reflexivity.
Qed.

(** What [__init__] leaves in the reader. *)
Lemma init_inv fs dir mn mx sc (r : t) :
  init fs dir mn mx sc = Ok r ->
  exists ms,
    load_matches fs dir = Ok ms
    /\ parse_poses ms = Ok (poses r, quats r)
    /\ rgb_images r = map (fun m => joinpath dir (m_rgb m)) ms
    /\ depth_images r = map (fun m => joinpath dir (m_depth m)) ms
    /\ depth_scaling r = sc /\ min_range r = mn /\ max_range r = mx
    /\ data_dir r = dir /\ file_index r = 0%Z.
Proof.
  unfold init, load_tum_data.
  destruct (load_matches fs dir) as [ms|e]; cbn [bind]; [|discriminate].
  destruct (parse_poses ms) as [[ps qs]|e] eqn:Hp; cbn [bind fst snd]; [|discriminate].
  intros H. injection H as <-. exists ms. cbn.
  split; [reflexivity|]. split; [exact Hp|]. repeat split; reflexivity.
Qed.

Lemma init_consistent fs dir mn mx sc (r : t) :
  init fs dir mn mx sc = Ok r -> Spec.consistent r.
Proof.
  intros H. destruct (init_inv _ _ _ _ _ _ H) as (ms & _ & Hp & Hr & Hd & _).
  destruct (parse_poses_length _ _ _ Hp) as [Hps Hqs].
  unfold Spec.consistent. rewrite Hr, Hd, Hps, Hqs, !length_map. repeat split; reflexivity.
Qed.

Lemma init_of_matches fs dir mn mx sc (ms : list Match) :
  load_matches fs dir = Ok ms ->
  forallb (fun m => Spec.has_fields (m_pose m)) ms = true ->
  init fs dir mn mx sc
  = Ok (mkReader dir mn mx sc
          (map (fun m => joinpath dir (m_rgb m)) ms)
          (map (fun m => joinpath dir (m_depth m)) ms)
          (map (fun m => Spec.translation_of (m_pose m)) ms)
          (map (fun m => Spec.orientation_of (m_pose m)) ms) 0).
Proof.
  intros Hm Hf. unfold init, load_tum_data.
  rewrite Hm. cbn [bind]. rewrite (parse_poses_all _ Hf). reflexivity.
Qed.

End WithRuntime.

End Construction.

(** ** The subscript *)

Module Subscript.

Import TUMReader Construction.

Section WithRuntime.

Context {RT : Runtime}.

Lemma py_getitem_position {A : Type} (l : list A) (i : Z) :
  (- Z.of_nat (length l) <= i)%Z ->
  py_getitem l i = list_get l (Spec.position (Z.of_nat (length l)) i).
Proof.
  intros H. unfold py_getitem, Spec.position.
  destruct (0 <=? i)%Z eqn:Hi; [reflexivity|].
  destruct (0 <=? i + Z.of_nat (length l))%Z eqn:Hn; [reflexivity|].
  apply Z.leb_gt in Hn. lia.
Qed.

Lemma py_getitem_below {A : Type} (l : list A) (i : Z) :
  (i < - Z.of_nat (length l))%Z -> py_getitem l i = Raise IndexError.
Proof.
  intros H. unfold py_getitem.
  destruct (0 <=? i)%Z eqn:Hi; [apply Z.leb_le in Hi; lia|].
  destruct (0 <=? i + Z.of_nat (length l))%Z eqn:Hn; [apply Z.leb_le in Hn; lia|].
  reflexivity.
Qed.

(** The subscript assigns no attribute. *)
Lemma getitem_reader (fs : filesystem) (i : Z) (r : t) :
  snd (getitem fs i r) = r.
Proof.
  unfold getitem, mbind, attr, lift, raise, ret.
  destruct (len r <=? i)%Z; [reflexivity|].
  destruct (py_getitem (poses r) i); [|reflexivity].
  destruct (py_getitem (quats r) i); [|reflexivity].
  destruct (py_getitem (depth_images r) i) as [dp|]; [|reflexivity].
  destruct (Image_open fs dp); [|reflexivity].
  destruct (py_getitem (rgb_images r) i) as [rp|]; [|reflexivity].
  destruct (Image_open fs rp); reflexivity.
Qed.

Lemma getitem_at_or_above (fs : filesystem) (i : Z) (r : t) :
  (len r <= i)%Z -> getitem fs i r = (Raise IndexError, r).
Proof.
  intros H. unfold getitem, mbind, attr, raise.
  apply Z.leb_le in H. rewrite H. reflexivity.
Qed.

Lemma getitem_below (fs : filesystem) (i : Z) (r : t) :
  Spec.consistent r -> (i < - len r)%Z -> getitem fs i r = (Raise IndexError, r).
Proof.
  intros (_ & Hp & _) H. unfold getitem, mbind, attr, lift, raise.
  destruct (len r <=? i)%Z; [reflexivity|].
  rewrite py_getitem_below; [reflexivity|]. unfold len in H. rewrite Hp. exact H.
Qed.

Lemma getitem_frame_at (fs : filesystem) (i : Z) (r : t) :
  Spec.consistent r -> (- len r <= i < len r)%Z ->
  getitem fs i r = (Spec.frame_at fs r (Spec.position (len r) i) (i + 1)%Z, r).
Proof.
  intros (Hd & Hp & Hq) [Hlo Hhi]. unfold getitem, Spec.frame_at, mbind, attr, lift, raise, ret.
  apply Z.leb_gt in Hhi. rewrite Hhi. unfold len in *.
  rewrite !py_getitem_position by (rewrite ?Hd, ?Hp, ?Hq; exact Hlo).
  rewrite Hd, Hp, Hq.
  destruct (list_get (poses r) _); [|reflexivity].
  destruct (list_get (quats r) _); [|reflexivity].
  destruct (list_get (depth_images r) _) as [dp|]; [|reflexivity]. cbn [bind].
  destruct (Image_open fs dp); [|reflexivity]. cbn [bind].
  destruct (list_get (rgb_images r) _) as [rp|]; [|reflexivity]. cbn [bind].
  destruct (Image_open fs rp); reflexivity.
Qed.

Lemma list_get_lt {A : Type} (l : list A) (k : nat) :
  (k < length l)%nat -> exists a, nth_error l k = Some a /\ list_get l k = Ok a.
Proof.
  intros H. unfold list_get. destruct (nth_error l k) as [a|] eqn:E.
  - exists a. split; reflexivity.
  - apply nth_error_None in E. lia.
Qed.

(** A loadable position yields its frame. *)
Lemma frame_at_loadable (fs : filesystem) (r : t) (k : nat) (idx : Z) :
  Spec.consistent r -> (k < length (rgb_images r))%nat ->
  Spec.loadable fs r k = true ->
  exists tr q dp dimg rp cimg,
    nth_error (poses r) k = Some tr /\ nth_error (quats r) k = Some q
    /\ nth_error (depth_images r) k = Some dp /\ fs dp = Some (ImageFile dimg)
    /\ nth_error (rgb_images r) k = Some rp /\ fs rp = Some (ImageFile cimg)
    /\ Spec.frame_at fs r k idx
       = Ok (idx, tr, q,
             divide_array (to_float32_array dimg) (depth_scaling r),
             to_float32_array (convert_RGB cimg)).
Proof.
  intros (Hd & Hp & Hq) Hk Hl. unfold Spec.loadable, Spec.image_present in Hl.
  apply andb_true_iff in Hl. destruct Hl as [Hld Hlr].
  destruct (list_get_lt (poses r) k) as (tr & Htr & Gtr); [lia|].
  destruct (list_get_lt (quats r) k) as (q & Hqk & Gq); [lia|].
  destruct (list_get_lt (depth_images r) k) as (dp & Hdp & Gdp); [lia|].
  destruct (list_get_lt (rgb_images r) k) as (rp & Hrp & Grp); [lia|].
  rewrite Hdp in Hld. rewrite Hrp in Hlr. unfold Image_open in Hld, Hlr.
  destruct (fs dp) as [[|dimg]|] eqn:Fd; try discriminate.
  destruct (fs rp) as [[|cimg]|] eqn:Fr; try discriminate.
  exists tr, q, dp, dimg, rp, cimg. repeat (split; [assumption|]).
  unfold Spec.frame_at, Image_open. rewrite Gtr, Gq, Gdp. cbn [bind].
  rewrite Fd, Grp. cbn [bind]. rewrite Fr. reflexivity.
Qed.

End WithRuntime.

End Subscript.

(** ** Iteration *)

Module Iteration.

Import TUMReader Construction Subscript.

Section WithRuntime.

Context {RT : Runtime}.

Lemma with_cursor_same (r : t) : Spec.with_cursor r (file_index r) = r.
Proof. destruct r. reflexivity. Qed.

Lemma with_cursor_twice (r : t) (v w : Z) :
  Spec.with_cursor (Spec.with_cursor r v) w = Spec.with_cursor r w.
Proof. reflexivity. Qed.

Lemma len_with_cursor (r : t) (v : Z) : len (Spec.with_cursor r v) = len r.
Proof. reflexivity. Qed.

Lemma file_index_with_cursor (r : t) (v : Z) : file_index (Spec.with_cursor r v) = v.
Proof. reflexivity. Qed.

Lemma with_cursor_consistent (r : t) (v : Z) :
  Spec.consistent r -> Spec.consistent (Spec.with_cursor r v).
Proof. intros H. exact H. Qed.

(** The subscript does not read the cursor. *)
Lemma getitem_with_cursor (fs : filesystem) (i v : Z) (r : t) :
  getitem fs i (Spec.with_cursor r v) = (fst (getitem fs i r), Spec.with_cursor r v).
Proof.
  destruct r as [dd mn mx sc rps dps ps qs fi].
  unfold getitem, mbind, attr, lift, raise, ret, Spec.with_cursor, set_file_index, len.
  cbv beta iota delta [snd poses quats depth_images rgb_images depth_scaling
                       data_dir min_range max_range file_index].
  destruct (Z.of_nat (length rps) <=? i)%Z; [reflexivity|].
  destruct (py_getitem ps i); [|reflexivity].
  destruct (py_getitem qs i); [|reflexivity].
  destruct (py_getitem dps i) as [dp|]; [|reflexivity].
  destruct (Image_open fs dp); [|reflexivity].
  destruct (py_getitem rps i) as [rp|]; [|reflexivity].
  destruct (Image_open fs rp); reflexivity.
Qed.

Lemma next_exhausted (fs : filesystem) (r : t) :
  (len r <= file_index r)%Z -> next fs r = (Raise StopIteration, r).
Proof.
  intros H. unfold next, mbind, attr, raise. apply Z.leb_le in H. rewrite H.
  reflexivity.
Qed.

Lemma next_frame (fs : filesystem) (r : t) (fr : frame) :
  (file_index r < len r)%Z ->
  fst (getitem fs (file_index r) r) = Ok fr ->
  next fs r = (Ok fr, Spec.with_cursor r (file_index r + 1)).
Proof.
  intros H Hg. unfold next, mbind, attr, raise, ret.
  apply Z.leb_gt in H. rewrite H.
  pose proof (getitem_reader fs (file_index r) r) as Hs.
  destruct (getitem fs (file_index r) r) as [res r']. cbn [fst snd] in Hg, Hs.
  subst res r'. reflexivity.
Qed.

(** Every position of a loadable reader yields a frame. *)
Lemma getitem_loadable (fs : filesystem) (r : t) (k : nat) :
  Spec.consistent r -> Spec.all_loadable fs r = true ->
  (k < length (rgb_images r))%nat ->
  exists fr, getitem fs (Z.of_nat k) r = (Ok fr, r)
             /\ frame_index fr = (Z.of_nat k + 1)%Z.
Proof.
  intros Hc Hall Hk. unfold Spec.all_loadable in Hall.
  rewrite forallb_forall in Hall.
  assert (Hl : Spec.loadable fs r k = true).
  { apply Hall. apply in_seq. lia. }
  rewrite (getitem_frame_at fs (Z.of_nat k) r Hc) by (unfold len; lia).
  unfold Spec.position. replace (0 <=? Z.of_nat k)%Z with true by (symmetry; apply Z.leb_le; lia).
  rewrite Nat2Z.id.
  destruct (frame_at_loadable fs r k (Z.of_nat k + 1) Hc Hk Hl)
    as (tr & q & dp & dimg & rp & cimg & _ & _ & _ & _ & _ & _ & Hf).
  rewrite Hf. eexists. split; reflexivity.
Qed.

Lemma drain_from (fs : filesystem) (r : t) :
  Spec.consistent r -> Spec.all_loadable fs r = true ->
  forall (n c fuel : nat),
    (c + n = length (rgb_images r))%nat -> (n < fuel)%nat ->
    exists frames,
      drain fs fuel (Spec.with_cursor r (Z.of_nat c))
      = Some (Ok frames, Spec.with_cursor r (len r))
      /\ map Ok frames
         = map (fun k => fst (getitem fs (Z.of_nat k) r)) (seq c n).
Proof.
  intros Hc Hall. induction n as [|n IH]; intros c fuel Hn Hfuel.
  - destruct fuel as [|fuel]; [lia|]. cbn [drain].
    rewrite next_exhausted
      by (rewrite len_with_cursor, file_index_with_cursor; unfold len; lia).
    exists []. split; [|reflexivity].
    replace (Z.of_nat c) with (len r) by (unfold len; lia). reflexivity.
  - destruct fuel as [|fuel]; [lia|]. cbn [drain].
    destruct (getitem_loadable fs r c Hc Hall) as (fr & Hfr & _); [lia|].
    rewrite (next_frame fs (Spec.with_cursor r (Z.of_nat c)) fr).
    + rewrite file_index_with_cursor, with_cursor_twice.
      replace (Z.of_nat c + 1)%Z with (Z.of_nat (S c)) by lia.
      destruct (IH (S c) fuel) as (frames & Hd & Hm); [lia|lia|].
      rewrite Hd. exists (fr :: frames). split; [reflexivity|].
      cbn [map seq]. rewrite Hm, Hfr. reflexivity.
    + rewrite len_with_cursor, file_index_with_cursor. unfold len. lia.
    + rewrite file_index_with_cursor, getitem_with_cursor, Hfr. reflexivity.
Qed.

End WithRuntime.

End Iteration.

(** * The claims *)

Import TUMReader.

(** C1. Construction builds the match list as exactly, in color-list order,
    the color records whose nearest depth record and nearest pose record
    (first minimum of the absolute timestamp difference) are both within the
    0.02 s tolerance; a match carries the color record's file-path token, the
    depth record's file-path token and the pose record's tokens, and the
    length of the reader is the number of such color records.  The list
    files are well formed: depth and pose lists are not empty, no timestamp
    difference is NaN, color and depth records have their file-path token
    and the matched pose records have their seven fields. *)
Theorem construction_builds_match_list {RT : Runtime}
  (fs : filesystem) (dir : path) (mn mx : number) (sc : float)
  (rgb_list depth_list pose_list : list record) :
  read_file_list fs (joinpath dir "rgb.txt") = Ok rgb_list ->
  read_file_list fs (joinpath dir "depth.txt") = Ok depth_list ->
  read_file_list fs (pose_file_of fs dir) = Ok pose_list ->
  depth_list <> [] -> pose_list <> [] ->
  Spec.comparable rgb_list depth_list = true ->
  Spec.comparable rgb_list pose_list = true ->
  forallb Spec.has_token rgb_list = true ->
  forallb Spec.has_token depth_list = true ->
  forallb (fun m => Spec.has_fields (m_pose m))
          (Spec.matches depth_list pose_list rgb_list) = true ->
  load_matches fs dir = Ok (Spec.matches depth_list pose_list rgb_list)
  /\ exists r,
       init fs dir mn mx sc = Ok r
       /\ len r = Z.of_nat (length (filter (Spec.qualifies depth_list pose_list) rgb_list))
       /\ rgb_images r
          = map (fun m => joinpath dir (m_rgb m)) (Spec.matches depth_list pose_list rgb_list)
       /\ depth_images r
          = map (fun m => joinpath dir (m_depth m)) (Spec.matches depth_list pose_list rgb_list).
Proof.
  intros Hr Hd Hp Hdne Hpne Hcd Hcp Hrt Hdt Hf.
  assert (Hm : load_matches fs dir = Ok (Spec.matches depth_list pose_list rgb_list)).
  { unfold load_matches, load_matches_from. rewrite Hr, Hd, Hp. cbn [bind].
    apply Association.associate_matches; assumption. }
  split; [exact Hm|].
  eexists. split; [apply (Construction.init_of_matches _ _ _ _ _ _ Hm Hf)|].
  unfold len. cbn [rgb_images depth_images]. rewrite length_map.
  rewrite Association.matches_length. repeat split; reflexivity.
Qed.

Lemma construction_builds_match_list_witness :
  load_matches (RT := Sample.runtime) Sample.dataset "data"
  = Ok (Spec.matches Sample.depth_list Sample.pose_list Sample.rgb_list)
  /\ exists r,
       init (RT := Sample.runtime) Sample.dataset "data"
            default_min_range default_max_range default_depth_scaling = Ok r
       /\ len r = Z.of_nat (length (filter (Spec.qualifies Sample.depth_list Sample.pose_list)
                                           Sample.rgb_list))
       /\ rgb_images r
          = map (fun m => joinpath (Runtime := Sample.runtime) "data" (m_rgb m))
                (Spec.matches Sample.depth_list Sample.pose_list Sample.rgb_list)
       /\ depth_images r
          = map (fun m => joinpath (Runtime := Sample.runtime) "data" (m_depth m))
                (Spec.matches Sample.depth_list Sample.pose_list Sample.rgb_list).
Proof.
  apply (@construction_builds_match_list Sample.runtime Sample.dataset "data"
           default_min_range default_max_range default_depth_scaling
           Sample.rgb_list Sample.depth_list Sample.pose_list);
    try (vm_compute; reflexivity); discriminate.
Defined.

(** Of two depth records at the same distance, the first of the list is the
    partner. *)
Example tie_takes_first :
  associate
    [(0.5078125%float, ["depth/late.png"]); (0.4921875%float, ["depth/early.png"])]
    [(0.5%float, ["1"; "2"; "3"; "0"; "0"; "0"; "1"])]
    [(0.5%float, ["rgb/1.png"])]
  = Ok [mkMatch "rgb/1.png" "depth/late.png" ["1"; "2"; "3"; "0"; "0"; "0"; "1"]].
Proof. reflexivity. Qed.

(** Where the hypotheses of C1 end: with an empty depth list [np.argmin]
    raises [ValueError] at the first color record; a depth record whose
    timestamp is NaN is selected by [np.argmin] and passes the test
    [> 0.02], which is false on NaN. *)
Example association_outside_hypotheses :
  associate [] [(0.5%float, ["1"; "2"; "3"; "0"; "0"; "0"; "1"])]
            [(0.5%float, ["rgb/1.png"])]
  = Raise ValueError
  /\ associate
       [(0.5%float, ["depth/1.png"]); (nan, ["depth/2.png"])]
       [(0.5%float, ["1"; "2"; "3"; "0"; "0"; "0"; "1"])]
       [(0.5%float, ["rgb/1.png"])]
     = Ok [mkMatch "rgb/1.png" "depth/2.png" ["1"; "2"; "3"; "0"; "0"; "0"; "1"]].
Proof. split; reflexivity. Qed.

Lemma parse_poses_inv {RT : Runtime} (ms : list Match) ps qs :
  parse_poses ms = Ok (ps, qs) ->
  ps = map (fun m => Spec.translation_of (m_pose m)) ms
  /\ qs = map (fun m => Spec.orientation_of (m_pose m)) ms.
Proof.
  intros H.
  destruct (forallb (fun m => Spec.has_fields (m_pose m)) ms) eqn:Hf.
  - rewrite (Construction.parse_poses_all ms Hf) in H. injection H as <- <-.
    split; reflexivity.
  - destruct (Construction.parse_poses_some_bad ms Hf) as (e & He & _).
    rewrite He in H. discriminate.
Qed.

(** C2, amended.  For every constructed reader, the subscript
    with an index [i >= length()] or [i < -length()] raises [IndexError];
    in particular [get(length())] does.  The reader after the failed call is
    the reader before it, so that every later subscript gives what it would
    have given. *)
Theorem getitem_out_of_range {RT : Runtime}
  (fs : filesystem) (dir : path) (mn mx : number) (sc : float) (r : t) (i : Z) :
  init fs dir mn mx sc = Ok r ->
  (len r <= i \/ i < - len r)%Z ->
  getitem fs i r = (Raise IndexError, r)
  /\ getitem fs (len r) r = (Raise IndexError, r)
  /\ forall j, getitem fs j (snd (getitem fs i r)) = getitem fs j r.
Proof.
  intros Hinit Hi.
  pose proof (Construction.init_consistent _ _ _ _ _ _ Hinit) as Hc.
  assert (H : getitem fs i r = (Raise IndexError, r)).
  { destruct Hi as [Hi|Hi].
    - apply Subscript.getitem_at_or_above. exact Hi.
    - apply Subscript.getitem_below; assumption. }
  split; [exact H|]. split.
  - apply Subscript.getitem_at_or_above. lia.
  - intros j. rewrite Subscript.getitem_reader. reflexivity.
Qed.

Lemma sample_reader_init :
  init (RT := Sample.runtime) Sample.dataset "data"
       default_min_range default_max_range default_depth_scaling
  = Ok Sample.reader.
Proof. vm_compute. reflexivity. Defined.

Lemma getitem_out_of_range_witness :
  getitem (RT := Sample.runtime) Sample.dataset (-3) Sample.reader
  = (Raise IndexError, Sample.reader)
  /\ getitem (RT := Sample.runtime) Sample.dataset (len Sample.reader) Sample.reader
     = (Raise IndexError, Sample.reader)
  /\ forall j,
       getitem (RT := Sample.runtime) Sample.dataset j
         (snd (getitem (RT := Sample.runtime) Sample.dataset (-3) Sample.reader))
       = getitem (RT := Sample.runtime) Sample.dataset j Sample.reader.
Proof.
  apply (@getitem_out_of_range Sample.runtime Sample.dataset "data"
           default_min_range default_max_range default_depth_scaling
           Sample.reader (-3) sample_reader_init).
  right. reflexivity.
Defined.

(** The claim C2 as it is stated fails at index -1: it lies outside
    [[0, length())], and the subscript returns the last frame, with index 0. *)
Lemma getitem_negative_index_counterexample :
  init (RT := Sample.runtime) Sample.dataset "data"
       default_min_range default_max_range default_depth_scaling
  = Ok Sample.reader
  /\ len Sample.reader = 2%Z
  /\ ~ (0 <= -1 < len Sample.reader)%Z
  /\ (exists fr,
        getitem (RT := Sample.runtime) Sample.dataset (-1) Sample.reader
        = (Ok fr, Sample.reader)
        /\ frame_index fr = 0%Z)
  /\ fst (getitem (RT := Sample.runtime) Sample.dataset (-1) Sample.reader)
     <> Raise IndexError.
Proof.
  split; [exact sample_reader_init|].
  split; [reflexivity|]. split; [vm_compute; intros [H _]; apply H; reflexivity|].
  split; [eexists; split; vm_compute; reflexivity|]. vm_compute. discriminate.
Qed.

(** C3. For a reader of length [N >= 1] and [1 <= k <= N], the subscript
    with the negative index [-k] does not raise (the images of position
    [N - k] being there): it returns the frame whose first element is
    [-k + 1] and whose translation and orientation are those of the match
    of position [N - k]. *)
Theorem negative_index_frame {RT : Runtime}
  (fs : filesystem) (dir : path) (mn mx : number) (sc : float) (r : t) (k : Z) :
  init fs dir mn mx sc = Ok r ->
  (1 <= k <= len r)%Z ->
  Spec.loadable fs r (Z.to_nat (len r - k)) = true ->
  exists ms m fr,
    load_matches fs dir = Ok ms
    /\ nth_error ms (Z.to_nat (len r - k)) = Some m
    /\ getitem fs (- k) r = (Ok fr, r)
    /\ frame_index fr = (- k + 1)%Z
    /\ frame_translation fr = Spec.translation_of (m_pose m)
    /\ frame_quat fr = Spec.orientation_of (m_pose m)
    /\ nth_error (poses r) (Z.to_nat (len r - k)) = Some (frame_translation fr)
    /\ nth_error (quats r) (Z.to_nat (len r - k)) = Some (frame_quat fr).
Proof.
  intros Hinit Hk Hl.
  pose proof (Construction.init_consistent _ _ _ _ _ _ Hinit) as Hc.
  destruct (Construction.init_inv _ _ _ _ _ _ Hinit) as (ms & Hms & Hp & Hr & _).
  destruct (parse_poses_inv _ _ _ Hp) as [Hps Hqs].
  assert (Hpos : Spec.position (len r) (- k) = Z.to_nat (len r - k)).
  { unfold Spec.position.
    replace (0 <=? - k)%Z with false by (symmetry; apply Z.leb_gt; lia).
    f_equal. lia. }
  assert (Hlt : (Z.to_nat (len r - k) < length (rgb_images r))%nat)
    by (unfold len in *; lia).
  destruct (Subscript.frame_at_loadable fs r _ (- k + 1) Hc Hlt Hl)
    as (tr & q & dp & dimg & rp & cimg & Htr & Hq & _ & _ & _ & _ & Hf).
  assert (Hm : exists m, nth_error ms (Z.to_nat (len r - k)) = Some m).
  { destruct (nth_error ms (Z.to_nat (len r - k))) as [m|] eqn:E; [eauto|].
    apply nth_error_None in E. rewrite Hr, length_map in Hlt. lia. }
  destruct Hm as [m Hm].
  exists ms, m. eexists.
  split; [exact Hms|]. split; [exact Hm|].
  split; [rewrite (Subscript.getitem_frame_at fs (- k) r Hc) by lia;
          rewrite Hpos, Hf; reflexivity|].
  cbn [frame_index frame_translation frame_quat].
  split; [reflexivity|].
  rewrite Hps, nth_error_map, Hm in Htr. injection Htr as <-.
  rewrite Hqs, nth_error_map, Hm in Hq. injection Hq as <-.
  rewrite Hps, Hqs, !nth_error_map, Hm. repeat split; reflexivity.
Qed.

Lemma negative_index_frame_witness :
  exists ms m fr,
    load_matches (RT := Sample.runtime) Sample.dataset "data" = Ok ms
    /\ nth_error ms (Z.to_nat (len Sample.reader - 1)) = Some m
    /\ getitem (RT := Sample.runtime) Sample.dataset (- 1) Sample.reader
       = (Ok fr, Sample.reader)
    /\ frame_index fr = (- 1 + 1)%Z
    /\ frame_translation fr = Spec.translation_of (RT := Sample.runtime) (m_pose m)
    /\ frame_quat fr = Spec.orientation_of (RT := Sample.runtime) (m_pose m)
    /\ nth_error (poses Sample.reader) (Z.to_nat (len Sample.reader - 1))
       = Some (frame_translation fr)
    /\ nth_error (quats Sample.reader) (Z.to_nat (len Sample.reader - 1))
       = Some (frame_quat fr).
Proof.
  apply (@negative_index_frame Sample.runtime Sample.dataset "data"
           default_min_range default_max_range default_depth_scaling
           Sample.reader 1 sample_reader_init).
  - vm_compute. split; discriminate.
  - vm_compute. reflexivity.
Defined.

Lemma associate_skip (depth_list pose_list rest : list record)
  (ts : float) (data : list string) :
  associate_one depth_list pose_list ts data = Ok None ->
  associate depth_list pose_list ((ts, data) :: rest)
  = associate depth_list pose_list rest.
Proof.
  intros H. cbn [associate]. rewrite H. cbn [bind].
  destruct (associate depth_list pose_list rest); reflexivity.
Qed.

Lemma associate_keep (depth_list pose_list rest : list record)
  (ts : float) (data : list string) (m : Match) :
  associate_one depth_list pose_list ts data = Ok (Some m) ->
  associate depth_list pose_list ((ts, data) :: rest)
  = (ms <- associate depth_list pose_list rest ;; Ok (m :: ms)).
Proof. intros H. cbn [associate]. rewrite H. reflexivity. Qed.

(** C4. Let [d] and [p] be the depth and pose records that the argmin
    selects for a color record.  When the absolute timestamp difference of
    one of them (as computed, in binary64) is exactly 0.02, it is accepted
    as a partner: the other one being accepted too, the loop appends the
    match of the color record with [d] and [p] to the matches of the color
    records that follow.  When the difference of either exceeds 0.02 the
    color record is discarded: the loop produces no entry for it, its
    result is that of the color records that follow. *)
Theorem threshold_boundary
  (depth_list pose_list : list record) (ts : float) (data : list string)
  (kd kp : nat) (d p : record) :
  np_argmin (abs_diffs (depth_timestamps depth_list) ts) = Ok kd ->
  nth_error depth_list kd = Some d ->
  np_argmin (abs_diffs (pose_timestamps pose_list) ts) = Ok kp ->
  nth_error pose_list kp = Some p ->
  Spec.has_token (ts, data) = true ->
  Spec.has_token d = true ->
  let dd := abs (fst d - ts)%float in
  let pd := abs (fst p - ts)%float in
  let m := mkMatch (Spec.file_path_token (ts, data)) (Spec.file_path_token d) (snd p) in
  ((dd =? threshold)%float = true ->
   (pd =? threshold)%float = true \/ gtb pd threshold = false ->
   associate_one depth_list pose_list ts data = Ok (Some m)
   /\ forall rest,
        associate depth_list pose_list ((ts, data) :: rest)
        = (ms <- associate depth_list pose_list rest ;; Ok (m :: ms)))
  /\ ((pd =? threshold)%float = true ->
      (dd =? threshold)%float = true \/ gtb dd threshold = false ->
      associate_one depth_list pose_list ts data = Ok (Some m)
      /\ forall rest,
           associate depth_list pose_list ((ts, data) :: rest)
           = (ms <- associate depth_list pose_list rest ;; Ok (m :: ms)))
  /\ (gtb dd threshold = true \/ gtb pd threshold = true ->
      associate_one depth_list pose_list ts data = Ok None
      /\ forall rest,
           associate depth_list pose_list ((ts, data) :: rest)
           = associate depth_list pose_list rest).
Proof.
  intros Hkd Hd Hkp Hp Hc Hdt. cbv zeta.
  assert (Haccept :
            gtb (abs (fst d - ts)%float) threshold = false ->
            gtb (abs (fst p - ts)%float) threshold = false ->
            associate_one depth_list pose_list ts data
            = Ok (Some (mkMatch (Spec.file_path_token (ts, data))
                                (Spec.file_path_token d) (snd p)))).
  { intros Gd Gp. unfold associate_one.
    rewrite Hkd. cbn [bind]. unfold depth_timestamps at 1.
    rewrite (Association.list_get_map fst _ _ _ Hd). cbn [bind].
    rewrite Gd, Hkp. cbn [bind]. unfold pose_timestamps at 1.
    rewrite (Association.list_get_map fst _ _ _ Hp). cbn [bind].
    rewrite Gp. unfold Spec.has_token in Hc, Hdt. unfold Spec.file_path_token.
    cbn [snd] in *.
    destruct data as [|tc ?]; [discriminate|]. cbn [list_get nth_error bind].
    rewrite (Association.list_get_nth _ _ _ Hd). cbn [bind].
    destruct (snd d) as [|td ?]; [discriminate|]. cbn [list_get nth_error bind].
    rewrite (Association.list_get_nth _ _ _ Hp). reflexivity. }
  assert (Hkeep :
            gtb (abs (fst d - ts)%float) threshold = false ->
            gtb (abs (fst p - ts)%float) threshold = false ->
            associate_one depth_list pose_list ts data
            = Ok (Some (mkMatch (Spec.file_path_token (ts, data))
                                (Spec.file_path_token d) (snd p)))
            /\ forall rest,
                 associate depth_list pose_list ((ts, data) :: rest)
                 = (ms <- associate depth_list pose_list rest ;;
                    Ok (mkMatch (Spec.file_path_token (ts, data))
                                (Spec.file_path_token d) (snd p) :: ms))).
  { intros Gd Gp. pose proof (Haccept Gd Gp) as Hone.
    split; [exact Hone|]. intros rest. apply associate_keep. exact Hone. }
  split; [|split].
  - intros Ed [Ep|Gp]; apply Hkeep; auto using FloatOrder.eqb_not_gtb.
  - intros Ep [Ed|Gd]; apply Hkeep; auto using FloatOrder.eqb_not_gtb.
  - intros Hex.
    assert (Hnone : associate_one depth_list pose_list ts data = Ok None).
    { unfold associate_one.
      rewrite Hkd. cbn [bind]. unfold depth_timestamps at 1.
      rewrite (Association.list_get_map fst _ _ _ Hd). cbn [bind].
      destruct (gtb (abs (fst d - ts)%float) threshold) eqn:Gd; [reflexivity|].
      rewrite Hkp. cbn [bind]. unfold pose_timestamps at 1.
      rewrite (Association.list_get_map fst _ _ _ Hp). cbn [bind].
      destruct Hex as [Hex|Hex]; [discriminate|]. rewrite Hex. reflexivity. }
    split; [exact Hnone|]. intros rest. apply associate_skip. exact Hnone.
Qed.

Lemma threshold_boundary_witness :
  associate
    [(0.02%float, ["depth/1.png"])] [(0.02%float, ["1"; "2"; "3"; "0"; "0"; "0"; "1"])]
    [(0%float, ["rgb/1.png"])]
  = Ok [mkMatch "rgb/1.png" "depth/1.png" ["1"; "2"; "3"; "0"; "0"; "0"; "1"]]
  /\ associate
       [(0.02%float, ["depth/1.png"])] [(0.01%float, ["1"; "2"; "3"; "0"; "0"; "0"; "1"])]
       [(0%float, ["rgb/1.png"]); (0.5%float, ["rgb/2.png"])]
     = Ok [mkMatch "rgb/1.png" "depth/1.png" ["1"; "2"; "3"; "0"; "0"; "0"; "1"]]
  /\ associate
       [(0.01%float, ["depth/1.png"])] [(0.02%float, ["1"; "2"; "3"; "0"; "0"; "0"; "1"])]
       [(0%float, ["rgb/1.png"])]
     = Ok [mkMatch "rgb/1.png" "depth/1.png" ["1"; "2"; "3"; "0"; "0"; "0"; "1"]]
  /\ associate
       [(0.02%float, ["depth/1.png"])] [(0.0200001%float, ["1"; "2"; "3"; "0"; "0"; "0"; "1"])]
       [(0%float, ["rgb/1.png"])]
     = Ok []
  /\ associate
       [(0.0200001%float, ["depth/1.png"])] [(0.02%float, ["1"; "2"; "3"; "0"; "0"; "0"; "1"])]
       [(0%float, ["rgb/1.png"])]
     = Ok [].
Proof.
  split; [|split; [|split; [|split]]].
  - refine (proj2 (proj1 (threshold_boundary
                    [(0.02%float, ["depth/1.png"])]
                    [(0.02%float, ["1"; "2"; "3"; "0"; "0"; "0"; "1"])]
                    0%float ["rgb/1.png"] 0 0
                    (0.02%float, ["depth/1.png"])
                    (0.02%float, ["1"; "2"; "3"; "0"; "0"; "0"; "1"])
                    eq_refl eq_refl eq_refl eq_refl eq_refl eq_refl) _ _) []);
      [reflexivity | left; reflexivity].
  - refine (proj2 (proj1 (threshold_boundary
                    [(0.02%float, ["depth/1.png"])]
                    [(0.01%float, ["1"; "2"; "3"; "0"; "0"; "0"; "1"])]
                    0%float ["rgb/1.png"] 0 0
                    (0.02%float, ["depth/1.png"])
                    (0.01%float, ["1"; "2"; "3"; "0"; "0"; "0"; "1"])
                    eq_refl eq_refl eq_refl eq_refl eq_refl eq_refl) _ _)
              [(0.5%float, ["rgb/2.png"])]);
      [reflexivity | right; reflexivity].
  - refine (proj2 (proj1 (proj2 (threshold_boundary
                    [(0.01%float, ["depth/1.png"])]
                    [(0.02%float, ["1"; "2"; "3"; "0"; "0"; "0"; "1"])]
                    0%float ["rgb/1.png"] 0 0
                    (0.01%float, ["depth/1.png"])
                    (0.02%float, ["1"; "2"; "3"; "0"; "0"; "0"; "1"])
                    eq_refl eq_refl eq_refl eq_refl eq_refl eq_refl)) _ _) []);
      [reflexivity | right; reflexivity].
  - refine (proj2 (proj2 (proj2 (threshold_boundary
                    [(0.02%float, ["depth/1.png"])]
                    [(0.0200001%float, ["1"; "2"; "3"; "0"; "0"; "0"; "1"])]
                    0%float ["rgb/1.png"] 0 0
                    (0.02%float, ["depth/1.png"])
                    (0.0200001%float, ["1"; "2"; "3"; "0"; "0"; "0"; "1"])
                    eq_refl eq_refl eq_refl eq_refl eq_refl eq_refl)) _) []).
    right. reflexivity.
  - refine (proj2 (proj2 (proj2 (threshold_boundary
                    [(0.0200001%float, ["depth/1.png"])]
                    [(0.02%float, ["1"; "2"; "3"; "0"; "0"; "0"; "1"])]
                    0%float ["rgb/1.png"] 0 0
                    (0.0200001%float, ["depth/1.png"])
                    (0.02%float, ["1"; "2"; "3"; "0"; "0"; "0"; "1"])
                    eq_refl eq_refl eq_refl eq_refl eq_refl eq_refl)) _) []).
    left. reflexivity.
Defined.

(** Decimal timestamps 0.02 apart need not have a computed difference of
    0.02: between 0.10 and 0.12 it is below the threshold, between 1.00 and
    1.02 it is above, and the color record is discarded. *)
Example computed_difference_rounding :
  gtb (abs (0.12 - 0.10)%float) threshold = false
  /\ gtb (abs (1.02 - 1.00)%float) threshold = true
  /\ associate_one
       [(1.02%float, ["depth/1.png"])] [(1.00%float, ["1"; "2"; "3"; "0"; "0"; "0"; "1"])]
       1.00%float ["rgb/1.png"] = Ok None.
Proof. repeat split; reflexivity. Qed.

Lemma getitem_index {RT : Runtime} (fs : filesystem) (i : Z) (r : t) (fr : frame) :
  fst (getitem fs i r) = Ok fr -> frame_index fr = (i + 1)%Z.
Proof.
  unfold getitem, mbind, attr, lift, raise, ret.
  destruct (len r <=? i)%Z; [discriminate|].
  destruct (py_getitem (poses r) i); [|discriminate].
  destruct (py_getitem (quats r) i); [|discriminate].
  destruct (py_getitem (depth_images r) i) as [dp|]; [|discriminate].
  destruct (Image_open fs dp); [|discriminate].
  destruct (py_getitem (rgb_images r) i) as [rp|]; [|discriminate].
  destruct (Image_open fs rp); [|discriminate].
  cbn. intros H. injection H as <-. reflexivity.
Qed.

Lemma getitem_valid {RT : Runtime} (fs : filesystem) (r : t) (i : Z) :
  Spec.consistent r -> (0 <= i < len r)%Z ->
  Spec.loadable fs r (Z.to_nat i) = true ->
  exists tr q dp dimg rp cimg,
    nth_error (poses r) (Z.to_nat i) = Some tr
    /\ nth_error (quats r) (Z.to_nat i) = Some q
    /\ nth_error (depth_images r) (Z.to_nat i) = Some dp
    /\ fs dp = Some (ImageFile dimg)
    /\ nth_error (rgb_images r) (Z.to_nat i) = Some rp
    /\ fs rp = Some (ImageFile cimg)
    /\ getitem fs i r
       = (Ok (i + 1, tr, q,
              divide_array (to_float32_array dimg) (depth_scaling r),
              to_float32_array (convert_RGB cimg))%Z, r).
Proof.
  intros Hc Hi Hl.
  assert (Hlt : (Z.to_nat i < length (rgb_images r))%nat) by (unfold len in *; lia).
  destruct (Subscript.frame_at_loadable fs r _ (i + 1) Hc Hlt Hl)
    as (tr & q & dp & dimg & rp & cimg & Htr & Hq & Hdp & Hfd & Hrp & Hfr & Hf).
  exists tr, q, dp, dimg, rp, cimg. repeat (split; [assumption|]).
  rewrite (Subscript.getitem_frame_at fs i r Hc) by lia.
  unfold Spec.position.
  replace (0 <=? i)%Z with true by (symmetry; apply Z.leb_le; lia).
  rewrite Hf. reflexivity.
Qed.

(** C5. For every constructed reader and every valid index [i], [get(i)]
    returns a frame (the two images of the Spec.position being there) and its
    first element is [i + 1]; whatever the index, a frame that the
    subscript returns has the index plus one as first element. *)
Theorem getitem_one_based {RT : Runtime}
  (fs : filesystem) (dir : path) (mn mx : number) (sc : float) (r : t) (i : Z) :
  init fs dir mn mx sc = Ok r ->
  (0 <= i < len r)%Z ->
  Spec.loadable fs r (Z.to_nat i) = true ->
  (exists fr, getitem fs i r = (Ok fr, r) /\ frame_index fr = (i + 1)%Z)
  /\ forall j fr, fst (getitem fs j r) = Ok fr -> frame_index fr = (j + 1)%Z.
Proof.
  intros Hinit Hi Hl.
  pose proof (Construction.init_consistent _ _ _ _ _ _ Hinit) as Hc.
  split.
  - destruct (getitem_valid fs r i Hc Hi Hl)
      as (tr & q & dp & dimg & rp & cimg & _ & _ & _ & _ & _ & _ & H).
    eexists. split; [exact H|reflexivity].
  - intros j fr. apply getitem_index.
Qed.

Lemma getitem_one_based_witness :
  (exists fr,
     getitem (RT := Sample.runtime) Sample.dataset 1 Sample.reader = (Ok fr, Sample.reader)
     /\ frame_index fr = (1 + 1)%Z)
  /\ forall j fr,
       fst (getitem (RT := Sample.runtime) Sample.dataset j Sample.reader) = Ok fr ->
       frame_index fr = (j + 1)%Z.
Proof.
  apply (@getitem_one_based Sample.runtime Sample.dataset "data"
           default_min_range default_max_range default_depth_scaling
           Sample.reader 1 sample_reader_init).
  - vm_compute. split; [discriminate|reflexivity].
  - vm_compute. reflexivity.
Defined.

(** C6. Iterating a reader of N matches (all images being there) yields
    exactly [get(0), ..., get(N-1)], in that order, and then
    [StopIteration]; the iteration has moved the cursor only, and a second
    full iteration on the same reader yields the same N frames. *)
Theorem iteration_yields_all_frames {RT : Runtime}
  (fs : filesystem) (dir : path) (mn mx : number) (sc : float) (r : t) (fuel : nat) :
  init fs dir mn mx sc = Ok r ->
  Spec.all_loadable fs r = true ->
  (len r < Z.of_nat fuel)%Z ->
  exists frames,
    let r' := Spec.with_cursor r (len r) in
    iterate fs fuel r = Some (Ok frames, r')
    /\ map Ok frames
       = map (fun k => fst (getitem fs (Z.of_nat k) r)) (seq 0 (length (rgb_images r)))
    /\ Z.of_nat (length frames) = len r
    /\ next fs r' = (Raise StopIteration, r')
    /\ snd (iter r') = Spec.with_cursor r 0
    /\ iterate fs fuel r' = Some (Ok frames, r').
Proof.
  intros Hinit Hall Hfuel.
  pose proof (Construction.init_consistent _ _ _ _ _ _ Hinit) as Hc.
  destruct (Iteration.drain_from fs r Hc Hall (length (rgb_images r)) 0 fuel)
    as (frames & Hd & Hm); [reflexivity|unfold len in Hfuel; lia|].
  exists frames. cbv zeta.
  assert (Hit : iterate fs fuel r
                = Some (Ok frames, Spec.with_cursor r (len r))) by exact Hd.
  split; [exact Hit|]. split; [exact Hm|]. split.
  - apply (f_equal (@length _)) in Hm. rewrite !length_map, length_seq in Hm.
    unfold len. rewrite Hm. reflexivity.
  - split; [apply Iteration.next_exhausted;
            rewrite Iteration.len_with_cursor, Iteration.file_index_with_cursor; lia|].
    split; [reflexivity|exact Hd].
Qed.

Lemma iteration_yields_all_frames_witness :
  exists frames,
    let r' := Spec.with_cursor Sample.reader (len Sample.reader) in
    iterate (RT := Sample.runtime) Sample.dataset 3 Sample.reader = Some (Ok frames, r')
    /\ map Ok frames
       = map (fun k => fst (getitem (RT := Sample.runtime) Sample.dataset (Z.of_nat k)
                              Sample.reader))
             (seq 0 (length (rgb_images Sample.reader)))
    /\ Z.of_nat (length frames) = len Sample.reader
    /\ next (RT := Sample.runtime) Sample.dataset r' = (Raise StopIteration, r')
    /\ snd (iter r') = Spec.with_cursor Sample.reader 0
    /\ iterate (RT := Sample.runtime) Sample.dataset 3 r' = Some (Ok frames, r').
Proof.
  apply (@iteration_yields_all_frames Sample.runtime Sample.dataset "data"
           default_min_range default_max_range default_depth_scaling
           Sample.reader 3 sample_reader_init).
  - vm_compute. reflexivity.
  - vm_compute. reflexivity.
Defined.

Lemma sample_map {A B : Type} (f : A -> B) (arr : list (list (list A)))
  (row col band : nat) :
  Spec.sample (map (map (map f)) arr) row col band
  = option_map f (Spec.sample arr row col band).
Proof.
  unfold Spec.sample. rewrite nth_error_map.
  destruct (nth_error arr row) as [r|]; cbn; [|reflexivity].
  rewrite nth_error_map. destruct (nth_error r col) as [px|]; cbn; [|reflexivity].
  apply nth_error_map.
Qed.

Lemma all_from_range (f : Z -> bool) (bits : nat) (base v : Z) :
  Spec.all_from f bits base = true ->
  (base <= v < base + 2 ^ Z.of_nat bits)%Z ->
  f v = true.
Proof.
  revert base. induction bits as [|b IH]; intros base H Hv.
  - cbn in *. replace v with base by lia. exact H.
  - cbn [Spec.all_from] in H. apply andb_true_iff in H. destruct H as [H1 H2].
    rewrite Nat2Z.inj_succ, Z.pow_succ_r in Hv by lia.
    destruct (Z_lt_le_dec v (base + 2 ^ Z.of_nat b)).
    + apply (IH base H1). lia.
    + apply (IH _ H2). lia.
Qed.

(** With the default divisor, the binary32 quotient of each sample of 16
    bits is a binary32 value nearest to the sample divided by 5000. *)
Lemma default_divisor_quotients :
  Spec.all_from
    (fun v => Spec.rounded_quotient
                (float32_div (float32_of_Z v) (float32_of_float default_depth_scaling))
                v default_depth_scaling)
    16 0 = true.
Proof. vm_cast_no_check (eq_refl true). Qed.

Lemma sample_13_reader_init (sc : float) :
  init (RT := Sample.runtime) Sample.dataset_sample_13 "data"
       default_min_range default_max_range sc
  = Ok (Sample.reader_with sc).
Proof. reflexivity. Qed.

(** The depth map is not the quotient [v / depth_scaling] for every divisor
    that the constructor takes.  With the divisor 5000.1 the sample 13 comes
    out as 11166691 * 2^-32, while the binary32 value nearest to 13 / 5000.1
    is the next one, which is also the binary32 of the binary64 quotient.
    With the divisor 1e-50, which is not zero, the sample 0 comes out as
    NaN, while 0 / 1e-50 is 0: the binary32 of 1e-50 is zero. *)
Lemma depth_is_not_the_quotient_counterexample :
  (exists fr x,
     getitem (RT := Sample.runtime) Sample.dataset_sample_13 0
       (Sample.reader_with 5000.1%float)
     = (Ok fr, Sample.reader_with 5000.1%float)
     /\ Image_open Sample.dataset_sample_13 "data/depth/1.png" = Ok [[[13%Z]; [0%Z]]]
     /\ Spec.sample (frame_depth fr) 0 0 0 = Some x
     /\ x = S754_finite false 11166691 (-32)
     /\ Spec.rounded_quotient x 13 5000.1%float = false
     /\ Spec.rounded_quotient (S754_finite false 11166692 (-32)) 13 5000.1%float = true
     /\ float32_of_float (13 / 5000.1)%float = S754_finite false 11166692 (-32))
  /\ (exists fr x,
        getitem (RT := Sample.runtime) Sample.dataset_sample_13 0
          (Sample.reader_with 1e-50%float)
        = (Ok fr, Sample.reader_with 1e-50%float)
        /\ Spec.sample (frame_depth fr) 0 1 0 = Some x
        /\ x = S754_nan
        /\ Spec.rounded_quotient x 0 1e-50%float = false
        /\ Spec.rounded_quotient (S754_zero false) 0 1e-50%float = true
        /\ (0 / 1e-50)%float = 0%float
        /\ float32_of_float 1e-50%float = S754_zero false).
Proof.
  split.
  - eexists. eexists. split; [vm_compute; reflexivity|].
    split; [reflexivity|]. split; [vm_compute; reflexivity|].
    split; [reflexivity|]. split; [vm_compute; reflexivity|].
    split; vm_compute; reflexivity.
  - eexists. eexists. split; [vm_compute; reflexivity|].
    split; [vm_compute; reflexivity|].
    split; [reflexivity|]. split; [vm_compute; reflexivity|].
    split; [vm_compute; reflexivity|]. split; vm_compute; reflexivity.
Qed.

(** C7. For every valid index [i], the depth map of [get(i)] has the shape
    of the stored depth image, and each of its values is the stored sample
    [v] converted to binary32 and divided, in binary32 arithmetic, by the
    binary32 of the [depth_scaling] given at construction.  With the default
    divisor 5000.0 and a sample of at most 16 bits, that value is a binary32
    value nearest to [v / 5000]. *)
Theorem depth_is_scaled {RT : Runtime}
  (fs : filesystem) (dir : path) (mn mx : number) (sc : float) (r : t) (i : Z) :
  init fs dir mn mx sc = Ok r ->
  (0 <= i < len r)%Z ->
  Spec.loadable fs r (Z.to_nat i) = true ->
  exists fr dp dimg,
    getitem fs i r = (Ok fr, r)
    /\ nth_error (depth_images r) (Z.to_nat i) = Some dp
    /\ fs dp = Some (ImageFile dimg)
    /\ (forall row col band,
          Spec.sample (frame_depth fr) row col band
          = option_map (fun v => float32_div (float32_of_Z v) (float32_of_float sc))
                       (Spec.sample dimg row col band))
    /\ (sc = default_depth_scaling ->
        forall row col band v,
          Spec.sample dimg row col band = Some v -> (0 <= v < 65536)%Z ->
          exists x, Spec.sample (frame_depth fr) row col band = Some x
                    /\ Spec.rounded_quotient x v sc = true).
Proof.
  intros Hinit Hi Hl.
  pose proof (Construction.init_consistent _ _ _ _ _ _ Hinit) as Hc.
  destruct (Construction.init_inv _ _ _ _ _ _ Hinit) as (ms & _ & _ & _ & _ & Hsc & _).
  destruct (getitem_valid fs r i Hc Hi Hl)
    as (tr & q & dp & dimg & rp & cimg & _ & _ & Hdp & Hfd & _ & _ & H).
  eexists. exists dp, dimg. split; [exact H|]. split; [exact Hdp|]. split; [exact Hfd|].
  assert (Hs : forall row col band,
             Spec.sample (divide_array (to_float32_array dimg) (depth_scaling r))
                         row col band
             = option_map (fun v => float32_div (float32_of_Z v) (float32_of_float sc))
                          (Spec.sample dimg row col band)).
  { intros row col band. unfold divide_array, to_float32_array.
    rewrite !sample_map, Hsc. destruct (Spec.sample dimg row col band); reflexivity. }
  cbn [frame_depth]. split; [exact Hs|].
  intros -> row col band v Hv Hr. rewrite Hs, Hv. cbn [option_map].
  eexists. split; [reflexivity|].
  apply (all_from_range _ 16 0 v default_divisor_quotients).
  change (2 ^ Z.of_nat 16)%Z with 65536%Z. lia.
Qed.

Lemma depth_is_scaled_witness :
  exists fr,
    getitem (RT := Sample.runtime) Sample.dataset 0 Sample.reader = (Ok fr, Sample.reader)
    /\ Image_open Sample.dataset "data/depth/1.png" = Ok [[[5000%Z]; [1%Z]]]
    /\ Spec.sample (frame_depth fr) 0 0 0 = Some (S754_finite false 8388608 (-23))
    /\ Spec.sample (frame_depth fr) 0 1 0 = Some (S754_finite false 13743895 (-36))
    /\ Spec.sample (frame_depth fr) 0 2 0 = None
    /\ Spec.rounded_quotient (S754_finite false 13743895 (-36)) 1 default_depth_scaling
       = true.
Proof.
  destruct (@depth_is_scaled Sample.runtime Sample.dataset "data"
              default_min_range default_max_range default_depth_scaling
              Sample.reader 0 sample_reader_init)
    as (fr & dp & dimg & Hg & Hdp & Hfd & Hs & Hq).
  - vm_compute. split; [discriminate|reflexivity].
  - vm_compute. reflexivity.
  - injection Hdp as <-. injection Hfd as <-.
    exists fr. split; [exact Hg|]. split; [reflexivity|].
    split; [rewrite Hs; reflexivity|]. split; [rewrite Hs; reflexivity|].
    split; [rewrite Hs; reflexivity|].
    destruct (Hq eq_refl 0%nat 1%nat 0%nat 1%Z eq_refl) as (x & Hx & Hn); [lia|].
    rewrite Hs in Hx. injection Hx as <-. exact Hn.
Defined.

(** With the default divisor, the sample 5000 comes out as 1.0 and the
    sample 1 as the float32 nearest to 1/5000. *)
Example depth_of_sample_frame :
  option_map frame_depth
    (match fst (getitem (RT := Sample.runtime) Sample.dataset 0 Sample.reader) with
     | Ok fr => Some fr
     | Raise _ => None
     end)
  = Some [[[S754_finite false 8388608 (-23)]; [S754_finite false 13743895 (-36)]]].
Proof. vm_compute. reflexivity. Qed.

Lemma fields_of_seven {RT : Runtime}
  (t0 t1 t2 t3 t4 t5 t6 : string) (rest : list string)
  (tx ty tz qx qy qz qw : float) :
  py_float t0 = Some tx -> py_float t1 = Some ty -> py_float t2 = Some tz ->
  py_float t3 = Some qx -> py_float t4 = Some qy -> py_float t5 = Some qz ->
  py_float t6 = Some qw ->
  let p := t0 :: t1 :: t2 :: t3 :: t4 :: t5 :: t6 :: rest in
  Spec.has_fields p = true
  /\ Spec.translation_of p = map float32_of_float [tx; ty; tz]
  /\ Spec.orientation_of p = map float32_of_float [qx; qy; qz; qw].
Proof.
  intros H0 H1 H2 H3 H4 H5 H6.
  unfold Spec.has_fields, Spec.translation_of, Spec.orientation_of, Spec.leading_fields.
  cbn. rewrite H0, H1, H2, H3, H4, H5, H6. cbn. repeat split; reflexivity.
Qed.

Lemma binary32_fields {RT : Runtime} (ms : list Match) :
  Forall (Forall (fun x => is_binary32 x = true))
         (map (fun m => Spec.translation_of (m_pose m)) ms)
  /\ Forall (Forall (fun x => is_binary32 x = true))
            (map (fun m => Spec.orientation_of (m_pose m)) ms).
Proof.
  split; apply Forall_map, Forall_forall; intros m _;
    unfold Spec.translation_of, Spec.orientation_of;
    (destruct (Spec.leading_fields (m_pose m)) as [xs|]; [|constructor]);
    apply Forall_map, Forall_forall; intros x _;
    apply Binary32.float32_of_float_valid.
Qed.

(** C8. From the pose tokens of each emitted match, construction parses the
    seven leading fields as (tx, ty, tz, qx, qy, qz, qw) and stores
    (tx, ty, tz) and (qx, qy, qz, qw) as float32: every stored component is
    a value of the binary32 format, the conversion of the parsed number.
    When the pose tokens of an emitted match have fewer than seven fields or
    a non-numeric one among them, construction fails with the error of
    parsing ([IndexError] for a missing field, [ValueError] for a
    non-numeric one). *)
Theorem pose_fields_parsed {RT : Runtime}
  (fs : filesystem) (dir : path) (mn mx : number) (sc : float) (ms : list Match) :
  load_matches fs dir = Ok ms ->
  (forallb (fun m => Spec.has_fields (m_pose m)) ms = true ->
   exists r,
     init fs dir mn mx sc = Ok r
     /\ poses r = map (fun m => Spec.translation_of (m_pose m)) ms
     /\ quats r = map (fun m => Spec.orientation_of (m_pose m)) ms
     /\ Forall (Forall (fun x => is_binary32 x = true)) (poses r)
     /\ Forall (Forall (fun x => is_binary32 x = true)) (quats r))
  /\ (forallb (fun m => Spec.has_fields (m_pose m)) ms = false ->
      exists e, init fs dir mn mx sc = Raise e /\ Spec.is_parse_error e = true)
  /\ (forall p,
        Spec.has_fields p = false <->
        (length p < 7)%nat
        \/ exists i tok, (i < 7)%nat /\ nth_error p i = Some tok /\ py_float tok = None)
  /\ (forall t0 t1 t2 t3 t4 t5 t6 rest tx ty tz qx qy qz qw,
        py_float t0 = Some tx -> py_float t1 = Some ty -> py_float t2 = Some tz ->
        py_float t3 = Some qx -> py_float t4 = Some qy -> py_float t5 = Some qz ->
        py_float t6 = Some qw ->
        let p := t0 :: t1 :: t2 :: t3 :: t4 :: t5 :: t6 :: rest in
        Spec.has_fields p = true
        /\ Spec.translation_of p = map float32_of_float [tx; ty; tz]
        /\ Spec.orientation_of p = map float32_of_float [qx; qy; qz; qw]).
Proof.
  intros Hms. split; [|split; [|split]].
  - intros Hf. eexists. split; [apply (Construction.init_of_matches _ _ _ _ _ _ Hms Hf)|].
    split; [reflexivity|]. split; [reflexivity|]. apply binary32_fields.
  - intros Hf. destruct (Construction.parse_poses_some_bad ms Hf) as (e & He & Hpe).
    exists e. split; [|exact Hpe].
    unfold init, load_tum_data. rewrite Hms. cbn [bind]. rewrite He. reflexivity.
  - apply Construction.has_fields_false_iff.
  - apply fields_of_seven.
Qed.

Lemma pose_fields_parsed_witness :
  (exists r,
     init (RT := Sample.runtime) Sample.dataset_decimal_pose "data"
          default_min_range default_max_range default_depth_scaling = Ok r
     /\ poses r
        = [[S754_finite false 13421773 (-27); S754_finite true 13421773 (-26);
            S754_finite false 10066330 (-25)];
           [S754_finite false 12582912 (-23); S754_finite false 10485760 (-22);
            S754_finite false 8388608 1]]
     /\ quats r
        = [[S754_zero false; S754_finite false 10066330 (-24); S754_zero false;
            S754_finite false 13421773 (-24)];
           [S754_zero false; S754_zero false; S754_zero false;
            S754_finite false 8388608 (-23)]]
     /\ Forall (Forall (fun x => is_binary32 x = true)) (poses r)
     /\ Forall (Forall (fun x => is_binary32 x = true)) (quats r))
  /\ Sample.decimal_float "0.1" = Some 0.1%float
  /\ is_binary32 (Prim2SF 0.1%float) = false
  /\ Spec.nearest_to_float (S754_finite false 13421773 (-27)) 0.1%float = true
  /\ Spec.nearest_to_float (S754_finite false 8388608 1) 16777217%float = true
  /\ (exists e,
        init (RT := Sample.runtime) Sample.dataset_short_pose "data"
             default_min_range default_max_range default_depth_scaling = Raise e
        /\ Spec.is_parse_error e = true).
Proof.
  split; [|split; [|split; [|split; [|split]]]].
  - destruct (proj1 (@pose_fields_parsed Sample.runtime Sample.dataset_decimal_pose "data"
                       default_min_range default_max_range default_depth_scaling
                       [mkMatch "rgb/1.png" "depth/1.png"
                          ["0.1"; "-0.2"; "0.3"; "0.0"; "0.6"; "0.0"; "0.8"];
                        mkMatch "rgb/2.png" "depth/2.png"
                          ["1.5"; "2.5"; "16777217"; "0.0"; "0.0"; "0.0"; "1.0"]]
                       eq_refl) eq_refl)
      as (r & Hinit & Hp & Hq & Vp & Vq).
    exists r. split; [exact Hinit|]. split; [rewrite Hp; reflexivity|].
    split; [rewrite Hq; reflexivity|]. split; [exact Vp|exact Vq].
  - reflexivity.
  - reflexivity.
  - vm_compute. reflexivity.
  - vm_compute. reflexivity.
  - apply (proj1 (proj2 (@pose_fields_parsed Sample.runtime Sample.dataset_short_pose "data"
                    default_min_range default_max_range default_depth_scaling
                    [mkMatch "rgb/1.png" "depth/1.png" ["1.0"; "2.0"; "3.0"; "0.0"; "0.0"; "0.0"];
                     mkMatch "rgb/2.png" "depth/2.png"
                       ["1.5"; "2.5"; "3.5"; "0.0"; "0.0"; "0.0"; "1.0"]]
                    ltac:(vm_compute; reflexivity)))).
    vm_compute. reflexivity.
Defined.

(** A pose record of six fields makes construction fail with [IndexError],
    a non-numeric field with [ValueError]. *)
Example malformed_pose_errors :
  init (RT := Sample.runtime) Sample.dataset_short_pose "data"
       default_min_range default_max_range default_depth_scaling = Raise IndexError
  /\ init (RT := Sample.runtime) Sample.dataset_bad_pose "data"
          default_min_range default_max_range default_depth_scaling = Raise ValueError.
Proof. split; vm_compute; reflexivity. Qed.

Lemma read_missing {RT : Runtime} (fs : filesystem) (p : path) :
  exists_ fs p = false -> read_file_list fs p = Raise FileNotFoundError.
Proof.
  unfold exists_, read_file_list, open_lines.
  destruct (fs p); [discriminate|reflexivity].
Qed.

Lemma init_raises {RT : Runtime} fs dir mn mx sc (e : exn) :
  load_matches fs dir = Raise e -> init fs dir mn mx sc = Raise e.
Proof. intros H. unfold init, load_tum_data. rewrite H. reflexivity. Qed.

(** C9. The pose list is read from [groundtruth.txt] when that file exists,
    whatever [poses.txt] is, and from [poses.txt] otherwise.  Construction
    fails with [FileNotFoundError] when [rgb.txt] is absent, when
    [depth.txt] is absent, and when neither pose list file is there (the
    list files read before the absent one being parsed without error); when
    one of them is absent it fails in any case. *)
Theorem pose_file_resolution {RT : Runtime}
  (fs : filesystem) (dir : path) (mn mx : number) (sc : float) :
  let rgb_file := joinpath dir "rgb.txt" in
  let depth_file := joinpath dir "depth.txt" in
  let groundtruth := joinpath dir "groundtruth.txt" in
  let poses_txt := joinpath dir "poses.txt" in
  (exists_ fs groundtruth = true ->
   pose_file_of fs dir = groundtruth
   /\ load_matches fs dir = load_matches_from fs dir groundtruth)
  /\ (exists_ fs groundtruth = false ->
      pose_file_of fs dir = poses_txt
      /\ load_matches fs dir = load_matches_from fs dir poses_txt)
  /\ (exists_ fs rgb_file = false ->
      init fs dir mn mx sc = Raise FileNotFoundError)
  /\ (succeeds (read_file_list fs rgb_file) = true ->
      exists_ fs depth_file = false ->
      init fs dir mn mx sc = Raise FileNotFoundError)
  /\ (succeeds (read_file_list fs rgb_file) = true ->
      succeeds (read_file_list fs depth_file) = true ->
      exists_ fs groundtruth = false -> exists_ fs poses_txt = false ->
      init fs dir mn mx sc = Raise FileNotFoundError)
  /\ (exists_ fs rgb_file = false \/ exists_ fs depth_file = false
      \/ exists_ fs (pose_file_of fs dir) = false ->
      succeeds (init fs dir mn mx sc) = false).
Proof.
  cbv zeta.
  assert (Hgt : exists_ fs (joinpath dir "groundtruth.txt") = true ->
                pose_file_of fs dir = joinpath dir "groundtruth.txt").
  { intros H. unfold pose_file_of. rewrite H. reflexivity. }
  assert (Halt : exists_ fs (joinpath dir "groundtruth.txt") = false ->
                 pose_file_of fs dir = joinpath dir "poses.txt").
  { intros H. unfold pose_file_of. rewrite H. reflexivity. }
  split; [intros H; split; [auto|unfold load_matches; rewrite (Hgt H); reflexivity]|].
  split; [intros H; split; [auto|unfold load_matches; rewrite (Halt H); reflexivity]|].
  split.
  { intros H. apply init_raises. unfold load_matches, load_matches_from.
    rewrite (read_missing _ _ H). reflexivity. }
  split.
  { intros Hr H. apply init_raises. unfold load_matches, load_matches_from.
    destruct (read_file_list fs (joinpath dir "rgb.txt")); [|discriminate].
    cbn [bind]. rewrite (read_missing _ _ H). reflexivity. }
  split.
  { intros Hr Hd Hg Hp. apply init_raises. unfold load_matches, load_matches_from.
    destruct (read_file_list fs (joinpath dir "rgb.txt")); [|discriminate].
    destruct (read_file_list fs (joinpath dir "depth.txt")); [|discriminate].
    cbn [bind]. rewrite (Halt Hg), (read_missing _ _ Hp). reflexivity. }
  intros H.
  assert (Hm : succeeds (load_matches fs dir) = false).
  { unfold load_matches, load_matches_from.
    destruct H as [H|[H|H]].
    - rewrite (read_missing _ _ H). reflexivity.
    - destruct (read_file_list fs (joinpath dir "rgb.txt")); [|reflexivity].
      cbn [bind]. rewrite (read_missing _ _ H). reflexivity.
    - destruct (read_file_list fs (joinpath dir "rgb.txt")); [|reflexivity].
      destruct (read_file_list fs (joinpath dir "depth.txt")); [|reflexivity].
      cbn [bind]. rewrite (read_missing _ _ H). reflexivity. }
  destruct (load_matches fs dir) as [ms|e] eqn:E; [discriminate|].
  rewrite (init_raises _ _ _ _ _ _ E). reflexivity.
Qed.

Lemma pose_file_resolution_witness :
  (pose_file_of (RT := Sample.runtime) Sample.dataset_both "data" = "data/groundtruth.txt"
   /\ load_matches (RT := Sample.runtime) Sample.dataset_both "data"
      = load_matches_from (RT := Sample.runtime) Sample.dataset_both "data"
          "data/groundtruth.txt")
  /\ (pose_file_of (RT := Sample.runtime) Sample.dataset_poses_txt "data" = "data/poses.txt"
      /\ load_matches (RT := Sample.runtime) Sample.dataset_poses_txt "data"
         = load_matches_from (RT := Sample.runtime) Sample.dataset_poses_txt "data"
             "data/poses.txt")
  /\ init (RT := Sample.runtime) Sample.dataset_no_pose "data"
          default_min_range default_max_range default_depth_scaling
     = Raise FileNotFoundError.
Proof.
  split; [|split].
  - apply (proj1 (@pose_file_resolution Sample.runtime Sample.dataset_both "data"
                    default_min_range default_max_range default_depth_scaling)).
    vm_compute. reflexivity.
  - apply (proj1 (proj2 (@pose_file_resolution Sample.runtime Sample.dataset_poses_txt "data"
                    default_min_range default_max_range default_depth_scaling))).
    vm_compute. reflexivity.
  - apply (proj1 (proj2 (proj2 (proj2 (proj2
             (@pose_file_resolution Sample.runtime Sample.dataset_no_pose "data"
                default_min_range default_max_range default_depth_scaling))))));
      vm_compute; reflexivity.
Defined.

(** With both files there the poses of [groundtruth.txt] are the ones in the
    reader; with [poses.txt] alone the reader is the same. *)
Example groundtruth_preferred :
  init (RT := Sample.runtime) Sample.dataset_both "data"
       default_min_range default_max_range default_depth_scaling = Ok Sample.reader
  /\ init (RT := Sample.runtime) Sample.dataset_poses_txt "data"
          default_min_range default_max_range default_depth_scaling = Ok Sample.reader.
Proof. split; vm_compute; reflexivity. Qed.

Lemma getitem_ext {RT : Runtime} (fs : filesystem) (i : Z) (r1 r2 : t) :
  rgb_images r1 = rgb_images r2 -> depth_images r1 = depth_images r2 ->
  poses r1 = poses r2 -> quats r1 = quats r2 ->
  depth_scaling r1 = depth_scaling r2 ->
  fst (getitem fs i r1) = fst (getitem fs i r2).
Proof.
  destruct r1 as [dd1 mn1 mx1 sc1 rps1 dps1 ps1 qs1 fi1].
  destruct r2 as [dd2 mn2 mx2 sc2 rps2 dps2 ps2 qs2 fi2].
  cbn [rgb_images depth_images poses quats depth_scaling].
  intros <- <- <- <- <-.
  unfold getitem, mbind, attr, lift, raise, ret, len.
  cbv beta iota delta [snd poses quats depth_images rgb_images depth_scaling].
  destruct (Z.of_nat (length rps1) <=? i)%Z; [reflexivity|].
  destruct (py_getitem ps1 i); [|reflexivity].
  destruct (py_getitem qs1 i); [|reflexivity].
  destruct (py_getitem dps1 i) as [dp|]; [|reflexivity].
  destruct (Image_open fs dp); [|reflexivity].
  destruct (py_getitem rps1 i) as [rp|]; [|reflexivity].
  destruct (Image_open fs rp); reflexivity.
Qed.

(** C10. [min_range] and [max_range] are stored and nothing more: when a
    reader is constructed over a directory with some values of them, one is
    constructed with any other values and the same [depth_scaling], it has
    the same length, and [get(i)] gives the same outcome for every index. *)
Theorem ranges_only_stored {RT : Runtime}
  (fs : filesystem) (dir : path) (sc : float) (mn1 mx1 mn2 mx2 : number) (r1 : t) :
  init fs dir mn1 mx1 sc = Ok r1 ->
  exists r2,
    init fs dir mn2 mx2 sc = Ok r2
    /\ min_range r1 = mn1 /\ max_range r1 = mx1
    /\ min_range r2 = mn2 /\ max_range r2 = mx2
    /\ len r1 = len r2
    /\ forall i, fst (getitem fs i r1) = fst (getitem fs i r2).
Proof.
  intros H1.
  destruct (Construction.init_inv _ _ _ _ _ _ H1)
    as (ms & Hms & Hp & Hr & Hd & Hsc & Hmn & Hmx & _).
  exists (mkReader dir mn2 mx2 sc (rgb_images r1) (depth_images r1)
            (poses r1) (quats r1) 0).
  split.
  { unfold init, load_tum_data. rewrite Hms. cbn [bind]. rewrite Hp. cbn [bind fst snd].
    rewrite Hr, Hd. reflexivity. }
  cbn [min_range max_range]. repeat (split; [assumption || reflexivity|]).
  intros i. apply getitem_ext; cbn; auto.
Qed.

Lemma ranges_only_stored_witness :
  exists r2,
    init (RT := Sample.runtime) Sample.dataset "data" (PyInt 1) (PyFloat 4.5%float)
         default_depth_scaling = Ok r2
    /\ min_range Sample.reader = default_min_range
    /\ max_range Sample.reader = default_max_range
    /\ min_range r2 = PyInt 1 /\ max_range r2 = PyFloat 4.5%float
    /\ len Sample.reader = len r2
    /\ forall i,
         fst (getitem (RT := Sample.runtime) Sample.dataset i Sample.reader)
         = fst (getitem (RT := Sample.runtime) Sample.dataset i r2).
Proof.
  apply (@ranges_only_stored Sample.runtime Sample.dataset "data"
           default_depth_scaling default_min_range default_max_range
           (PyInt 1) (PyFloat 4.5%float) Sample.reader sample_reader_init).
Defined.

(** * Further properties of the code *)

(** ** [read_file_list] *)

Module Reading.

Import Notions.

Section WithRuntime.

Context {RT : Runtime}.

Lemma parse_lines_comment (line : string) (rest : list string) :
  startswith_hash line = true -> parse_lines (line :: rest) = parse_lines rest.
Proof. intros H. cbn [parse_lines]. rewrite H. reflexivity. Qed.

Lemma parse_lines_app (l1 l2 : list string) :
  parse_lines (l1 ++ l2)
  = (r1 <- parse_lines l1 ;; r2 <- parse_lines l2 ;; Ok (r1 ++ r2)).
Proof.
  induction l1 as [|line rest IH]; cbn [app parse_lines].
  - cbn [bind]. destruct (parse_lines l2); reflexivity.
  - destruct (startswith_hash line); [exact IH|].
    destruct (list_get (split line) 0) as [p0|]; cbn [bind]; [|reflexivity].
    destruct (float_of p0) as [ts|]; cbn [bind]; [|reflexivity].
    rewrite IH. destruct (parse_lines rest) as [r1|]; cbn [bind]; [|reflexivity].
    destruct (parse_lines l2) as [r2|]; reflexivity.
Qed.

Lemma split_from_some (t s : string) : split_from (Some t) s <> [].
Proof.
  revert t. induction s as [|c r IH]; intros t; cbn [split_from]; [discriminate|].
  destruct (is_space c); [discriminate|apply IH].
Qed.

Lemma split_all_space (s : string) : split s = [] <-> all_space s = true.
Proof.
  unfold split. induction s as [|c r IH]; cbn [split_from all_space].
  - split; reflexivity.
  - destruct (is_space c); cbn [andb]; [exact IH|].
    split; [|discriminate]. intros H. destruct (split_from_some _ _ H).
Qed.

Lemma parse_lines_filter (lines : list string) :
  parse_lines lines = parse_lines (filter is_record_line lines).
Proof.
  induction lines as [|line rest IH]; [reflexivity|].
  unfold is_record_line in *. cbn [filter].
  destruct (startswith_hash line) eqn:Hc; cbn [negb].
  - rewrite parse_lines_comment by exact Hc. exact IH.
  - cbn [parse_lines]. rewrite Hc, IH. reflexivity.
Qed.

Lemma parse_record_line (line : string) (rest : list string) (recs : list record) :
  startswith_hash line = false ->
  parse_lines (line :: rest) = Ok recs <->
  exists rec recs', recs = rec :: recs' /\ record_of_line line rec
                    /\ parse_lines rest = Ok recs'.
Proof.
  intros Hc. cbn [parse_lines]. rewrite Hc. unfold record_of_line, list_get, float_of.
  destruct (split line) as [|tok toks]; cbn.
  - split; [discriminate|]. intros (rec & recs' & _ & (t & Ht & _) & _). discriminate.
  - destruct (py_float tok) as [ts|] eqn:Hts; cbn.
    + destruct (parse_lines rest) as [recs'|e]; cbn.
      * split.
        -- intros H. injection H as <-. exists (ts, toks), recs'.
           split; [reflexivity|]. split; [|reflexivity]. exists tok. auto.
        -- intros (rec & recs'' & -> & (t & Ht & Hf & Hs) & Hr).
           injection Ht as <-. injection Hr as <-. destruct rec as [ts' data].
           cbn in Hf, Hs. rewrite Hts in Hf. injection Hf as <-. subst data. reflexivity.
      * split; [discriminate|]. intros (rec & recs'' & _ & _ & Hr). discriminate.
    + split; [discriminate|]. intros (rec & recs' & _ & (t & Ht & Hf & _) & _).
      injection Ht as <-. rewrite Hts in Hf. discriminate.
Qed.

End WithRuntime.

(** X1. [read_file_list] does not see the comment lines: a list file and
    the same file without its lines that start with [#] give the same
    records, or the same error. *)
Theorem comment_lines_ignored {RT : Runtime} (fs fs' : filesystem) (p p' : path)
  (lines : list string) :
  fs p = Some (TextFile lines) ->
  fs' p' = Some (TextFile (filter is_record_line lines)) ->
  read_file_list fs p = read_file_list fs' p'.
Proof.
  intros H H'. unfold read_file_list, open_lines. rewrite H, H'. cbn [bind].
  apply parse_lines_filter.
Qed.

Lemma comment_lines_ignored_witness :
  read_file_list (RT := Sample.runtime) Sample.dataset "data/rgb.txt"
  = read_file_list (RT := Sample.runtime)
      (Sample.files [("rgb.txt",
                      TextFile ["0.100000 rgb/1.png"; "0.200000 rgb/2.png";
                                "0.300000 rgb/3.png"])])
      "rgb.txt".
Proof.
  apply (@comment_lines_ignored Sample.runtime Sample.dataset _ "data/rgb.txt" "rgb.txt"
           ["# color images"; "0.100000 rgb/1.png"; "0.200000 rgb/2.png";
            "0.300000 rgb/3.png"]); reflexivity.
Defined.

(** X2. [read_file_list] succeeds exactly when the first token of every
    non-comment line is a number, and then its records are those lines in
    their order, each with the number as timestamp and the remaining tokens
    as data. *)
Theorem records_are_the_record_lines {RT : Runtime} (lines : list string)
  (recs : list record) :
  parse_lines lines = Ok recs <->
  Forall2 record_of_line (filter is_record_line lines) recs.
Proof.
  revert recs. induction lines as [|line rest IH]; intros recs.
  - cbn. split.
    + intros H. injection H as <-. constructor.
    + intros H. inversion H. reflexivity.
  - unfold is_record_line in *. cbn [filter].
    destruct (startswith_hash line) eqn:Hc; cbn [negb].
    + rewrite parse_lines_comment by exact Hc. apply IH.
    + rewrite (parse_record_line line rest recs Hc). split.
      * intros (rec & recs' & -> & Hrec & Hrest). constructor; [exact Hrec|].
        apply IH. exact Hrest.
      * intros H. inversion H as [|l rec ls recs' Hrec Hrest]; subst.
        exists rec, recs'. split; [reflexivity|]. split; [exact Hrec|].
        apply IH. exact Hrest.
Qed.

Lemma records_are_the_record_lines_witness :
  parse_lines (RT := Sample.runtime)
    ["# color images";
     ("0.5" ++ Sample.no_break_space ++ "rgb/1.png" ++ Sample.next_line ++ "x")%string;
     "  0.25  rgb/2.png  "]
  = Ok [(0.5%float, ["rgb/1.png"; "x"]); (0.25%float, ["rgb/2.png"])].
Proof.
  apply (proj2 (@records_are_the_record_lines Sample.runtime _ _)).
  repeat constructor.
  - exists "0.5". repeat split; reflexivity.
  - exists "0.25". repeat split; reflexivity.
Defined.

(** X3. The first line that is no record decides the error of
    [read_file_list]: after lines that parse, a line of whitespace only (an
    empty line is one) raises [IndexError], and a line whose first token is
    no number raises [ValueError], whatever follows. *)
Theorem first_malformed_line {RT : Runtime} (fs : filesystem) (p : path)
  (good rest : list string) (bad : string) (recs : list record) :
  fs p = Some (TextFile (good ++ bad :: rest)) ->
  parse_lines good = Ok recs ->
  startswith_hash bad = false ->
  (all_space bad = true -> read_file_list fs p = Raise IndexError)
  /\ (forall tok, hd_error (split bad) = Some tok -> py_float tok = None ->
      read_file_list fs p = Raise ValueError).
Proof.
  intros Hfs Hgood Hc. unfold read_file_list, open_lines. rewrite Hfs. cbn [bind].
  rewrite parse_lines_app, Hgood. cbn [bind parse_lines]. rewrite Hc. split.
  - intros Hs. apply split_all_space in Hs. rewrite Hs. reflexivity.
  - intros tok Ht Hf. destruct (split bad) as [|t ts]; [discriminate|].
    injection Ht as ->. unfold list_get, float_of. cbn. rewrite Hf. reflexivity.
Qed.

Lemma first_malformed_line_witness :
  read_file_list (RT := Sample.runtime)
    (Sample.files [("rgb.txt", TextFile ["0.1 rgb/1.png"; ""; "0.2 rgb/2.png"])]) "rgb.txt"
  = Raise IndexError
  /\ read_file_list (RT := Sample.runtime)
       (Sample.files [("rgb.txt", TextFile ["0.1 rgb/1.png"; "timestamp filename"])]) "rgb.txt"
     = Raise ValueError
  /\ read_file_list (RT := Sample.runtime)
       (Sample.files [("rgb.txt",
                       TextFile ["0.1 rgb/1.png";
                                 (Sample.no_break_space ++ " " ++ Sample.next_line)%string])])
       "rgb.txt"
     = Raise IndexError.
Proof.
  split; [|split].
  - apply (proj1 (@first_malformed_line Sample.runtime _ "rgb.txt"
                    ["0.1 rgb/1.png"] ["0.2 rgb/2.png"] ""
                    (match parse_lines (RT := Sample.runtime) ["0.1 rgb/1.png"] with
                     | Ok l => l | Raise _ => [] end)
                    eq_refl eq_refl eq_refl)).
    reflexivity.
  - apply (proj2 (@first_malformed_line Sample.runtime _ "rgb.txt"
                    ["0.1 rgb/1.png"] [] "timestamp filename"
                    (match parse_lines (RT := Sample.runtime) ["0.1 rgb/1.png"] with
                     | Ok l => l | Raise _ => [] end)
                    eq_refl eq_refl eq_refl) "timestamp"); reflexivity.
  - apply (proj1 (@first_malformed_line Sample.runtime _ "rgb.txt"
                    ["0.1 rgb/1.png"] []
                    (Sample.no_break_space ++ " " ++ Sample.next_line)%string
                    (match parse_lines (RT := Sample.runtime) ["0.1 rgb/1.png"] with
                     | Ok l => l | Raise _ => [] end)
                    eq_refl eq_refl eq_refl)).
    reflexivity.
Defined.

End Reading.

(** ** The association loop *)

Module Associating.

Import Notions.

Lemma argmin_loop_lt (xs : list float) (mp : float) (min_ind i : nat) :
  (min_ind < i)%nat -> (argmin_loop mp min_ind i xs < i + length xs)%nat.
Proof.
  revert mp min_ind i. induction xs as [|x r IH]; intros mp min_ind i H; cbn.
  - lia.
  - destruct (negb (mp <=? x)%float).
    + destruct (is_nan x); [lia|].
      pose proof (IH x i (S i) (Nat.lt_succ_diag_r i)). lia.
    + pose proof (IH mp min_ind (S i) (Nat.lt_lt_succ_r _ _ H)). lia.
Qed.

Lemma np_argmin_in_range (xs : list float) :
  xs <> [] -> exists k, np_argmin xs = Ok k /\ (k < length xs)%nat.
Proof.
  destruct xs as [|x r]; [congruence|]. intros _. cbn.
  eexists. split; [reflexivity|].
  destruct (is_nan x); [lia|]. pose proof (argmin_loop_lt r x 0 1 Nat.lt_0_1). lia.
Qed.

Lemma np_argmin_ok (xs : list float) (k : nat) :
  np_argmin xs = Ok k -> (k < length xs)%nat.
Proof.
  intros H. destruct xs as [|x r]; [discriminate|].
  destruct (np_argmin_in_range (x :: r)) as (k' & Hk & Hlt); [discriminate|].
  rewrite H in Hk. injection Hk as <-. exact Hlt.
Qed.

(** The record that the argmin selects. *)
Lemma selected_record (recs : list record) (ts : float) :
  recs <> [] ->
  exists k r, np_argmin (abs_diffs (map fst recs) ts) = Ok k /\ nth_error recs k = Some r.
Proof.
  intros H.
  destruct (np_argmin_in_range (abs_diffs (map fst recs) ts)) as (k & Hk & Hlt).
  - destruct recs; [congruence|discriminate].
  - unfold abs_diffs in Hlt. rewrite !length_map in Hlt.
    destruct (nth_error recs k) as [r|] eqn:E.
    + exists k, r. split; assumption.
    + apply nth_error_None in E. unfold record in *. lia.
Qed.

Lemma selected_record_inv (recs : list record) (ts : float) (k : nat) :
  np_argmin (abs_diffs (map fst recs) ts) = Ok k ->
  exists r, nth_error recs k = Some r.
Proof.
  intros H. apply np_argmin_ok in H. unfold abs_diffs in H. rewrite !length_map in H.
  destruct (nth_error recs k) as [r|] eqn:E; [eauto|].
  apply nth_error_None in E. unfold record in *. lia.
Qed.

(** The loop body, once the argmin of the depth list is known. *)
Lemma associate_one_depth (depth_list pose_list : list record) (ts : float)
  (data : list string) (kd : nat) (d : record) :
  np_argmin (abs_diffs (map fst depth_list) ts) = Ok kd ->
  nth_error depth_list kd = Some d ->
  TUMReader.associate_one depth_list pose_list ts data
  = if gtb (Spec.dist ts d) threshold then Ok None
    else
      p_idx <- np_argmin (abs_diffs (map fst pose_list) ts) ;;
      p_rec <- list_get pose_list p_idx ;;
      if gtb (Spec.dist ts p_rec) threshold then Ok None
      else
        rgb <- list_get data 0 ;;
        depth <- list_get (snd d) 0 ;;
        Ok (Some (mkMatch rgb depth (snd p_rec))).
Proof.
  intros Hkd Hd. unfold TUMReader.associate_one, TUMReader.depth_timestamps,
    TUMReader.pose_timestamps, Spec.dist.
  rewrite Hkd. cbn [bind]. rewrite (Association.list_get_map fst _ _ _ Hd). cbn [bind].
  destruct (gtb (abs (fst d - ts)%float) threshold); [reflexivity|].
  destruct (np_argmin (abs_diffs (map fst pose_list) ts)) as [kp|e] eqn:Hkp;
    cbn [bind]; [|reflexivity].
  destruct (selected_record_inv _ _ _ Hkp) as [p Hp].
  rewrite (Association.list_get_map fst _ _ _ Hp), (Association.list_get_nth _ _ _ Hp).
  cbn [bind]. destruct (gtb (abs (fst p - ts)%float) threshold); [reflexivity|].
  destruct (list_get data 0); cbn [bind]; [|reflexivity].
  rewrite (Association.list_get_nth _ _ _ Hd). reflexivity.
Qed.

Lemma first_token (toks : list string) (tok : string) :
  list_get toks 0 = Ok tok -> hd "" toks = tok /\ toks <> [].
Proof.
  destruct toks as [|t ts]; cbn; [discriminate|].
  intros H. injection H as <-. split; [reflexivity|discriminate].
Qed.

Lemma associate_one_some (depth_list pose_list : list record) (ts : float)
  (data : list string) (m : Match) :
  TUMReader.associate_one depth_list pose_list ts data = Ok (Some m) ->
  exists d p, In d depth_list /\ In p pose_list /\ pairs (ts, data) d p m.
Proof.
  intros H.
  destruct (np_argmin (abs_diffs (map fst depth_list) ts)) as [kd|e] eqn:Hkd.
  2:{ unfold TUMReader.associate_one, TUMReader.depth_timestamps in H.
      rewrite Hkd in H. discriminate. }
  destruct (selected_record_inv _ _ _ Hkd) as [d Hd].
  rewrite (associate_one_depth _ _ _ _ _ _ Hkd Hd) in H.
  destruct (gtb (Spec.dist ts d) threshold) eqn:Gd; [discriminate|].
  destruct (np_argmin (abs_diffs (map fst pose_list) ts)) as [kp|e] eqn:Hkp;
    cbn [bind] in H; [|discriminate].
  destruct (selected_record_inv _ _ _ Hkp) as [p Hp].
  rewrite (Association.list_get_nth _ _ _ Hp) in H. cbn [bind] in H.
  destruct (gtb (Spec.dist ts p) threshold) eqn:Gp; [discriminate|].
  destruct (list_get data 0) as [rgb|] eqn:Hrgb; cbn [bind] in H; [|discriminate].
  destruct (list_get (snd d) 0) as [depth|] eqn:Hdepth; cbn [bind] in H; [|discriminate].
  injection H as <-.
  apply first_token in Hrgb, Hdepth. destruct Hrgb as [Hrgb _], Hdepth as [Hdepth _].
  exists d, p. split; [eapply nth_error_In; eassumption|].
  split; [eapply nth_error_In; eassumption|].
  unfold pairs, Spec.file_path_token. cbn [fst snd]. rewrite Hrgb, Hdepth. auto.
Qed.

Lemma subsequence_length {A : Type} (l1 l2 : list A) :
  subsequence l1 l2 -> (length l1 <= length l2)%nat.
Proof. induction 1; cbn; lia. Qed.

Lemma associate_one_total (depth_list pose_list : list record) (ts : float)
  (data : list string) :
  depth_list <> [] -> pose_list <> [] ->
  Spec.has_token (ts, data) = true ->
  forallb Spec.has_token depth_list = true ->
  exists om, TUMReader.associate_one depth_list pose_list ts data = Ok om.
Proof.
  intros Hd Hp Hc Hdt.
  destruct (selected_record depth_list ts Hd) as (kd & d & Hkd & Hdn).
  destruct (selected_record pose_list ts Hp) as (kp & p & Hkp & Hpn).
  rewrite (associate_one_depth _ _ _ _ _ _ Hkd Hdn).
  destruct (gtb (Spec.dist ts d) threshold); [eauto|].
  rewrite Hkp. cbn [bind]. rewrite (Association.list_get_nth _ _ _ Hpn). cbn [bind].
  destruct (gtb (Spec.dist ts p) threshold); [eauto|].
  rewrite forallb_forall in Hdt. pose proof (Hdt d (nth_error_In _ _ Hdn)) as Hdtok.
  unfold Spec.has_token in Hc, Hdtok. cbn [snd] in Hc.
  destruct data as [|tc ?]; [discriminate|].
  destruct (snd d) as [|td ?]; [discriminate|]. cbn. eauto.
Qed.

(** X4. The association does not fail on lists that are not empty and
    whose color and depth records have their file name, whatever the
    timestamps are (NaN and infinities included); it yields at most one
    match for a color record. *)
Theorem association_succeeds (depth_list pose_list rgb_list : list record) :
  depth_list <> [] -> pose_list <> [] ->
  forallb Spec.has_token rgb_list = true ->
  forallb Spec.has_token depth_list = true ->
  exists ms,
    TUMReader.associate depth_list pose_list rgb_list = Ok ms
    /\ (length ms <= length rgb_list)%nat.
Proof.
  intros Hd Hp Hrt Hdt. induction rgb_list as [|[ts data] rest IH].
  - exists []. split; [reflexivity|cbn; lia].
  - cbn [forallb] in Hrt. apply andb_true_iff in Hrt. destruct Hrt as [Hc Hrest].
    destruct (IH Hrest) as (ms & Hms & Hlen).
    destruct (associate_one_total depth_list pose_list ts data Hd Hp Hc Hdt) as [om Hom].
    cbn [TUMReader.associate]. rewrite Hom, Hms. cbn [bind].
    destruct om; eexists; (split; [reflexivity|cbn; lia]).
Qed.

Lemma association_succeeds_witness :
  exists ms,
    TUMReader.associate
      [(nan, ["depth/1.png"]); (infinity, ["depth/2.png"])]
      [(0.5%float, [])]
      [(0.5%float, ["rgb/1.png"]); (neg_infinity, ["rgb/2.png"])]
    = Ok ms
    /\ (length ms <= 2)%nat.
Proof.
  apply (association_succeeds
           [(nan, ["depth/1.png"]); (infinity, ["depth/2.png"])]
           [(0.5%float, [])]
           [(0.5%float, ["rgb/1.png"]); (neg_infinity, ["rgb/2.png"])]);
    try reflexivity; discriminate.
Defined.

(** X5. Whenever the association returns, its matches are drawn from the
    three lists: they pair, in the order of the color list, some of the
    color records each with a depth record and a pose record of the lists,
    and for none of them the computed difference to the color timestamp
    exceeds 0.02. *)
Theorem matches_pair_records (depth_list pose_list rgb_list : list record)
  (ms : list Match) :
  TUMReader.associate depth_list pose_list rgb_list = Ok ms ->
  exists kept,
    subsequence kept rgb_list
    /\ Forall2 (fun c m => exists d p, In d depth_list /\ In p pose_list /\ pairs c d p m)
               kept ms
    /\ (length ms <= length rgb_list)%nat.
Proof.
  revert ms. induction rgb_list as [|[ts data] rest IH]; intros ms H.
  - cbn in H. injection H as <-. exists []. repeat constructor.
  - cbn [TUMReader.associate] in H.
    destruct (TUMReader.associate_one depth_list pose_list ts data) as [om|e] eqn:Hom;
      cbn [bind] in H; [|discriminate].
    destruct (TUMReader.associate depth_list pose_list rest) as [ms'|e] eqn:Hms;
      cbn [bind] in H; [|discriminate].
    injection H as <-. destruct (IH ms' eq_refl) as (kept & Hsub & Hall & Hlen).
    destruct om as [m|].
    + exists ((ts, data) :: kept). split; [constructor; exact Hsub|].
      split; [|cbn; lia]. constructor; [|exact Hall].
      apply associate_one_some. exact Hom.
    + exists kept. split; [constructor; exact Hsub|]. split; [exact Hall|cbn; lia].
Qed.

Lemma matches_pair_records_witness :
  exists kept,
    subsequence kept Sample.rgb_list
    /\ Forall2 (fun c m => exists d p, In d Sample.depth_list /\ In p Sample.pose_list
                                       /\ pairs c d p m)
               kept (Spec.matches Sample.depth_list Sample.pose_list Sample.rgb_list)
    /\ (length (Spec.matches Sample.depth_list Sample.pose_list Sample.rgb_list)
        <= length Sample.rgb_list)%nat.
Proof.
  apply (matches_pair_records Sample.depth_list Sample.pose_list Sample.rgb_list).
  vm_compute. reflexivity.
Defined.

Lemma associate_no_partner (depth_list : list record) (ts : float) (data : list string) :
  depth_list <> [] ->
  TUMReader.associate_one depth_list [] ts data
  = if has_partner depth_list ts then Raise ValueError else Ok None.
Proof.
  intros Hd. destruct (selected_record depth_list ts Hd) as (kd & d & Hkd & Hdn).
  rewrite (associate_one_depth _ _ _ _ _ _ Hkd Hdn). unfold has_partner.
  rewrite Hkd, Hdn. destruct (gtb (Spec.dist ts d) threshold); reflexivity.
Qed.

(** X6. Empty lists.  With a color record and no depth record the
    association raises [ValueError] (the argmin of an empty array).  With
    depth records and no pose record it raises [ValueError] as soon as a
    color record has a depth partner, and yields no match when none has. *)
Theorem association_with_empty_list (depth_list pose_list rgb_list : list record) :
  rgb_list <> [] ->
  TUMReader.associate [] pose_list rgb_list = Raise ValueError
  /\ (depth_list <> [] ->
      TUMReader.associate depth_list [] rgb_list
      = if existsb (fun c => has_partner depth_list (fst c)) rgb_list
        then Raise ValueError else Ok []).
Proof.
  intros Hr. split.
  - destruct rgb_list as [|[ts data] rest]; [congruence|]. reflexivity.
  - intros Hd. clear Hr. induction rgb_list as [|[ts data] rest IH]; [reflexivity|].
    cbn [TUMReader.associate existsb fst].
    rewrite (associate_no_partner depth_list ts data Hd).
    destruct (has_partner depth_list ts); cbn [bind orb]; [reflexivity|].
    rewrite IH.
    match goal with
    | |- context [existsb ?f rest] => destruct (existsb f rest)
    end; reflexivity.
Qed.

Lemma association_with_empty_list_witness :
  TUMReader.associate [] Sample.pose_list Sample.rgb_list = Raise ValueError
  /\ TUMReader.associate Sample.depth_list [] Sample.rgb_list = Raise ValueError.
Proof.
  destruct (association_with_empty_list Sample.depth_list Sample.pose_list Sample.rgb_list)
    as [H1 H2]; [discriminate|].
  split; [exact H1|]. rewrite H2 by discriminate. reflexivity.
Defined.

End Associating.

(** ** Timestamps that are not numbers *)

Module NotANumber.

Import Notions FloatOrder.

Lemma is_nan_true_Prim2SF (x : float) : is_nan x = true -> Prim2SF x = S754_nan.
Proof.
  unfold is_nan. rewrite eqb_spec. unfold SFeqb. intros H.
  destruct (Prim2SF x) as [s|s| |s m e] eqn:E; [| |reflexivity|];
    rewrite SFcompare_refl in H by discriminate; discriminate.
Qed.

Lemma Prim2SF_nan_is_nan (x : float) : Prim2SF x = S754_nan -> is_nan x = true.
Proof.
  intros H. unfold is_nan. rewrite eqb_spec, H. reflexivity.
Qed.

Lemma nan_difference (t ts : float) :
  is_nan t = true \/ is_nan ts = true -> is_nan (abs (t - ts)%float) = true.
Proof.
  intros H. apply Prim2SF_nan_is_nan. rewrite abs_spec, sub_spec. unfold SF64sub.
  destruct H as [H|H]; apply is_nan_true_Prim2SF in H; rewrite H.
  - reflexivity.
  - destruct (Prim2SF t); reflexivity.
Qed.

Lemma leb_nan (mp x : float) : is_nan x = true -> (mp <=? x)%float = false.
Proof.
  intros H. rewrite leb_spec, (is_nan_true_Prim2SF x H). unfold SFleb.
  destruct (Prim2SF mp); reflexivity.
Qed.

Lemma gtb_nan (x y : float) : is_nan x = true -> gtb x y = false.
Proof.
  intros H. unfold gtb. rewrite ltb_spec, (is_nan_true_Prim2SF x H). unfold SFltb.
  destruct (Prim2SF y); reflexivity.
Qed.

Lemma argmin_loop_first_nan (pre rest : list float) (x mp : float) (min_ind i : nat) :
  forallb (fun d => negb (is_nan d)) pre = true -> is_nan x = true ->
  argmin_loop mp min_ind i (pre ++ x :: rest) = (i + length pre)%nat.
Proof.
  intros Hpre Hx. revert mp min_ind i.
  induction pre as [|a pre IH]; intros mp min_ind i; cbn [app argmin_loop length].
  - rewrite (leb_nan mp x Hx), Hx. cbn. lia.
  - cbn [forallb] in Hpre. apply andb_true_iff in Hpre. destruct Hpre as [Ha Hpre].
    apply negb_true_iff in Ha. rewrite Ha.
    destruct (negb (mp <=? a)%float); rewrite (IH Hpre); lia.
Qed.

Lemma np_argmin_first_nan (pre rest : list float) (x : float) :
  forallb (fun d => negb (is_nan d)) pre = true -> is_nan x = true ->
  np_argmin (pre ++ x :: rest) = Ok (length pre).
Proof.
  intros Hpre Hx. destruct pre as [|a pre]; cbn [app np_argmin length].
  - rewrite Hx. reflexivity.
  - cbn [forallb] in Hpre. apply andb_true_iff in Hpre. destruct Hpre as [Ha Hpre].
    apply negb_true_iff in Ha. rewrite Ha.
    rewrite (argmin_loop_first_nan pre rest x a 0 1 Hpre Hx). reflexivity.
Qed.

(** X7. A depth record whose timestamp is NaN, no difference to a record
    before it being NaN, is the one that the argmin selects for every color
    record, and it passes the test of the threshold: the match of a color
    record that has a pose partner is made with it, however near another
    depth record is. *)
Theorem nan_depth_record_is_matched
  (pre rest pose_list : list record) (d p : record) (ts : float) (data : list string)
  (kp : nat) :
  forallb (fun r => negb (is_nan (Spec.dist ts r))) pre = true ->
  is_nan (fst d) = true ->
  np_argmin (abs_diffs (map fst pose_list) ts) = Ok kp ->
  nth_error pose_list kp = Some p ->
  gtb (Spec.dist ts p) threshold = false ->
  Spec.has_token (ts, data) = true ->
  Spec.has_token d = true ->
  TUMReader.associate_one (pre ++ d :: rest) pose_list ts data
  = Ok (Some (mkMatch (Spec.file_path_token (ts, data)) (Spec.file_path_token d) (snd p))).
Proof.
  intros Hpre Hd Hkp Hp Gp Hc Hdt.
  assert (Hnan : is_nan (Spec.dist ts d) = true)
    by (apply nan_difference; left; exact Hd).
  assert (Hkd : np_argmin (abs_diffs (map fst (pre ++ d :: rest)) ts) = Ok (length pre)).
  { rewrite Association.abs_diffs_dist, map_app. cbn [map].
    rewrite <- (length_map (Spec.dist ts) pre).
    apply np_argmin_first_nan; [|exact Hnan].
    rewrite forallb_forall in *. intros x Hx. apply in_map_iff in Hx.
    destruct Hx as (r & <- & Hr). apply Hpre. exact Hr. }
  assert (Hdn : nth_error (pre ++ d :: rest) (length pre) = Some d).
  { rewrite nth_error_app2 by lia. rewrite Nat.sub_diag. reflexivity. }
  rewrite (Associating.associate_one_depth _ _ _ _ _ _ Hkd Hdn).
  rewrite (gtb_nan _ _ Hnan), Hkp. cbn [bind].
  rewrite (Association.list_get_nth _ _ _ Hp). cbn [bind]. rewrite Gp.
  unfold Spec.has_token in Hc, Hdt. unfold Spec.file_path_token. cbn [snd] in *.
  destruct data as [|tc ?]; [discriminate|].
  destruct (snd d) as [|td ?]; [discriminate|]. reflexivity.
Qed.

Lemma nan_depth_record_is_matched_witness :
  TUMReader.associate_one
    ([(0.5%float, ["depth/1.png"])] ++ (nan, ["depth/2.png"]) :: [(0.5%float, ["depth/3.png"])])
    [(0.5%float, ["1"; "2"; "3"; "0"; "0"; "0"; "1"])]
    0.5%float ["rgb/1.png"]
  = Ok (Some (mkMatch "rgb/1.png" "depth/2.png" ["1"; "2"; "3"; "0"; "0"; "0"; "1"])).
Proof.
  apply (nan_depth_record_is_matched
           [(0.5%float, ["depth/1.png"])] [(0.5%float, ["depth/3.png"])]
           [(0.5%float, ["1"; "2"; "3"; "0"; "0"; "0"; "1"])]
           (nan, ["depth/2.png"]) (0.5%float, ["1"; "2"; "3"; "0"; "0"; "0"; "1"])
           0.5%float ["rgb/1.png"] 0); reflexivity.
Defined.

End NotANumber.

(** ** The reader and its methods *)

Module Reader.

Import Notions TUMReader.

Section WithRuntime.

Context {RT : Runtime}.

Lemma parse_pose_lengths (p : list string) (tr q : list float32) :
  parse_pose p = Ok (tr, q) -> length tr = 3%nat /\ length q = 4%nat.
Proof.
  unfold parse_pose.
  repeat match goal with
         | |- context [float_at p ?i] => destruct (float_at p i); cbn [bind]
         end; try discriminate.
  intros H. injection H as <- <-. split; reflexivity.
Qed.

Lemma parse_poses_lengths (ms : list Match) (ps qs : list (list float32)) :
  parse_poses ms = Ok (ps, qs) ->
  Forall (fun tr => length tr = 3%nat) ps /\ Forall (fun q => length q = 4%nat) qs.
Proof.
  revert ps qs. induction ms as [|m rest IH]; intros ps qs; cbn [parse_poses].
  - intros H. injection H as <- <-. split; constructor.
  - destruct (parse_pose (m_pose m)) as [[tr q]|e] eqn:Hp; cbn [bind]; [|discriminate].
    destruct (parse_poses rest) as [[ps' qs']|e]; cbn [bind]; [|discriminate].
    intros H. injection H as <- <-. destruct (IH ps' qs' eq_refl) as [Hps Hqs].
    destruct (parse_pose_lengths _ _ _ Hp) as [Ht Hq].
    split; constructor; assumption.
Qed.

Lemma frame_at_shift (fs : filesystem) (r : t) (k : nat) (idx n : Z) :
  shift_index n (Spec.frame_at fs r k idx) = Spec.frame_at fs r k (idx - n).
Proof.
  unfold Spec.frame_at.
  destruct (list_get (poses r) k); [|reflexivity].
  destruct (list_get (quats r) k); [|reflexivity].
  destruct (list_get (depth_images r) k) as [dp|]; [|reflexivity]. cbn [bind].
  destruct (Image_open fs dp); [|reflexivity]. cbn [bind].
  destruct (list_get (rgb_images r) k) as [rp|]; [|reflexivity]. cbn [bind].
  destruct (Image_open fs rp); reflexivity.
Qed.

Lemma getitem_errors (fs : filesystem) (i : Z) (r : t) (e : exn) :
  fst (getitem fs i r) = Raise e -> e <> StopIteration.
Proof.
  unfold getitem, mbind, attr, lift, raise, ret, py_getitem, list_get, Image_open.
  repeat match goal with
         | |- context [if ?b then _ else _] => destruct b
         | |- context [match nth_error ?l ?k with _ => _ end] => destruct (nth_error l k)
         | |- context [match fs ?p with _ => _ end] => destruct (fs p) as [[|]|]
         end; cbn; intros H; try discriminate; injection H as <-; discriminate.
Qed.

(** What a call of [__next__] does, in its three cases. *)
Lemma next_cases (fs : filesystem) (r : t) :
  match next fs r with
  | (Ok fr, r') =>
      (file_index r < len r)%Z
      /\ fst (getitem fs (file_index r) r) = Ok fr
      /\ r' = Spec.with_cursor r (file_index r + 1)
  | (Raise e, r') =>
      r' = r
      /\ (if (len r <=? file_index r)%Z then e = StopIteration
          else fst (getitem fs (file_index r) r) = Raise e)
  end.
Proof.
  unfold next, mbind, attr, raise, ret.
  destruct (len r <=? file_index r)%Z eqn:Hc; [split; reflexivity|].
  pose proof (Subscript.getitem_reader fs (file_index r) r) as Hs.
  destruct (getitem fs (file_index r) r) as [[fr|e] r']; cbn [fst snd] in *; subst r'.
  - split; [apply Z.leb_gt; exact Hc|]. split; reflexivity.
  - split; reflexivity.
Qed.

(** The cursor after any calls: within the bounds, nothing else changed. *)
Lemma after_call_cursor (fs : filesystem) (r s : t) (c : call) :
  (s = Spec.with_cursor r (file_index s) /\ (0 <= file_index s <= len r)%Z) ->
  (after_call fs s c = Spec.with_cursor r (file_index (after_call fs s c))
   /\ (0 <= file_index (after_call fs s c) <= len r)%Z).
Proof.
  intros [Hs Hb].
  assert (Hlen : len s = len r) by (rewrite Hs; reflexivity).
  destruct c as [| |item]; cbn [after_call].
  - unfold iter. change (snd (set_file_index 0 s)) with (Spec.with_cursor s 0).
    rewrite Hs, Iteration.with_cursor_twice, Iteration.file_index_with_cursor.
    split; [reflexivity|]. unfold len. lia.
  - pose proof (next_cases fs s) as H.
    destruct (next fs s) as [[fr|e] s']; cbn [snd].
    + destruct H as (Hlt & _ & ->).
      rewrite Iteration.file_index_with_cursor. rewrite Hs at 1.
      rewrite Iteration.with_cursor_twice. split; [reflexivity|lia].
    + destruct H as [-> _]. split; assumption.
  - rewrite Subscript.getitem_reader. split; assumption.
Qed.

Lemma after_calls_from (fs : filesystem) (r : t) (cs : list call) (s : t) :
  (s = Spec.with_cursor r (file_index s) /\ (0 <= file_index s <= len r)%Z) ->
  after_calls fs s cs = Spec.with_cursor r (file_index (after_calls fs s cs))
  /\ (0 <= file_index (after_calls fs s cs) <= len r)%Z.
Proof.
  unfold after_calls. revert s.
  induction cs as [|c cs IH]; intros s Hs; cbn [fold_left]; [exact Hs|].
  apply IH. apply after_call_cursor. exact Hs.
Qed.

Lemma after_calls_cursor (fs : filesystem) (r : t) (cs : list call) :
  (0 <= file_index r <= len r)%Z ->
  after_calls fs r cs = Spec.with_cursor r (file_index (after_calls fs r cs))
  /\ (0 <= file_index (after_calls fs r cs) <= len r)%Z.
Proof.
  intros Hb. apply after_calls_from.
  split; [symmetry; apply Iteration.with_cursor_same|exact Hb].
Qed.

Lemma next_raises (fs : filesystem) (r : t) (e : exn) :
  (file_index r < len r)%Z ->
  fst (getitem fs (file_index r) r) = Raise e ->
  next fs r = (Raise e, r).
Proof.
  intros Hlt Hg. pose proof (next_cases fs r) as H.
  apply Z.leb_gt in Hlt. rewrite Hlt in H.
  destruct (next fs r) as [[fr|e'] r'].
  - destruct H as (_ & H & _). rewrite Hg in H. discriminate.
  - destruct H as [-> H]. rewrite Hg in H. injection H as <-. reflexivity.
Qed.

Lemma getitem_unloadable (fs : filesystem) (r : t) (k : nat) :
  Spec.consistent r -> (k < length (rgb_images r))%nat ->
  Spec.loadable fs r k = false ->
  exists e, getitem fs (Z.of_nat k) r = (Raise e, r) /\ is_image_error e = true.
Proof.
  intros Hc Hk Hl. pose proof Hc as (Hd & Hp & Hq).
  rewrite (Subscript.getitem_frame_at fs (Z.of_nat k) r Hc) by (unfold len; lia).
  unfold Spec.position.
  replace (0 <=? Z.of_nat k)%Z with true by (symmetry; apply Z.leb_le; lia).
  rewrite Nat2Z.id. unfold Spec.frame_at.
  destruct (Subscript.list_get_lt (poses r) k) as (tr & _ & ->); [lia|].
  destruct (Subscript.list_get_lt (quats r) k) as (q & _ & ->); [lia|].
  destruct (Subscript.list_get_lt (depth_images r) k) as (dp & Hdp & ->); [lia|].
  destruct (Subscript.list_get_lt (rgb_images r) k) as (rp & Hrp & ->); [lia|].
  cbn [bind]. unfold Spec.loadable, Spec.image_present in Hl. rewrite Hdp, Hrp in Hl.
  unfold Image_open in *.
  destruct (fs dp) as [[|dimg]|]; cbn [bind]; try (eexists; split; reflexivity).
  destruct (fs rp) as [[|cimg]|]; cbn [bind]; try (eexists; split; reflexivity).
  discriminate.
Qed.

Lemma drain_until_unloadable (fs : filesystem) (r : t) (k : nat) (e : exn) :
  Spec.consistent r -> (k < length (rgb_images r))%nat ->
  (forall j, (j < k)%nat -> Spec.loadable fs r j = true) ->
  getitem fs (Z.of_nat k) r = (Raise e, r) ->
  forall (n c fuel : nat),
    (c + n = k)%nat -> (n < fuel)%nat ->
    drain fs fuel (Spec.with_cursor r (Z.of_nat c))
    = Some (Raise e, Spec.with_cursor r (Z.of_nat k)).
Proof.
  intros Hc Hk Hbefore He. induction n as [|n IH]; intros c fuel Hn Hfuel.
  - destruct fuel as [|fuel]; [lia|]. cbn [drain].
    replace c with k by lia.
    rewrite (next_raises fs (Spec.with_cursor r (Z.of_nat k)) e).
    + pose proof (getitem_errors fs (Z.of_nat k) r e) as Hne. rewrite He in Hne.
      destruct e; try reflexivity. destruct (Hne eq_refl eq_refl).
    + rewrite Iteration.len_with_cursor, Iteration.file_index_with_cursor.
      unfold len. lia.
    + rewrite Iteration.file_index_with_cursor, Iteration.getitem_with_cursor, He.
      reflexivity.
  - destruct fuel as [|fuel]; [lia|]. cbn [drain].
    assert (Hl : Spec.loadable fs r c = true) by (apply Hbefore; lia).
    assert (Hfr : exists fr, getitem fs (Z.of_nat c) r = (Ok fr, r)).
    { destruct (Subscript.frame_at_loadable fs r c (Z.of_nat c + 1) Hc) as
        (tr & q & dp & dimg & rp & cimg & _ & _ & _ & _ & _ & _ & Hf); [lia|exact Hl|].
      rewrite (Subscript.getitem_frame_at fs (Z.of_nat c) r Hc) by (unfold len; lia).
      unfold Spec.position.
      replace (0 <=? Z.of_nat c)%Z with true by (symmetry; apply Z.leb_le; lia).
      rewrite Nat2Z.id, Hf. eauto. }
    destruct Hfr as [fr Hfr].
    rewrite (Iteration.next_frame fs (Spec.with_cursor r (Z.of_nat c)) fr).
    + rewrite Iteration.file_index_with_cursor, Iteration.with_cursor_twice.
      replace (Z.of_nat c + 1)%Z with (Z.of_nat (S c)) by lia.
      rewrite (IH (S c) fuel) by lia. reflexivity.
    + rewrite Iteration.len_with_cursor, Iteration.file_index_with_cursor.
      unfold len. lia.
    + rewrite Iteration.file_index_with_cursor, Iteration.getitem_with_cursor, Hfr.
      reflexivity.
Qed.

End WithRuntime.

(** X8. A constructed reader has as many depth paths, translations and
    orientations as color paths, every translation has three components and
    every orientation four, the cursor is at 0 and the parameters are the
    ones given. *)
Theorem constructed_reader {RT : Runtime}
  (fs : filesystem) (dir : path) (mn mx : number) (sc : float) (r : t) :
  init fs dir mn mx sc = Ok r ->
  length (depth_images r) = length (rgb_images r)
  /\ length (poses r) = length (rgb_images r)
  /\ length (quats r) = length (rgb_images r)
  /\ Forall (fun tr => length tr = 3%nat) (poses r)
  /\ Forall (fun q => length q = 4%nat) (quats r)
  /\ file_index r = 0%Z
  /\ data_dir r = dir /\ min_range r = mn /\ max_range r = mx /\ depth_scaling r = sc.
Proof.
  intros H. destruct (Construction.init_consistent _ _ _ _ _ _ H) as (Hd & Hp & Hq).
  destruct (Construction.init_inv _ _ _ _ _ _ H)
    as (ms & _ & Hpp & _ & _ & Hsc & Hmn & Hmx & Hdir & Hfi).
  destruct (parse_poses_lengths _ _ _ Hpp) as [H3 H4].
  repeat (split; [assumption|]). assumption.
Qed.

Lemma constructed_reader_witness :
  length (depth_images Sample.reader) = length (rgb_images Sample.reader)
  /\ length (poses Sample.reader) = length (rgb_images Sample.reader)
  /\ length (quats Sample.reader) = length (rgb_images Sample.reader)
  /\ Forall (fun tr => length tr = 3%nat) (poses Sample.reader)
  /\ Forall (fun q => length q = 4%nat) (quats Sample.reader)
  /\ file_index Sample.reader = 0%Z
  /\ data_dir Sample.reader = "data"
  /\ min_range Sample.reader = default_min_range
  /\ max_range Sample.reader = default_max_range
  /\ depth_scaling Sample.reader = default_depth_scaling.
Proof.
  apply (@constructed_reader Sample.runtime Sample.dataset "data"
           default_min_range default_max_range default_depth_scaling
           Sample.reader sample_reader_init).
Defined.

(** X9. The subscript leaves the reader as it was, whatever the index and
    the outcome, and what it returns does not depend on the cursor of the
    iteration. *)
Theorem subscript_is_independent_of_iteration {RT : Runtime}
  (fs : filesystem) (i v : Z) (r : t) :
  snd (getitem fs i r) = r
  /\ fst (getitem fs i (Spec.with_cursor r v)) = fst (getitem fs i r).
Proof.
  split; [apply Subscript.getitem_reader|].
  rewrite Iteration.getitem_with_cursor. reflexivity.
Qed.

(** X10. For a negative index [i] not below [-length()], the subscript
    gives what it gives for [i + length()], error or frame, the first
    element of the frame being lower by [length()]. *)
Theorem negative_index_is_shifted {RT : Runtime}
  (fs : filesystem) (dir : path) (mn mx : number) (sc : float) (r : t) (i : Z) :
  init fs dir mn mx sc = Ok r ->
  (- len r <= i < 0)%Z ->
  fst (getitem fs i r) = shift_index (len r) (fst (getitem fs (i + len r) r)).
Proof.
  intros H Hi. pose proof (Construction.init_consistent _ _ _ _ _ _ H) as Hc.
  rewrite (Subscript.getitem_frame_at fs i r Hc) by lia.
  rewrite (Subscript.getitem_frame_at fs (i + len r) r Hc) by lia.
  cbn [fst]. rewrite frame_at_shift. unfold Spec.position.
  replace (0 <=? i)%Z with false by (symmetry; apply Z.leb_gt; lia).
  replace (0 <=? i + len r)%Z with true by (symmetry; apply Z.leb_le; lia).
  f_equal. lia.
Qed.

Lemma negative_index_is_shifted_witness :
  fst (getitem (RT := Sample.runtime) Sample.dataset (-2) Sample.reader)
  = shift_index (len Sample.reader)
      (fst (getitem (RT := Sample.runtime) Sample.dataset (-2 + len Sample.reader)
              Sample.reader)).
Proof.
  apply (@negative_index_is_shifted Sample.runtime Sample.dataset "data"
           default_min_range default_max_range default_depth_scaling
           Sample.reader (-2) sample_reader_init).
  vm_compute. split; [discriminate|reflexivity].
Defined.

(** X11. Construction does not open the images: for a valid index whose
    depth image is not there the subscript raises [FileNotFoundError], and
    so it does when the depth image is there and the color image is not;
    the reader is left as it was. *)
Theorem missing_image {RT : Runtime}
  (fs : filesystem) (dir : path) (mn mx : number) (sc : float) (r : t) (i : Z)
  (dp rp : path) :
  init fs dir mn mx sc = Ok r ->
  (0 <= i < len r)%Z ->
  nth_error (depth_images r) (Z.to_nat i) = Some dp ->
  nth_error (rgb_images r) (Z.to_nat i) = Some rp ->
  (fs dp = None -> getitem fs i r = (Raise FileNotFoundError, r))
  /\ (forall dimg, fs dp = Some (ImageFile dimg) -> fs rp = None ->
      getitem fs i r = (Raise FileNotFoundError, r)).
Proof.
  intros H Hi Hdp Hrp. pose proof (Construction.init_consistent _ _ _ _ _ _ H) as Hc.
  pose proof Hc as (Hd & Hp & Hq).
  rewrite (Subscript.getitem_frame_at fs i r Hc) by lia.
  unfold Spec.position.
  replace (0 <=? i)%Z with true by (symmetry; apply Z.leb_le; lia).
  unfold Spec.frame_at.
  destruct (Subscript.list_get_lt (poses r) (Z.to_nat i)) as (tr & _ & ->);
    [unfold len in Hi; lia|].
  destruct (Subscript.list_get_lt (quats r) (Z.to_nat i)) as (q & _ & ->);
    [unfold len in Hi; lia|].
  rewrite (Association.list_get_nth _ _ _ Hdp), (Association.list_get_nth _ _ _ Hrp).
  cbn [bind]. unfold Image_open. split.
  - intros ->. reflexivity.
  - intros dimg -> ->. reflexivity.
Qed.

Lemma reader_no_image_init :
  init (RT := Sample.runtime) Sample.dataset_no_image "data"
       default_min_range default_max_range default_depth_scaling
  = Ok Sample.reader_no_image.
Proof. vm_compute. reflexivity. Defined.

Lemma missing_image_witness :
  getitem (RT := Sample.runtime) Sample.dataset_no_image 0 Sample.reader_no_image
  = (Raise FileNotFoundError, Sample.reader_no_image).
Proof.
  apply (proj1 (@missing_image Sample.runtime Sample.dataset_no_image "data"
                  default_min_range default_max_range default_depth_scaling
                  Sample.reader_no_image 0 "data/depth/1.png" "data/rgb/1.png"
                  reader_no_image_init (conj (Z.le_refl 0) eq_refl) eq_refl eq_refl)).
  reflexivity.
Defined.

End Reader.

(** ** Sequences of calls *)

Module Stepping.

Import Notions TUMReader.

(** X12. A call of [__next__] that returns a frame has found the cursor
    below the length, returns the frame of the subscript at the cursor,
    whose first element is the cursor plus one, and moves the cursor by one,
    changing nothing else.  A call that raises leaves the reader as it was,
    cursor included, and the exception is [StopIteration] exactly when the
    cursor has reached the length. *)
Theorem next_step {RT : Runtime} (fs : filesystem) (r : t) :
  match next fs r with
  | (Ok fr, r') =>
      (file_index r < len r)%Z
      /\ fst (getitem fs (file_index r) r) = Ok fr
      /\ frame_index fr = (file_index r + 1)%Z
      /\ r' = Spec.with_cursor r (file_index r + 1)
  | (Raise e, r') =>
      r' = r /\ (e = StopIteration <-> (len r <= file_index r)%Z)
  end.
Proof.
  pose proof (Reader.next_cases fs r) as H.
  destruct (next fs r) as [[fr|e] r'].
  - destruct H as (Hlt & Hg & Hr). repeat (split; [assumption|]).
    split; [|exact Hr]. apply (getitem_index fs _ r fr Hg).
  - destruct H as [Hr H]. split; [exact Hr|].
    destruct (len r <=? file_index r)%Z eqn:Hc.
    + apply Z.leb_le in Hc. split; [intros _; exact Hc|intros _; exact H].
    + apply Z.leb_gt in Hc. split; [|lia].
      intros ->. destruct (Reader.getitem_errors fs _ r _ H eq_refl).
Qed.

(** X13. Whatever calls of [__iter__], [__next__] and the subscript are
    made on a constructed reader, in any order and whether they raise or
    not, the cursor stays between 0 and the length and no other attribute
    changes. *)
Theorem reader_invariant {RT : Runtime}
  (fs : filesystem) (dir : path) (mn mx : number) (sc : float) (r : t) (cs : list call) :
  init fs dir mn mx sc = Ok r ->
  let r' := after_calls fs r cs in
  (0 <= file_index r' <= len r')%Z
  /\ rgb_images r' = rgb_images r /\ depth_images r' = depth_images r
  /\ poses r' = poses r /\ quats r' = quats r
  /\ depth_scaling r' = depth_scaling r
  /\ min_range r' = min_range r /\ max_range r' = max_range r
  /\ data_dir r' = data_dir r.
Proof.
  intros H. cbv zeta.
  destruct (Construction.init_inv _ _ _ _ _ _ H) as (ms & _ & _ & _ & _ & _ & _ & _ & _ & Hfi).
  destruct (Reader.after_calls_cursor fs r cs) as [Hr Hb].
  { rewrite Hfi. unfold len. lia. }
  rewrite Hr. rewrite Iteration.len_with_cursor, Iteration.file_index_with_cursor.
  split; [exact Hb|]. repeat split; reflexivity.
Qed.

Lemma reader_invariant_witness :
  let r' := after_calls (RT := Sample.runtime) Sample.dataset Sample.reader
              [Next; Getitem 5; Next; Next; Next; Iter; Next; Getitem (-1)] in
  (0 <= file_index r' <= len r')%Z
  /\ rgb_images r' = rgb_images Sample.reader
  /\ depth_images r' = depth_images Sample.reader
  /\ poses r' = poses Sample.reader /\ quats r' = quats Sample.reader
  /\ depth_scaling r' = depth_scaling Sample.reader
  /\ min_range r' = min_range Sample.reader /\ max_range r' = max_range Sample.reader
  /\ data_dir r' = data_dir Sample.reader.
Proof.
  apply (@reader_invariant Sample.runtime Sample.dataset "data"
           default_min_range default_max_range default_depth_scaling
           Sample.reader
           [Next; Getitem 5; Next; Next; Next; Iter; Next; Getitem (-1)]
           sample_reader_init).
Defined.

(** X14. An iteration stops at the first position whose images cannot be
    opened: the exception of the subscript at that position leaves the
    loop, it is the error of opening an image, and the cursor stays at that
    position, so that a further call of [__next__] raises again. *)
Theorem iteration_stops_at_unreadable_frame {RT : Runtime}
  (fs : filesystem) (dir : path) (mn mx : number) (sc : float) (r : t)
  (k fuel : nat) :
  init fs dir mn mx sc = Ok r ->
  (k < length (rgb_images r))%nat ->
  (forall j, (j < k)%nat -> Spec.loadable fs r j = true) ->
  Spec.loadable fs r k = false ->
  (k < fuel)%nat ->
  exists e,
    let r' := Spec.with_cursor r (Z.of_nat k) in
    iterate fs fuel r = Some (Raise e, r')
    /\ fst (getitem fs (Z.of_nat k) r) = Raise e
    /\ is_image_error e = true
    /\ next fs r' = (Raise e, r').
Proof.
  intros H Hk Hbefore Hl Hfuel.
  pose proof (Construction.init_consistent _ _ _ _ _ _ H) as Hc.
  destruct (Reader.getitem_unloadable fs r k Hc Hk Hl) as (e & He & Hie).
  exists e. cbv zeta. split.
  - unfold iterate, iter.
    change (snd (set_file_index 0 r)) with (Spec.with_cursor r (Z.of_nat 0)).
    apply (Reader.drain_until_unloadable fs r k e Hc Hk Hbefore He k 0 fuel);
      [reflexivity|exact Hfuel].
  - split; [rewrite He; reflexivity|]. split; [exact Hie|].
    apply Reader.next_raises.
    + rewrite Iteration.len_with_cursor, Iteration.file_index_with_cursor.
      unfold len. lia.
    + rewrite Iteration.file_index_with_cursor, Iteration.getitem_with_cursor, He.
      reflexivity.
Qed.

Lemma iteration_stops_at_unreadable_frame_witness :
  exists e,
    let r' := Spec.with_cursor Sample.reader (Z.of_nat 1) in
    iterate (RT := Sample.runtime) Sample.dataset_without_depth_2 3 Sample.reader
    = Some (Raise e, r')
    /\ fst (getitem (RT := Sample.runtime) Sample.dataset_without_depth_2 (Z.of_nat 1)
              Sample.reader) = Raise e
    /\ is_image_error e = true
    /\ next (RT := Sample.runtime) Sample.dataset_without_depth_2 r' = (Raise e, r').
Proof.
  apply (@iteration_stops_at_unreadable_frame Sample.runtime
           Sample.dataset_without_depth_2 "data"
           default_min_range default_max_range default_depth_scaling
           Sample.reader 1 3).
  - vm_compute. reflexivity.
  - vm_compute. lia.
  - intros j Hj. assert (j = 0%nat) as -> by lia. vm_compute. reflexivity.
  - vm_compute. reflexivity.
  - lia.
Defined.

(** X15. A full iteration gives the same outcome whatever calls were made
    on the reader before: [__iter__] starts over from the first frame, and
    an iteration that was under way is lost. *)
Theorem iteration_starts_over {RT : Runtime}
  (fs : filesystem) (dir : path) (mn mx : number) (sc : float) (r : t)
  (cs : list call) (fuel : nat) :
  init fs dir mn mx sc = Ok r ->
  iterate fs fuel (after_calls fs r cs) = iterate fs fuel r
  /\ snd (iter (after_calls fs r cs)) = r.
Proof.
  intros H.
  destruct (Construction.init_inv _ _ _ _ _ _ H) as (ms & _ & _ & _ & _ & _ & _ & _ & _ & Hfi).
  destruct (Reader.after_calls_cursor fs r cs) as [Hr _].
  { rewrite Hfi. unfold len. lia. }
  assert (Hiter : snd (iter (after_calls fs r cs)) = r).
  { rewrite Hr. unfold iter.
    change (snd (set_file_index 0 (Spec.with_cursor r ?v)))
      with (Spec.with_cursor r 0).
    rewrite <- Hfi. apply Iteration.with_cursor_same. }
  split; [|exact Hiter]. unfold iterate. rewrite Hiter.
  unfold iter. change (snd (set_file_index 0 r)) with (Spec.with_cursor r 0).
  rewrite <- Hfi, Iteration.with_cursor_same. reflexivity.
Qed.

Lemma iteration_starts_over_witness :
  iterate (RT := Sample.runtime) Sample.dataset 5
    (after_calls (RT := Sample.runtime) Sample.dataset Sample.reader [Next; Getitem 7])
  = iterate (RT := Sample.runtime) Sample.dataset 5 Sample.reader
  /\ snd (iter (after_calls (RT := Sample.runtime) Sample.dataset Sample.reader
                  [Next; Getitem 7]))
     = Sample.reader.
Proof.
  apply (@iteration_starts_over Sample.runtime Sample.dataset "data"
           default_min_range default_max_range default_depth_scaling
           Sample.reader [Next; Getitem 7] 5 sample_reader_init).
Defined.

End Stepping.


(** ** What construction reads, and the depth map *)

Module Depth.

Import Notions TUMReader.

Lemma getitem_without_depth {RT : Runtime} (fs : filesystem) (i : Z) (r1 r2 : t) :
  rgb_images r1 = rgb_images r2 -> depth_images r1 = depth_images r2 ->
  poses r1 = poses r2 -> quats r1 = quats r2 ->
  without_depth (fst (getitem fs i r1)) = without_depth (fst (getitem fs i r2)).
Proof.
  destruct r1 as [dd1 mn1 mx1 sc1 rps1 dps1 ps1 qs1 fi1].
  destruct r2 as [dd2 mn2 mx2 sc2 rps2 dps2 ps2 qs2 fi2].
  cbn [rgb_images depth_images poses quats].
  intros <- <- <- <-.
  unfold getitem, mbind, attr, lift, raise, ret, len.
  cbv beta iota delta [snd poses quats depth_images rgb_images depth_scaling].
  destruct (Z.of_nat (length rps1) <=? i)%Z; [reflexivity|].
  destruct (py_getitem ps1 i); [|reflexivity].
  destruct (py_getitem qs1 i); [|reflexivity].
  destruct (py_getitem dps1 i) as [dp|]; [|reflexivity].
  destruct (Image_open fs dp); [|reflexivity].
  destruct (py_getitem rps1 i) as [rp|]; [|reflexivity].
  destruct (Image_open fs rp); reflexivity.
Qed.

(** X16. [depth_scaling] reaches the depth map and nothing else: when a
    reader is constructed with one divisor, one is constructed with any
    other, with the same paths and poses, and the subscript gives for every
    index the same error or the same index, translation, orientation and
    color image. *)
Theorem depth_scaling_reaches_depth_only {RT : Runtime}
  (fs : filesystem) (dir : path) (mn mx : number) (sc1 sc2 : float) (r1 : t) :
  init fs dir mn mx sc1 = Ok r1 ->
  exists r2,
    init fs dir mn mx sc2 = Ok r2
    /\ depth_scaling r2 = sc2
    /\ len r1 = len r2 /\ poses r1 = poses r2 /\ quats r1 = quats r2
    /\ forall i,
         without_depth (fst (getitem fs i r1)) = without_depth (fst (getitem fs i r2)).
Proof.
  intros H1.
  destruct (Construction.init_inv _ _ _ _ _ _ H1) as (ms & Hms & Hp & Hr & Hd & _).
  exists (mkReader dir mn mx sc2 (rgb_images r1) (depth_images r1)
            (poses r1) (quats r1) 0).
  split.
  { unfold init, load_tum_data. rewrite Hms. cbn [bind]. rewrite Hp. cbn [bind fst snd].
    rewrite Hr, Hd. reflexivity. }
  repeat (split; [reflexivity|]).
  intros i. apply getitem_without_depth; reflexivity.
Qed.

Lemma depth_scaling_reaches_depth_only_witness :
  exists r2,
    init (RT := Sample.runtime) Sample.dataset "data" default_min_range default_max_range
         1000%float = Ok r2
    /\ depth_scaling r2 = 1000%float
    /\ len Sample.reader = len r2
    /\ poses Sample.reader = poses r2 /\ quats Sample.reader = quats r2
    /\ forall i,
         without_depth (fst (getitem (RT := Sample.runtime) Sample.dataset i Sample.reader))
         = without_depth (fst (getitem (RT := Sample.runtime) Sample.dataset i r2)).
Proof.
  apply (@depth_scaling_reaches_depth_only Sample.runtime Sample.dataset "data"
           default_min_range default_max_range default_depth_scaling 1000%float
           Sample.reader sample_reader_init).
Defined.

(** X17. Construction reads the three list files and no other file: on two
    file systems that agree on [rgb.txt], [depth.txt], [groundtruth.txt]
    and [poses.txt] it gives the same reader, or the same error, whatever
    the images are. *)
Theorem construction_reads_list_files {RT : Runtime}
  (fs fs' : filesystem) (dir : path) (mn mx : number) (sc : float) :
  fs (joinpath dir "rgb.txt") = fs' (joinpath dir "rgb.txt") ->
  fs (joinpath dir "depth.txt") = fs' (joinpath dir "depth.txt") ->
  fs (joinpath dir "groundtruth.txt") = fs' (joinpath dir "groundtruth.txt") ->
  fs (joinpath dir "poses.txt") = fs' (joinpath dir "poses.txt") ->
  init fs dir mn mx sc = init fs' dir mn mx sc.
Proof.
  intros Hr Hd Hg Hp.
  assert (Hpf : pose_file_of fs dir = pose_file_of fs' dir)
    by (unfold pose_file_of, exists_; rewrite Hg; reflexivity).
  assert (Hpose : fs (pose_file_of fs dir) = fs' (pose_file_of fs dir)).
  { unfold pose_file_of, exists_.
    destruct (fs (joinpath dir "groundtruth.txt")) eqn:E; [rewrite E; exact Hg|exact Hp]. }
  unfold init, load_tum_data, load_matches, load_matches_from, read_file_list, open_lines.
  rewrite <- Hpf, <- Hr, <- Hd, <- Hpose. reflexivity.
Qed.

Lemma construction_reads_list_files_witness :
  init (RT := Sample.runtime) Sample.dataset "data"
       default_min_range default_max_range default_depth_scaling
  = init (RT := Sample.runtime) Sample.dataset_without_depth_2 "data"
         default_min_range default_max_range default_depth_scaling.
Proof.
  apply (@construction_reads_list_files Sample.runtime
           Sample.dataset Sample.dataset_without_depth_2 "data"); reflexivity.
Defined.

Lemma exact_from_range (bits : nat) (base v : Z) :
  exact_from bits base = true ->
  (base <= v < base + 2 ^ Z.of_nat bits)%Z ->
  represents (float32_of_Z v) v = true.
Proof.
  revert base. induction bits as [|b IH]; intros base H Hv.
  - cbn in *. replace v with base by lia. exact H.
  - cbn [exact_from] in H. apply andb_true_iff in H. destruct H as [H1 H2].
    rewrite Nat2Z.inj_succ, Z.pow_succ_r in Hv by lia.
    destruct (Z_lt_le_dec v (base + 2 ^ Z.of_nat b)).
    + apply (IH base H1). lia.
    + apply (IH _ H2). lia.
Qed.

Lemma sixteen_bit_samples : exact_from 16 0 = true.
Proof. vm_compute. reflexivity. Qed.

(** X18. The conversion of a stored sample to float32 loses nothing for
    the samples of 8 and 16 bit images: for [0 <= v < 65536] the float32 is
    the integer [v]. *)
Theorem sample_conversion_exact (v : Z) :
  (0 <= v < 65536)%Z -> represents (float32_of_Z v) v = true.
Proof.
  intros Hv. apply (exact_from_range 16 0 v sixteen_bit_samples).
  change (2 ^ Z.of_nat 16)%Z with 65536%Z. lia.
Qed.

Lemma sample_conversion_exact_witness :
  represents (float32_of_Z 65535) 65535 = true.
Proof. apply (sample_conversion_exact 65535). lia. Defined.

(** X19. A stored sample 0 (no measurement) comes out as a zero of the
    depth map, for every divisor whose float32 is finite and not zero. *)
Theorem zero_sample_stays_zero (img : image) (sc : float) (row col band : nat)
  (s : bool) (m : positive) (e : Z) :
  float32_of_float sc = S754_finite s m e ->
  Spec.sample img row col band = Some 0%Z ->
  Spec.sample (divide_array (to_float32_array img) sc) row col band
  = Some (S754_zero s).
Proof.
  intros Hsc Hv. unfold divide_array, to_float32_array.
  rewrite !sample_map, Hv. cbn [option_map]. rewrite Hsc. reflexivity.
Qed.

Lemma zero_sample_stays_zero_witness :
  Spec.sample (divide_array (to_float32_array [[[10000%Z]; [0%Z]]]) default_depth_scaling)
    0 1 0
  = Some (S754_zero false).
Proof.
  apply (zero_sample_stays_zero [[[10000%Z]; [0%Z]]] default_depth_scaling 0 1 0
           false 10240000 (-11)); reflexivity.
Defined.

End Depth.

(** ** Shared partners, an empty color list, a pose file that does not parse *)

Module Edges.

Import Notions TUMReader.

(** X20. The partners of a color record depend on its timestamp only, and
    a record of the depth or pose list is not used up by a match: a second
    color record with the same timestamp gets the same depth file and the
    same pose tokens. *)
Theorem partners_are_shared (depth_list pose_list : list record) (ts : float)
  (data1 data2 : list string) (m1 : Match) :
  associate_one depth_list pose_list ts data1 = Ok (Some m1) ->
  Spec.has_token (ts, data2) = true ->
  associate_one depth_list pose_list ts data2
  = Ok (Some (mkMatch (Spec.file_path_token (ts, data2)) (m_depth m1) (m_pose m1))).
Proof.
  intros H1 Htok.
  destruct (np_argmin (abs_diffs (map fst depth_list) ts)) as [kd|e] eqn:Hkd.
  2:{ unfold associate_one, depth_timestamps in H1. rewrite Hkd in H1. discriminate. }
  destruct (Associating.selected_record_inv _ _ _ Hkd) as [d Hd].
  rewrite (Associating.associate_one_depth _ _ _ _ _ _ Hkd Hd) in H1.
  rewrite (Associating.associate_one_depth _ _ _ _ _ _ Hkd Hd).
  revert H1.
  destruct (gtb (Spec.dist ts d) threshold); [discriminate|].
  destruct (np_argmin (abs_diffs (map fst pose_list) ts)) as [kp|e];
    cbn [bind]; [|discriminate].
  destruct (list_get pose_list kp) as [p|e]; cbn [bind]; [|discriminate].
  destruct (gtb (Spec.dist ts p) threshold); [discriminate|].
  destruct (list_get data1 0) as [rgb|]; cbn [bind]; [|discriminate].
  unfold Spec.has_token in Htok. unfold Spec.file_path_token. cbn [snd] in *.
  destruct data2 as [|tok2 ?]; [discriminate Htok|]. cbn [list_get nth_error bind hd].
  destruct (list_get (snd d) 0) as [depth|]; cbn [bind]; [|discriminate].
  intros H1. injection H1 as <-. reflexivity.
Qed.

Lemma partners_are_shared_witness :
  associate_one
    [(0.5%float, ["depth/1.png"])] [(0.5%float, ["1"; "2"; "3"; "0"; "0"; "0"; "1"])]
    0.5%float ["rgb/2.png"]
  = Ok (Some (mkMatch "rgb/2.png" "depth/1.png" ["1"; "2"; "3"; "0"; "0"; "0"; "1"])).
Proof.
  apply (partners_are_shared
           [(0.5%float, ["depth/1.png"])] [(0.5%float, ["1"; "2"; "3"; "0"; "0"; "0"; "1"])]
           0.5%float ["rgb/1.png"] ["rgb/2.png"]
           (mkMatch "rgb/1.png" "depth/1.png" ["1"; "2"; "3"; "0"; "0"; "0"; "1"]));
    reflexivity.
Defined.

(** X21. A color list without record gives an empty reader, whatever the
    depth and pose lists hold (they may be empty): its length is 0, the
    subscript raises [IndexError] for every index, and an iteration yields
    nothing. *)
Theorem empty_color_list {RT : Runtime}
  (fs : filesystem) (dir : path) (mn mx : number) (sc : float)
  (depth_list pose_list : list record) (fuel : nat) :
  read_file_list fs (joinpath dir "rgb.txt") = Ok [] ->
  read_file_list fs (joinpath dir "depth.txt") = Ok depth_list ->
  read_file_list fs (pose_file_of fs dir) = Ok pose_list ->
  let r := mkReader dir mn mx sc [] [] [] [] 0 in
  init fs dir mn mx sc = Ok r
  /\ len r = 0%Z
  /\ (forall i, getitem fs i r = (Raise IndexError, r))
  /\ iterate fs (S fuel) r = Some (Ok [], r).
Proof.
  intros Hr Hd Hp. cbv zeta. split.
  { unfold init, load_tum_data, load_matches, load_matches_from.
    rewrite Hr, Hd, Hp. reflexivity. }
  split; [reflexivity|]. split; [|reflexivity].
  intros i. destruct (Z_lt_le_dec i 0) as [Hi|Hi].
  - apply Subscript.getitem_below; [repeat split|exact Hi].
  - apply Subscript.getitem_at_or_above. exact Hi.
Qed.

Lemma empty_color_list_witness :
  let fs := Sample.files [("data/rgb.txt", TextFile ["# timestamp filename"]);
                          ("data/depth.txt", TextFile []);
                          ("data/poses.txt", TextFile [])] in
  let r := mkReader "data" default_min_range default_max_range default_depth_scaling
             [] [] [] [] 0 in
  init (RT := Sample.runtime) fs "data"
       default_min_range default_max_range default_depth_scaling = Ok r
  /\ len r = 0%Z
  /\ (forall i, getitem (RT := Sample.runtime) fs i r = (Raise IndexError, r))
  /\ iterate (RT := Sample.runtime) fs 1 r = Some (Ok [], r).
Proof.
  apply (@empty_color_list Sample.runtime
           (Sample.files [("data/rgb.txt", TextFile ["# timestamp filename"]);
                          ("data/depth.txt", TextFile []);
                          ("data/poses.txt", TextFile [])])
           "data" default_min_range default_max_range default_depth_scaling [] [] 0);
    reflexivity.
Defined.

(** X22. There is no fallback once [groundtruth.txt] exists: when it does
    not parse, or cannot be read as a text file, construction raises its
    error and [poses.txt] is not looked at. *)
Theorem no_fallback_to_poses_txt {RT : Runtime}
  (fs : filesystem) (dir : path) (mn mx : number) (sc : float) (e : exn) :
  succeeds (read_file_list fs (joinpath dir "rgb.txt")) = true ->
  succeeds (read_file_list fs (joinpath dir "depth.txt")) = true ->
  exists_ fs (joinpath dir "groundtruth.txt") = true ->
  read_file_list fs (joinpath dir "groundtruth.txt") = Raise e ->
  init fs dir mn mx sc = Raise e.
Proof.
  intros Hr Hd Hg He. apply init_raises.
  unfold load_matches, load_matches_from, pose_file_of. rewrite Hg.
  destruct (read_file_list fs (joinpath dir "rgb.txt")); [|discriminate].
  destruct (read_file_list fs (joinpath dir "depth.txt")); [|discriminate].
  cbn [bind]. rewrite He. reflexivity.
Qed.

Lemma no_fallback_to_poses_txt_witness :
  init (RT := Sample.runtime)
    (Sample.tree [("data/groundtruth.txt", TextFile ["timestamp tx ty tz qx qy qz qw"]);
                  ("data/poses.txt", TextFile Sample.trajectory)])
    "data" default_min_range default_max_range default_depth_scaling
  = Raise ValueError.
Proof.
  apply (@no_fallback_to_poses_txt Sample.runtime
           (Sample.tree [("data/groundtruth.txt",
                          TextFile ["timestamp tx ty tz qx qy qz qw"]);
                         ("data/poses.txt", TextFile Sample.trajectory)])
           "data" default_min_range default_max_range default_depth_scaling ValueError);
    reflexivity.
Defined.

End Edges.
